(** * IR analyzer (Ollama): document pipeline, annotation client, persistence

    A shallow embedding of the backend of the IR sentiment analyzer
    (src/backend: analysis_engine.py, database.py, document_processor.py,
    audio_processor.py, main.py, main_audio.py) and the verification of the
    properties its specification states about it.

    Conventions of the embedding.
    - A Python [str] is a list of Unicode code points ([N]); [py "abc"] is
      the literal.  Slices [s[:n]] are [firstn n].
    - A Python object that comes out of [json.loads] (or a literal of the
      same shape) is a [pyvalue].  Dictionaries keep insertion order.
    - A Python exception is an [exn]; code that may raise returns a
      [result]; code that also touches the SQLite file is a state
      transformer over [db] whose state survives an exception, because every
      statement of database.py is followed by [conn.commit()].
    - The outside world (the Ollama HTTP endpoint, the file system, the
      speech model) is an oracle: each interaction is an argument of the
      operation that performs it, and theorems quantify over it.  So is
      the interpreter the code runs in ([Py.interpreter]): how many nested
      calls it still allows, and what its standard output can encode. *)

From Stdlib Require Import String Ascii.
From Stdlib Require Import ZArith NArith List Bool Lia Decimal DecimalN DecimalZ DecimalFacts.
From Stdlib Require Import Floats.
Import ListNotations.


Set Warnings "-register-all".

(* ===================================================================== *)
(** ** Python values                                                      *)
(* ===================================================================== *)

Module Py.

Definition codepoint := N.
Definition str := list codepoint.

(** A string literal of the source. *)
Definition py (s : string) : str := map N_of_ascii (list_ascii_of_string s).

Fixpoint str_eqb (a b : str) : bool :=
  match a, b with
  | [], [] => true
  | x :: a', y :: b' => N.eqb x y && str_eqb a' b'
  | _, _ => false
  end.

(** [x in l] for a list of strings. *)
Definition str_in (x : str) (l : list str) : bool := existsb (str_eqb x) l.

(** [sep.join(l)] for a list of strings. *)
Fixpoint join (sep : str) (l : list str) : str :=
  match l with
  | [] => []
  | [x] => x
  | x :: r => x ++ sep ++ join sep r
  end.

(** A float read by [json.loads] is kept as the text it was read from; the
    three named constants the decoder accepts are kept apart ([nan] is the
    one float that sqlite3 binds as NULL). *)
Inductive pyfloat :=
| FNaN
| FInfinity
| FNegInfinity
| FLiteral (text : str).

Inductive pyvalue :=
| PNone
| PBool (b : bool)
| PInt (z : Z)
| PFloat (f : pyfloat)
| PStr (s : str)
| PList (l : list pyvalue)
| PDict (d : list (str * pyvalue)).

(** Exceptions.  All of them are subclasses of [Exception];
    [JSONDecodeError] is the only one a handler of the source singles out. *)
Inductive exn :=
| KeyError (key : str)
| TypeError
| AttributeError
| ValueError
| ImportError
| OSError
| JSONDecodeError
| OverflowError
| RecursionError
| ProgrammingError
| IntegrityError
| UnicodeEncodeError
| ConnectionError
| RequestException
| Exception_ (prefix : str) (cause : option exn)
    (* [Exception(f"{prefix}{str(cause)}")] *)
| HTTPException (status_code : Z) (detail : str) (cause : option exn)
    (* [HTTPException(status_code, detail=f"{detail}{str(cause)}")] *).

Inductive result (A : Type) :=
| Ok (a : A)
| Raise (e : exn).
Arguments Ok {A} a.
Arguments Raise {A} e.

Definition rbind {A B} (r : result A) (k : A -> result B) : result B :=
  match r with
  | Ok a => k a
  | Raise e => Raise e
  end.

(** [try: body  except ... as e: handler e], for code without side
    effects on the database. *)
Definition rcatch {A} (body : result A) (handler : exn -> result A)
  : result A :=
  match body with
  | Ok a => Ok a
  | Raise e => handler e
  end.

(** *** Dictionaries *)

Fixpoint dict_lookup (k : str) (d : list (str * pyvalue)) : option pyvalue :=
  match d with
  | [] => None
  | (k', v) :: r => if str_eqb k k' then Some v else dict_lookup k r
  end.

(** [d[k] = v]: an existing key keeps its position. *)
Fixpoint dict_set (k : str) (v : pyvalue) (d : list (str * pyvalue))
  : list (str * pyvalue) :=
  match d with
  | [] => [(k, v)]
  | (k', v') :: r =>
      if str_eqb k k' then (k', v) :: r else (k', v') :: dict_set k v r
  end.

(** [v[k]] for a string key [k]. *)
Definition getitem (v : pyvalue) (k : str) : result pyvalue :=
  match v with
  | PDict d =>
      match dict_lookup k d with
      | Some x => Ok x
      | None => Raise (KeyError k)
      end
  | _ => Raise TypeError
  end.

(** [v.get(k, default)]: only dictionaries have the method. *)
Definition get (v : pyvalue) (k : str) (default : pyvalue) : result pyvalue :=
  match v with
  | PDict d =>
      match dict_lookup k d with
      | Some x => Ok x
      | None => Ok default
      end
  | _ => Raise AttributeError
  end.

(** The items a [for] loop (or [enumerate]) draws from [v]. *)
Definition iter (v : pyvalue) : result (list pyvalue) :=
  match v with
  | PList l => Ok l
  | PDict d => Ok (map (fun kv => PStr (fst kv)) d)
  | PStr s => Ok (map (fun c => PStr [c]) s)
  | _ => Raise TypeError
  end.

(** [enumerate(l)]. *)
Fixpoint enumerate_from {A} (i : Z) (l : list A) : list (Z * A) :=
  match l with
  | [] => []
  | x :: r => (i, x) :: enumerate_from (i + 1) r
  end.

Definition enumerate {A} (l : list A) : list (Z * A) := enumerate_from 0 l.

(** *** Paths and case *)

(** [s.rfind(c)]: the last index of [c] in [s], or -1. *)
Fixpoint rfind_from (c : codepoint) (s : str) (i best : Z) : Z :=
  match s with
  | [] => best
  | x :: r => rfind_from c r (i + 1) (if N.eqb x c then i else best)
  end.

Definition rfind (c : codepoint) (s : str) : Z := rfind_from c s 0 (-1).

(** [s[i:j]] for [0 <= i]. *)
Definition slice (s : str) (i j : Z) : str :=
  firstn (Z.to_nat (j - i)) (skipn (Z.to_nat i) s).

(** [os.path.splitext(p)] (posixpath): the extension starts at the last
    dot of the last component, unless that component has only dots before
    it. *)
Definition splitext (p : str) : str * str :=
  let sepIndex := rfind 47%N p in
  let dotIndex := rfind 46%N p in
  if (sepIndex <? dotIndex)%Z
     && existsb (fun c => negb (N.eqb c 46%N)) (slice p (sepIndex + 1) dotIndex)
  then (firstn (Z.to_nat dotIndex) p, skipn (Z.to_nat dotIndex) p)
  else (p, []).

(** [s.lower()] on the letters A to Z.  The extension tests below compare
    the result with lists of lower-case ASCII names none of which has a
    letter that a character outside ASCII lowers to, so the tests come out
    as with the full mapping. *)
Definition lower (s : str) : str :=
  map (fun c => if (65 <=? c)%N && (c <=? 90)%N then (c + 32)%N else c) s.

(** [s.split(c)]. *)
Fixpoint split_on (c : codepoint) (s : str) : list str :=
  match s with
  | [] => [[]]
  | x :: r =>
      if N.eqb x c then [] :: split_on c r
      else match split_on c r with
           | [] => [[x]]
           | w :: ws => (x :: w) :: ws
           end
  end.

(** [Path(p).suffix] (PurePosixPath): the last component that is neither
    empty nor a single dot, from its last dot on, when that dot is neither
    its first nor its last character. *)
Definition path_suffix (p : str) : str :=
  let parts :=
    filter (fun w => negb (str_eqb w []) && negb (str_eqb w [46%N]))
           (split_on 47%N p) in
  let name := last parts [] in
  let i := rfind 46%N name in
  if (0 <? i)%Z && (i <? Z.of_nat (List.length name) - 1)%Z
  then skipn (Z.to_nat i) name
  else [].

(** *** [str.strip] *)

(** The characters [str.strip()] removes. *)
Definition is_space (c : codepoint) : bool :=
  ((9 <=? c) && (c <=? 13) || (28 <=? c) && (c <=? 32)
   || N.eqb c 133 || N.eqb c 160 || N.eqb c 5760
   || (8192 <=? c) && (c <=? 8202)
   || N.eqb c 8232 || N.eqb c 8233 || N.eqb c 8239 || N.eqb c 8287
   || N.eqb c 12288)%N.

Fixpoint lstrip (s : str) : str :=
  match s with
  | c :: r => if is_space c then lstrip r else s
  | [] => []
  end.

Definition strip (s : str) : str := List.rev (lstrip (List.rev (lstrip s))).

Definition nonempty {A} (l : list A) : bool :=
  match l with
  | [] => false
  | _ :: _ => true
  end.

(** *** [str(int)] and [int(str)] on decimal digits *)

Fixpoint digits_of_uint (u : Decimal.uint) : str :=
  match u with
  | Nil => []
  | D0 u => 48%N :: digits_of_uint u
  | D1 u => 49%N :: digits_of_uint u
  | D2 u => 50%N :: digits_of_uint u
  | D3 u => 51%N :: digits_of_uint u
  | D4 u => 52%N :: digits_of_uint u
  | D5 u => 53%N :: digits_of_uint u
  | D6 u => 54%N :: digits_of_uint u
  | D7 u => 55%N :: digits_of_uint u
  | D8 u => 56%N :: digits_of_uint u
  | D9 u => 57%N :: digits_of_uint u
  end.

(** [str(z)]. *)
Definition str_of_int (z : Z) : str :=
  match Z.to_int z with
  | Decimal.Pos u => digits_of_uint u
  | Decimal.Neg u => 45%N :: digits_of_uint u
  end.

Definition is_digit (c : codepoint) : bool := (48 <=? c)%N && (c <=? 57)%N.

(** The digits of a run of characters for which [is_digit] holds. *)
Fixpoint uint_of_digits (ds : str) : Decimal.uint :=
  match ds with
  | [] => Nil
  | c :: r =>
      let u := uint_of_digits r in
      match (c - 48)%N with
      | 0%N => D0 u
      | 1%N => D1 u
      | 2%N => D2 u
      | 3%N => D3 u
      | 4%N => D4 u
      | 5%N => D5 u
      | 6%N => D6 u
      | 7%N => D7 u
      | 8%N => D8 u
      | _ => D9 u
      end
  end.

(** [int(text)] for [text] an optional minus sign and a run of digits. *)
Definition int_of_digits (negative : bool) (ds : str) : Z :=
  Z.of_int (if negative then Decimal.Neg (uint_of_digits ds)
            else Decimal.Pos (uint_of_digits ds)).

(** *** The interpreter *)

(** What the code finds of the interpreter it runs in.
    - [recursion_room]: the number of nested calls that are still allowed
      where [json.loads] is called on the text the model generated (the
      recursion limit less the frames in use).
    - [stdout_surrogateescape]: standard output is UTF-8, as Python opens
      it on POSIX systems; its error handler is [strict] in a UTF-8 locale
      and [surrogateescape] in the C locale. *)
Record interpreter := {
  recursion_room : nat;
  stdout_surrogateescape : bool
}.

Definition is_surrogate (c : codepoint) : bool :=
  (55296 <=? c)%N && (c <=? 57343)%N.

(** A code point in the surrogate range has no UTF-8 encoding. *)
Definition encodable (s : str) : bool :=
  forallb (fun c => negb (is_surrogate c)) s.

(** The text can be written to standard output: it has no surrogate, or
    only those that [surrogateescape] turns back into bytes (U+DC80 to
    U+DCFF). *)
Definition printable (i : interpreter) (s : str) : bool :=
  forallb (fun c => negb (is_surrogate c)
                    || (stdout_surrogateescape i
                        && (56448 <=? c)%N && (c <=? 56575)%N)) s.

(** [print(s)]. *)
Definition print (i : interpreter) (s : str) : result unit :=
  if printable i s then Ok tt else Raise UnicodeEncodeError.

(** The part of [str(e)] that is text from outside the program, copied as
    it is.  The rest of the message is ASCII text of the library or of the
    source, or a [repr], which escapes what cannot be printed. *)
Fixpoint foreign_text (e : exn) : str :=
  match e with
  | Exception_ prefix cause =>
      prefix ++ match cause with Some c => foreign_text c | None => [] end
  | HTTPException _ detail cause =>
      detail ++ match cause with Some c => foreign_text c | None => [] end
  | _ => []
  end.

End Py.

(* ===================================================================== *)
(** ** The json module of the Python library                              *)
(* ===================================================================== *)

(** [json.loads] as CPython's scanner decodes it (strict mode, the
    constants [NaN], [Infinity] and [-Infinity] accepted), and [json.dumps]
    on the one shape database.py writes to a column whose round trip is
    studied below: a list of integers.

    There are two decoders.  [loads] follows the grammar alone; it reads
    back what database.py wrote with [json.dumps].  [decode] is [loads]
    with the two limits of the interpreter that text from outside can run
    into: an integer literal of more than [max_str_digits] digits is a
    [ValueError], and a container nested deeper than the interpreter has
    room for is a [RecursionError].  The text the model generated goes
    through [decode]; but for the two limits it is [loads]
    ([JsonLimits.decode_agrees]). *)

Module Json.
Import Py.

Definition is_ws (c : codepoint) : bool :=
  N.eqb c 32 || N.eqb c 9 || N.eqb c 10 || N.eqb c 13.

Fixpoint skip_ws (s : str) : str :=
  match s with
  | c :: r => if is_ws c then skip_ws r else s
  | [] => []
  end.

(** [s] without the prefix [p], when it starts with it. *)
Fixpoint strip_prefix (p s : str) : option str :=
  match p, s with
  | [], _ => Some s
  | a :: p', b :: s' => if N.eqb a b then strip_prefix p' s' else None
  | _ :: _, [] => None
  end.

(** The longest prefix of digits, and what follows it. *)
Fixpoint span_digits (s : str) : str * str :=
  match s with
  | c :: r =>
      if is_digit c then let (ds, rest) := span_digits r in (c :: ds, rest)
      else ([], s)
  | [] => ([], [])
  end.

Definition hexval (c : codepoint) : option N :=
  if (48 <=? c)%N && (c <=? 57)%N then Some (c - 48)%N
  else if (97 <=? c)%N && (c <=? 102)%N then Some (c - 87)%N
  else if (65 <=? c)%N && (c <=? 70)%N then Some (c - 55)%N
  else None.

Definition hex4 (a b c d : codepoint) : option N :=
  match hexval a, hexval b, hexval c, hexval d with
  | Some x, Some y, Some z, Some w => Some (((x * 16 + y) * 16 + z) * 16 + w)%N
  | _, _, _, _ => None
  end.

Definition is_high_surrogate (c : N) : bool := (55296 <=? c)%N && (c <=? 56319)%N.
Definition is_low_surrogate (c : N) : bool := (56320 <=? c)%N && (c <=? 57343)%N.
Definition join_surrogates (hi lo : N) : N :=
  (65536 + (hi - 55296) * 1024 + (lo - 56320))%N.

Definition simple_escape (c : codepoint) : option codepoint :=
  if N.eqb c 34 then Some 34%N          (* quote *)
  else if N.eqb c 92 then Some 92%N     (* backslash *)
  else if N.eqb c 47 then Some 47%N     (* slash *)
  else if N.eqb c 98 then Some 8%N      (* b *)
  else if N.eqb c 102 then Some 12%N    (* f *)
  else if N.eqb c 110 then Some 10%N    (* n *)
  else if N.eqb c 114 then Some 13%N    (* r *)
  else if N.eqb c 116 then Some 9%N     (* t *)
  else None.

(** The body of a string, after its opening quote: the decoded text and
    what follows the closing quote. *)
Fixpoint scanstring (s : str) (acc : str) : option (str * str) :=
  match s with
  | [] => None
  | c :: r =>
      if N.eqb c 34 then Some (List.rev acc, r)
      else if N.eqb c 92 then
        match r with
        | [] => None
        | e :: r1 =>
            if N.eqb e 117 then
              match r1 with
              | h1 :: h2 :: h3 :: h4 :: r2 =>
                  match hex4 h1 h2 h3 h4 with
                  | None => None
                  | Some cp =>
                      if is_high_surrogate cp then
                        match r2 with
                        | b :: u :: k1 :: k2 :: k3 :: k4 :: r3 =>
                            match r3 with
                            | [] => scanstring r2 (cp :: acc)
                            | _ :: _ =>
                                if N.eqb b 92 && N.eqb u 117 then
                                  match hex4 k1 k2 k3 k4 with
                                  | None => None
                                  | Some c2 =>
                                      if is_low_surrogate c2
                                      then scanstring r3 (join_surrogates cp c2 :: acc)
                                      else scanstring r2 (cp :: acc)
                                  end
                                else scanstring r2 (cp :: acc)
                            end
                        | _ => scanstring r2 (cp :: acc)
                        end
                      else scanstring r2 (cp :: acc)
                  end
              | _ => None
              end
            else
              match simple_escape e with
              | Some x => scanstring r1 (x :: acc)
              | None => None
              end
        end
      else if (c <=? 31)%N then None
      else scanstring r (c :: acc)
  end.

(** A number at the head of [s]: integer part, optional fraction, optional
    exponent; an [int] when it has neither fraction nor exponent. *)
Definition match_number (s : str) : option (pyvalue * str) :=
  let (negative, s1) :=
    match s with
    | c :: r => if N.eqb c 45 then (true, r) else (false, s)
    | [] => (false, s)
    end in
  match s1 with
  | [] => None
  | d :: r1 =>
      if negb (is_digit d) then None
      else
        let (ipart, s2) :=
          if N.eqb d 48 then ([d], r1)
          else let (ds, rest) := span_digits r1 in (d :: ds, rest) in
        let (frac, s3) :=
          match s2 with
          | dot :: f :: r =>
              if N.eqb dot 46 && is_digit f
              then let (ds, rest) := span_digits r in (dot :: f :: ds, rest)
              else ([], s2)
          | _ => ([], s2)
          end in
        let (expo, s4) :=
          match s3 with
          | e :: r =>
              if N.eqb e 101 || N.eqb e 69 then
                let (sign, r') :=
                  match r with
                  | sg :: r'' =>
                      if N.eqb sg 45 || N.eqb sg 43 then ([sg], r'') else ([], r)
                  | [] => ([], r)
                  end in
                match span_digits r' with
                | ([], _) => ([], s3)
                | (ds, rest) => (e :: sign ++ ds, rest)
                end
              else ([], s3)
          | [] => ([], s3)
          end in
        match frac, expo with
        | [], [] => Some (PInt (int_of_digits negative ipart), s4)
        | _, _ =>
            Some (PFloat (FLiteral ((if negative then [45%N] else [])
                                    ++ ipart ++ frac ++ expo)), s4)
        end
  end.

(** [scan_once]: one value at the head of [s] (no leading white space),
    and what follows it.  [fuel] bounds the nesting and the number of items
    of a container; [loads] gives it more than the text can use
    ([JsonFuel.loads_fuel_suffices]). *)
Fixpoint scan_once (fuel : nat) (s : str) : option (pyvalue * str) :=
  match fuel with
  | O => None
  | S n =>
      match s with
      | [] => None
      | c :: r =>
          if N.eqb c 34 then
            match scanstring r [] with
            | Some (t, rest) => Some (PStr t, rest)
            | None => None
            end
          else if N.eqb c 123 then
            match skip_ws r with
            | c1 :: r1 =>
                if N.eqb c1 125 then Some (PDict [], r1)
                else object_members n (c1 :: r1) []
            | [] => None
            end
          else if N.eqb c 91 then
            match skip_ws r with
            | c1 :: r1 =>
                if N.eqb c1 93 then Some (PList [], r1)
                else array_items n (c1 :: r1) []
            | [] => None
            end
          else
            match strip_prefix (py "null") s with
            | Some rest => Some (PNone, rest)
            | None =>
            match strip_prefix (py "true") s with
            | Some rest => Some (PBool true, rest)
            | None =>
            match strip_prefix (py "false") s with
            | Some rest => Some (PBool false, rest)
            | None =>
            match strip_prefix (py "NaN") s with
            | Some rest => Some (PFloat FNaN, rest)
            | None =>
            match strip_prefix (py "Infinity") s with
            | Some rest => Some (PFloat FInfinity, rest)
            | None =>
            match strip_prefix (py "-Infinity") s with
            | Some rest => Some (PFloat FNegInfinity, rest)
            | None => match_number s
            end end end end end end
      end
  end

(** The items of an array, [s] at the first character of an item; [acc]
    holds the items read so far, last first. *)
with array_items (fuel : nat) (s : str) (acc : list pyvalue)
  : option (pyvalue * str) :=
  match fuel with
  | O => None
  | S n =>
      match scan_once n s with
      | None => None
      | Some (v, r) =>
          match skip_ws r with
          | c :: r1 =>
              if N.eqb c 93 then Some (PList (List.rev (v :: acc)), r1)
              else if N.eqb c 44 then array_items n (skip_ws r1) (v :: acc)
              else None
          | [] => None
          end
      end
  end

(** The members of an object, [s] at the opening quote of a key; [acc] is
    the dictionary built so far. *)
with object_members (fuel : nat) (s : str) (acc : list (str * pyvalue))
  : option (pyvalue * str) :=
  match fuel with
  | O => None
  | S n =>
      match s with
      | q :: r =>
          if N.eqb q 34 then
            match scanstring r [] with
            | None => None
            | Some (k, r1) =>
                match skip_ws r1 with
                | colon :: r2 =>
                    if N.eqb colon 58 then
                      match scan_once n (skip_ws r2) with
                      | None => None
                      | Some (v, r3) =>
                          match skip_ws r3 with
                          | c :: r4 =>
                              if N.eqb c 125
                              then Some (PDict (dict_set k v acc), r4)
                              else if N.eqb c 44
                              then object_members n (skip_ws r4) (dict_set k v acc)
                              else None
                          | [] => None
                          end
                      end
                    else None
                | [] => None
                end
            end
          else None
      | [] => None
      end
  end.

(** [json.loads(s)] for a [str]. *)
Definition loads (s : str) : result pyvalue :=
  match scan_once (4 * List.length s + 4) (skip_ws s) with
  | Some (v, rest) =>
      match skip_ws rest with
      | [] => Ok v
      | _ :: _ => Raise JSONDecodeError
      end
  | None => Raise JSONDecodeError
  end.

(** [sys.get_int_max_str_digits()], as the interpreter starts. *)
Definition max_str_digits : nat := 4300.

(** [match_number] under the digit limit of [int]: the digits of an
    integer literal are counted without its sign; a float has no limit. *)
Definition match_number_limited (s : str) : result (pyvalue * str) :=
  match match_number s with
  | None => Raise JSONDecodeError
  | Some (PInt z, rest) =>
      let sign := match s with
                  | c :: _ => if N.eqb c 45 then 1 else 0
                  | [] => 0
                  end in
      if max_str_digits <? List.length s - List.length rest - sign
      then Raise ValueError
      else Ok (PInt z, rest)
  | Some (v, rest) => Ok (v, rest)
  end.

(** [scan_once] under the limits: what the scanner meets first decides.
    [room] is the number of containers that can still be entered; the
    scanner enters one at every opening bracket or brace, an empty
    container included. *)
Fixpoint scan_limited (fuel room : nat) (s : str) : result (pyvalue * str) :=
  match fuel with
  | O => Raise JSONDecodeError
  | S n =>
      match s with
      | [] => Raise JSONDecodeError
      | c :: r =>
          if N.eqb c 34 then
            match scanstring r [] with
            | Some (t, rest) => Ok (PStr t, rest)
            | None => Raise JSONDecodeError
            end
          else if N.eqb c 123 then
            match room with
            | O => Raise RecursionError
            | S room' =>
                match skip_ws r with
                | c1 :: r1 =>
                    if N.eqb c1 125 then Ok (PDict [], r1)
                    else members_limited n room' (c1 :: r1) []
                | [] => Raise JSONDecodeError
                end
            end
          else if N.eqb c 91 then
            match room with
            | O => Raise RecursionError
            | S room' =>
                match skip_ws r with
                | c1 :: r1 =>
                    if N.eqb c1 93 then Ok (PList [], r1)
                    else items_limited n room' (c1 :: r1) []
                | [] => Raise JSONDecodeError
                end
            end
          else
            match strip_prefix (py "null") s with
            | Some rest => Ok (PNone, rest)
            | None =>
            match strip_prefix (py "true") s with
            | Some rest => Ok (PBool true, rest)
            | None =>
            match strip_prefix (py "false") s with
            | Some rest => Ok (PBool false, rest)
            | None =>
            match strip_prefix (py "NaN") s with
            | Some rest => Ok (PFloat FNaN, rest)
            | None =>
            match strip_prefix (py "Infinity") s with
            | Some rest => Ok (PFloat FInfinity, rest)
            | None =>
            match strip_prefix (py "-Infinity") s with
            | Some rest => Ok (PFloat FNegInfinity, rest)
            | None => match_number_limited s
            end end end end end end
      end
  end

with items_limited (fuel room : nat) (s : str) (acc : list pyvalue)
  : result (pyvalue * str) :=
  match fuel with
  | O => Raise JSONDecodeError
  | S n =>
      match scan_limited n room s with
      | Raise e => Raise e
      | Ok (v, r) =>
          match skip_ws r with
          | c :: r1 =>
              if N.eqb c 93 then Ok (PList (List.rev (v :: acc)), r1)
              else if N.eqb c 44
              then items_limited n room (skip_ws r1) (v :: acc)
              else Raise JSONDecodeError
          | [] => Raise JSONDecodeError
          end
      end
  end

with members_limited (fuel room : nat) (s : str) (acc : list (str * pyvalue))
  : result (pyvalue * str) :=
  match fuel with
  | O => Raise JSONDecodeError
  | S n =>
      match s with
      | q :: r =>
          if N.eqb q 34 then
            match scanstring r [] with
            | None => Raise JSONDecodeError
            | Some (k, r1) =>
                match skip_ws r1 with
                | colon :: r2 =>
                    if N.eqb colon 58 then
                      match scan_limited n room (skip_ws r2) with
                      | Raise e => Raise e
                      | Ok (v, r3) =>
                          match skip_ws r3 with
                          | c :: r4 =>
                              if N.eqb c 125
                              then Ok (PDict (dict_set k v acc), r4)
                              else if N.eqb c 44
                              then members_limited n room (skip_ws r4)
                                                   (dict_set k v acc)
                              else Raise JSONDecodeError
                          | [] => Raise JSONDecodeError
                          end
                      end
                    else Raise JSONDecodeError
                | [] => Raise JSONDecodeError
                end
            end
          else Raise JSONDecodeError
      | [] => Raise JSONDecodeError
      end
  end.

(** [json.loads(s)] for a [str], in the interpreter [i]. *)
Definition decode (i : interpreter) (s : str) : result pyvalue :=
  match scan_limited (4 * List.length s + 4) (recursion_room i) (skip_ws s) with
  | Ok (v, rest) =>
      match skip_ws rest with
      | [] => Ok v
      | _ :: _ => Raise JSONDecodeError
      end
  | Raise e => Raise e
  end.

(** [json.loads(v)] for an object [v]: anything but text is a [TypeError]. *)
Definition decode_obj (i : interpreter) (v : pyvalue) : result pyvalue :=
  match v with
  | PStr s => decode i s
  | _ => Raise TypeError
  end.

(** [json.dumps(ids)] for a list of integers. *)
Definition dumps_ints (ids : list Z) : str :=
  [91%N] ++ join (py ", ") (map str_of_int ids) ++ [93%N].

End Json.

(* ===================================================================== *)
(** ** database.py                                                        *)
(* ===================================================================== *)

(** The SQLite file as the five tables of [init_db], each a list of rows in
    rowid order.  Every [id] column is [INTEGER PRIMARY KEY AUTOINCREMENT]:
    a new row takes the successor of the largest rowid the table ever had,
    which [sqlite_sequence] remembers ([seq_*] below).  A [SELECT] without
    [ORDER BY] on these tables is a table scan and yields rowid order.
    Timestamps are left out: no operation modelled here reads them.

    An id is a rowid that an [INSERT] returned or that a request names, and
    text that arrives in a request (title, document type, file name) is
    well-formed Unicode: these are stored as they are.  What the language
    model returns is arbitrary, and goes through [bind_param].

    A scalar column holds the SQL value sqlite3 binds for the Python object
    it is given ([bind_param]), converted as the declared type of the
    column asks ([integer_affinity] for the INTEGER score columns,
    [text_affinity] for the TEXT columns).  A column written with
    [json.dumps(v)] and read with [json.loads] holds [v] itself for
    analyses and sections (every [pyvalue] is serializable);
    [comparisons.document_ids] holds the text, since its round trip is the
    subject of a property below. *)

Module database.
Import Py.

(** The value in a column.  Two conversions of the engine are kept as
    they are asked for rather than carried out, because their result
    depends on the version of the engine: the number it reads from text
    with a fraction, an exponent or more digits than a 64-bit integer has,
    and the text it prints a real as. *)
Inductive sqlval :=
| SqlNull
| SqlInt (z : Z)
| SqlReal (f : pyfloat)
| SqlText (s : str)
| SqlNumberOfText (s : str)
    (* the number the engine reads from [s]: a REAL, or the INTEGER equal
       to it *)
| SqlTextOfReal (f : pyfloat)
    (* the text the engine prints [f] as *).

(** The SQL value sqlite3 binds for a statement parameter. *)
Definition bind_param (v : pyvalue) : result sqlval :=
  match v with
  | PNone => Ok SqlNull
  | PBool b => Ok (SqlInt (if b then 1 else 0))
  | PInt z =>
      if (- 2 ^ 63 <=? z)%Z && (z <? 2 ^ 63)%Z then Ok (SqlInt z)
      else Raise OverflowError
  | PFloat FNaN => Ok SqlNull
  | PFloat f => Ok (SqlReal f)
  | PStr s => if encodable s then Ok (SqlText s) else Raise UnicodeEncodeError
  | PList _ => Raise ProgrammingError
  | PDict _ => Raise ProgrammingError
  end.

(** *** Column affinity *)

(** A float literal [-?digits(.digits)?([eE][+-]?digits)?] as a sign, an
    integer [m] and an exponent [e]: its value is [m * 10^e]. *)
Definition float_literal (text : str) : option (bool * Z * Z) :=
  let (negative, s1) :=
    match text with
    | c :: r => if N.eqb c 45 then (true, r) else (false, text)
    | [] => (false, text)
    end in
  let (ipart, s2) := Json.span_digits s1 in
  let (frac, s3) :=
    match s2 with
    | dot :: r => if N.eqb dot 46 then Json.span_digits r else ([], s2)
    | [] => ([], s2)
    end in
  let (expo, s4) :=
    match s3 with
    | e :: r =>
        if N.eqb e 101 || N.eqb e 69 then
          let (minus, r') :=
            match r with
            | sg :: r'' =>
                if N.eqb sg 45 then (true, r'')
                else if N.eqb sg 43 then (false, r'') else (false, r)
            | [] => (false, r)
            end in
          let (ds, rest) := Json.span_digits r' in
          (int_of_digits minus ds, rest)
        else (0%Z, s3)
    | [] => (0%Z, s3)
    end in
  match ipart ++ frac, s4 with
  | _ :: _, [] =>
      Some (negative, int_of_digits false (ipart ++ frac),
            (expo - Z.of_nat (List.length frac))%Z)
  | _, _ => None
  end.

(** The IEEE double nearest to [m * 10^e] (ties to even), for [0 < m],
    when it is an integer below [2^63]: that integer.  The double is
    [q * 2^t], [t] the weight of its last bit. *)
Definition nearest_double_integer (m e : Z) : option Z :=
  if (30 <? e)%Z then None
  else if (Z.log2 m + 1 + 3 * e <=? - 1075)%Z then Some 0%Z
  else
    let n := if (0 <=? e)%Z then (m * 10 ^ e)%Z else m in
    let d := if (0 <=? e)%Z then 1%Z else (10 ^ (- e))%Z in
    let k0 := (Z.log2 n - Z.log2 d)%Z in
    let k := if (d * 2 ^ Z.max 0 k0 <=? n * 2 ^ Z.max 0 (- k0))%Z
             then k0 else (k0 - 1)%Z in
    let t := Z.max (k - 52) (- 1074) in
    let n' := (n * 2 ^ Z.max 0 (- t))%Z in
    let d' := (d * 2 ^ Z.max 0 t)%Z in
    let q := (n' / d')%Z in
    let r := (n' mod d')%Z in
    let q := if (d' <? 2 * r)%Z || ((d' =? 2 * r)%Z && Z.odd q)
             then (q + 1)%Z else q in
    let z := if (0 <=? t)%Z then Some (q * 2 ^ t)%Z
             else if (q mod 2 ^ (- t) =? 0)%Z then Some (q / 2 ^ (- t))%Z
             else None in
    match z with
    | Some z => if (z <? 2 ^ 63)%Z then Some z else None
    | None => None
    end.

(** The integer a Python float equals, when it is one the engine stores as
    an INTEGER: a whole number strictly between [-2^63] and [2^63]. *)
Definition float_integer (f : pyfloat) : option Z :=
  match f with
  | FLiteral text =>
      match float_literal text with
      | Some (negative, m, e) =>
          if (m =? 0)%Z then Some 0%Z
          else match nearest_double_integer m e with
               | Some z => Some (if negative then (- z)%Z else z)
               | None => None
               end
      | None => None
      end
  | _ => None
  end.

(** White space of the engine. *)
Definition sqlite_space (c : codepoint) : bool :=
  ((9 <=? c) && (c <=? 13) || N.eqb c 32)%N.

Fixpoint skip_spaces (s : str) : str :=
  match s with
  | c :: r => if sqlite_space c then skip_spaces r else s
  | [] => []
  end.

Inductive numeric_text :=
| NotNumeric
| IntegerText (z : Z)
| RealText.

(** How the engine reads text given to a numeric column: white space, a
    sign, digits, then optionally a point with digits and an exponent,
    then white space; at least one digit before the exponent. *)
Definition numeric_syntax (s : str) : numeric_text :=
  let s0 := skip_spaces s in
  let (negative, s1) :=
    match s0 with
    | c :: r =>
        if N.eqb c 45 then (true, r)
        else if N.eqb c 43 then (false, r) else (false, s0)
    | [] => (false, s0)
    end in
  let (ipart, s2) := Json.span_digits s1 in
  let '(frac, has_point, s3) :=
    match s2 with
    | dot :: r =>
        if N.eqb dot 46
        then let (ds, rest) := Json.span_digits r in (ds, true, rest)
        else ([], false, s2)
    | [] => ([], false, s2)
    end in
  let '(has_exponent, exponent_valid, s4) :=
    match s3 with
    | e :: r =>
        if N.eqb e 101 || N.eqb e 69 then
          let r' :=
            match r with
            | sg :: r'' => if N.eqb sg 45 || N.eqb sg 43 then r'' else r
            | [] => r
            end in
          let (ds, rest) := Json.span_digits r' in
          (true, match ds with [] => false | _ :: _ => true end, rest)
        else (false, true, s3)
    | [] => (false, true, s3)
    end in
  match ipart ++ frac, skip_spaces s4 with
  | _ :: _, [] =>
      if negb exponent_valid then NotNumeric
      else if has_point || has_exponent then RealText
      else IntegerText (int_of_digits negative ipart)
  | _, _ => NotNumeric
  end.

(** What an INTEGER column makes of a value: a real that is a whole number
    of 64 bits becomes that integer; text that reads as a number becomes
    the number; anything else is stored as it is. *)
Definition integer_affinity (v : sqlval) : sqlval :=
  match v with
  | SqlReal f =>
      match float_integer f with
      | Some z => SqlInt z
      | None => v
      end
  | SqlText s =>
      match numeric_syntax s with
      | IntegerText z =>
          if (- 2 ^ 63 <=? z)%Z && (z <? 2 ^ 63)%Z then SqlInt z
          else SqlNumberOfText s
      | RealText => SqlNumberOfText s
      | NotNumeric => v
      end
  | _ => v
  end.

(** What a TEXT column makes of a value: a number becomes its text. *)
Definition text_affinity (v : sqlval) : sqlval :=
  match v with
  | SqlInt z => SqlText (str_of_int z)
  | SqlReal f => SqlTextOfReal f
  | _ => v
  end.

(** A [NOT NULL] column refuses NULL. *)
Definition not_null (v : sqlval) : result sqlval :=
  match v with
  | SqlNull => Raise IntegrityError
  | _ => Ok v
  end.

Record document := {
  doc_id : Z;
  doc_title : str;
  doc_document_type : str;
  doc_file_path : str;
  doc_status : str
}.

Record analysis := {
  an_id : Z;
  an_document_id : Z;
  an_overall_sentiment : sqlval;
  an_sentiment_score : sqlval;
  an_confidence_score : sqlval;
  an_clarity_score : sqlval;
  an_readability_score : sqlval;
  an_specificity_score : sqlval;
  an_key_themes : pyvalue;
  an_emotional_tone : pyvalue;
  an_linguistic_metrics : pyvalue
}.

Record section := {
  sec_id : Z;
  sec_analysis_id : Z;
  sec_section_title : sqlval;
  sec_section_type : sqlval;
  sec_speaker : sqlval;
  sec_original_text : sqlval;
  sec_sentiment_score : sqlval;
  sec_confidence_score : sqlval;
  sec_clarity_score : sqlval;
  sec_readability_score : sqlval;
  sec_specificity_score : sqlval;
  sec_issues : pyvalue;
  sec_suggested_revision : sqlval;
  sec_revision_rationale : sqlval;
  sec_section_order : Z
}.

Record comparison := {
  cmp_id : Z;
  cmp_title : str;
  cmp_description : option str;
  cmp_document_ids : str
}.

(** A comparison as [get_comparison] returns it: [document_ids] decoded. *)
Record comparison_view := {
  cv_id : Z;
  cv_title : str;
  cv_description : option str;
  cv_document_ids : pyvalue
}.

Record metrics := {
  met_id : Z;
  met_document_id : Z;
  met_analysis_id : Z;
  met_document_type : str;
  met_sentiment_score : sqlval;
  met_confidence_score : sqlval;
  met_clarity_score : sqlval;
  met_readability_score : sqlval;
  met_specificity_score : sqlval
}.

(** [status_log] is not a table: it is the history of the statuses written
    to [documents.status], oldest first, kept to state properties of the
    order in which a document goes through them. *)
Record db := {
  documents : list document;
  analyses : list analysis;
  sections : list section;
  comparisons : list comparison;
  metrics_history : list metrics;
  seq_documents : Z;
  seq_analyses : Z;
  seq_sections : Z;
  seq_comparisons : Z;
  seq_metrics : Z;
  status_log : list (Z * str)
}.

(** The database after [init_db] on a fresh file. *)
Definition init_db : db :=
  {| documents := []; analyses := []; sections := []; comparisons := [];
     metrics_history := [];
     seq_documents := 0; seq_analyses := 0; seq_sections := 0;
     seq_comparisons := 0; seq_metrics := 0;
     status_log := [] |}.

(** Code that uses the connection: a result and the database it leaves.
    Statements are committed one by one, so what was written before an
    exception stays written. *)
Definition M (A : Type) := db -> result A * db.

Definition ret {A} (a : A) : M A := fun conn => (Ok a, conn).
Definition raise {A} (e : exn) : M A := fun conn => (Raise e, conn).
Definition lift {A} (r : result A) : M A := fun conn => (r, conn).

Definition bind {A B} (c : M A) (k : A -> M B) : M B :=
  fun conn =>
    match c conn with
    | (Ok a, conn') => k a conn'
    | (Raise e, conn') => (Raise e, conn')
    end.

(** [try: body  except Exception as e: handler e]. *)
Definition try_except {A} (body : M A) (handler : exn -> M A) : M A :=
  fun conn =>
    match body conn with
    | (Ok a, conn') => (Ok a, conn')
    | (Raise e, conn') => handler e conn'
    end.

Declare Scope py_scope.
Delimit Scope py_scope with py.
Notation "x <- c ;; k" := (bind c (fun x => k))
  (at level 61, c at next level, right associativity) : py_scope.
Notation "c ;;; k" := (bind c (fun _ => k))
  (at level 61, right associativity) : py_scope.
Local Open Scope py_scope.

(** *** Document operations *)

Definition create_document (title document_type file_path : str) : M Z :=
  fun conn =>
    let id := (seq_documents conn + 1)%Z in
    (Ok id,
     {| documents := documents conn ++
          [{| doc_id := id; doc_title := title;
              doc_document_type := document_type;
              doc_file_path := file_path;
              doc_status := py "uploading" |}];
        analyses := analyses conn; sections := sections conn;
        comparisons := comparisons conn;
        metrics_history := metrics_history conn;
        seq_documents := id; seq_analyses := seq_analyses conn;
        seq_sections := seq_sections conn;
        seq_comparisons := seq_comparisons conn;
        seq_metrics := seq_metrics conn;
        status_log := status_log conn ++ [(id, py "uploading")] |}).

Definition get_document (document_id : Z) : M (option document) :=
  fun conn =>
    (Ok (find (fun d => Z.eqb (doc_id d) document_id) (documents conn)), conn).

Definition set_status (document_id : Z) (status : str) (d : document) : document :=
  if Z.eqb (doc_id d) document_id then
    {| doc_id := doc_id d; doc_title := doc_title d;
       doc_document_type := doc_document_type d;
       doc_file_path := doc_file_path d; doc_status := status |}
  else d.

Definition update_document_status (document_id : Z) (status : str) : M unit :=
  fun conn =>
    (Ok tt,
     {| documents := map (set_status document_id status) (documents conn);
        analyses := analyses conn; sections := sections conn;
        comparisons := comparisons conn;
        metrics_history := metrics_history conn;
        seq_documents := seq_documents conn; seq_analyses := seq_analyses conn;
        seq_sections := seq_sections conn;
        seq_comparisons := seq_comparisons conn;
        seq_metrics := seq_metrics conn;
        status_log := status_log conn ++ [(document_id, status)] |}).

(** *** Analysis operations *)

Definition insert_analysis (a : analysis) (conn : db) : db :=
  {| documents := documents conn;
     analyses := analyses conn ++ [a];
     sections := sections conn;
     comparisons := comparisons conn;
     metrics_history := metrics_history conn;
     seq_documents := seq_documents conn; seq_analyses := an_id a;
     seq_sections := seq_sections conn;
     seq_comparisons := seq_comparisons conn;
     seq_metrics := seq_metrics conn;
     status_log := status_log conn |}.

Definition create_analysis
  (document_id : Z)
  (overall_sentiment sentiment_score confidence_score clarity_score
   readability_score specificity_score : pyvalue)
  (key_themes emotional_tone linguistic_metrics : pyvalue) : M Z :=
  v_sentiment <- lift (bind_param overall_sentiment) ;;
  v_sent <- lift (bind_param sentiment_score) ;;
  v_conf <- lift (bind_param confidence_score) ;;
  v_clar <- lift (bind_param clarity_score) ;;
  v_read <- lift (bind_param readability_score) ;;
  v_spec <- lift (bind_param specificity_score) ;;
  fun conn =>
    let id := (seq_analyses conn + 1)%Z in
    (Ok id,
     insert_analysis
       {| an_id := id; an_document_id := document_id;
          an_overall_sentiment := text_affinity v_sentiment;
          an_sentiment_score := integer_affinity v_sent;
          an_confidence_score := integer_affinity v_conf;
          an_clarity_score := integer_affinity v_clar;
          an_readability_score := integer_affinity v_read;
          an_specificity_score := integer_affinity v_spec;
          an_key_themes := key_themes;
          an_emotional_tone := emotional_tone;
          an_linguistic_metrics := linguistic_metrics |} conn).

(** [SELECT * FROM analyses WHERE document_id = ?] then [fetchone()]: the
    first matching row of the scan. *)
Definition get_analysis_by_document_id (document_id : Z) : M (option analysis) :=
  fun conn =>
    (Ok (find (fun a => Z.eqb (an_document_id a) document_id) (analyses conn)),
     conn).

(** *** Section operations *)

Definition insert_section (s : section) (conn : db) : db :=
  {| documents := documents conn;
     analyses := analyses conn;
     sections := sections conn ++ [s];
     comparisons := comparisons conn;
     metrics_history := metrics_history conn;
     seq_documents := seq_documents conn; seq_analyses := seq_analyses conn;
     seq_sections := sec_id s;
     seq_comparisons := seq_comparisons conn;
     seq_metrics := seq_metrics conn;
     status_log := status_log conn |}.

Definition create_section
  (analysis_id : Z)
  (section_title section_type speaker original_text
   sentiment_score confidence_score clarity_score readability_score
   specificity_score issues suggested_revision revision_rationale : pyvalue)
  (order : Z) : M Z :=
  v_title <- lift (bind_param section_title) ;;
  v_type <- lift (bind_param section_type) ;;
  v_speaker <- lift (bind_param speaker) ;;
  v_text <- lift (bind_param original_text) ;;
  v_sent <- lift (bind_param sentiment_score) ;;
  v_conf <- lift (bind_param confidence_score) ;;
  v_clar <- lift (bind_param clarity_score) ;;
  v_read <- lift (bind_param readability_score) ;;
  v_spec <- lift (bind_param specificity_score) ;;
  v_rev <- lift (bind_param suggested_revision) ;;
  v_rat <- lift (bind_param revision_rationale) ;;
  v_title <- lift (not_null v_title) ;;
  v_text <- lift (not_null v_text) ;;
  fun conn =>
    let id := (seq_sections conn + 1)%Z in
    (Ok id,
     insert_section
       {| sec_id := id; sec_analysis_id := analysis_id;
          sec_section_title := text_affinity v_title;
          sec_section_type := text_affinity v_type;
          sec_speaker := text_affinity v_speaker;
          sec_original_text := text_affinity v_text;
          sec_sentiment_score := integer_affinity v_sent;
          sec_confidence_score := integer_affinity v_conf;
          sec_clarity_score := integer_affinity v_clar;
          sec_readability_score := integer_affinity v_read;
          sec_specificity_score := integer_affinity v_spec;
          sec_issues := issues;
          sec_suggested_revision := text_affinity v_rev;
          sec_revision_rationale := text_affinity v_rat;
          sec_section_order := order |} conn).

(** [ORDER BY section_order]: rows with a smaller key first, rows with the
    same key in the order of the scan. *)
Fixpoint insert_by_order (s : section) (l : list section) : list section :=
  match l with
  | [] => [s]
  | x :: r =>
      if (sec_section_order s <=? sec_section_order x)%Z then s :: l
      else x :: insert_by_order s r
  end.

Definition order_by_section_order (l : list section) : list section :=
  fold_right insert_by_order [] l.

Definition get_sections_by_analysis_id (analysis_id : Z) : M (list section) :=
  fun conn =>
    (Ok (order_by_section_order
           (filter (fun s => Z.eqb (sec_analysis_id s) analysis_id)
                   (sections conn))),
     conn).

(** *** Comparison operations *)

Definition insert_comparison (c : comparison) (conn : db) : db :=
  {| documents := documents conn;
     analyses := analyses conn;
     sections := sections conn;
     comparisons := comparisons conn ++ [c];
     metrics_history := metrics_history conn;
     seq_documents := seq_documents conn; seq_analyses := seq_analyses conn;
     seq_sections := seq_sections conn;
     seq_comparisons := cmp_id c;
     seq_metrics := seq_metrics conn;
     status_log := status_log conn |}.

Definition create_comparison
  (title : str) (description : option str) (document_ids : list Z) : M Z :=
  fun conn =>
    let id := (seq_comparisons conn + 1)%Z in
    (Ok id,
     insert_comparison
       {| cmp_id := id; cmp_title := title; cmp_description := description;
          cmp_document_ids := Json.dumps_ints document_ids |} conn).

Definition get_comparison (comparison_id : Z) : M (option comparison_view) :=
  fun conn =>
    match find (fun c => Z.eqb (cmp_id c) comparison_id) (comparisons conn) with
    | None => (Ok None, conn)
    | Some row =>
        match Json.loads (cmp_document_ids row) with
        | Ok ids =>
            (Ok (Some {| cv_id := cmp_id row; cv_title := cmp_title row;
                         cv_description := cmp_description row;
                         cv_document_ids := ids |}), conn)
        | Raise e => (Raise e, conn)
        end
    end.

Definition delete_comparison (comparison_id : Z) : M bool :=
  fun conn =>
    (Ok (existsb (fun c => Z.eqb (cmp_id c) comparison_id) (comparisons conn)),
     {| documents := documents conn;
        analyses := analyses conn;
        sections := sections conn;
        comparisons :=
          filter (fun c => negb (Z.eqb (cmp_id c) comparison_id))
                 (comparisons conn);
        metrics_history := metrics_history conn;
        seq_documents := seq_documents conn; seq_analyses := seq_analyses conn;
        seq_sections := seq_sections conn;
        seq_comparisons := seq_comparisons conn;
        seq_metrics := seq_metrics conn;
        status_log := status_log conn |}).

(** *** Metrics operations *)

Definition insert_metrics (m : metrics) (conn : db) : db :=
  {| documents := documents conn;
     analyses := analyses conn;
     sections := sections conn;
     comparisons := comparisons conn;
     metrics_history := metrics_history conn ++ [m];
     seq_documents := seq_documents conn; seq_analyses := seq_analyses conn;
     seq_sections := seq_sections conn;
     seq_comparisons := seq_comparisons conn;
     seq_metrics := met_id m;
     status_log := status_log conn |}.

Definition create_metrics
  (document_id analysis_id : Z) (document_type : str)
  (sentiment_score confidence_score clarity_score readability_score
   specificity_score : pyvalue) : M Z :=
  v_sent <- lift (bind_param sentiment_score) ;;
  v_conf <- lift (bind_param confidence_score) ;;
  v_clar <- lift (bind_param clarity_score) ;;
  v_read <- lift (bind_param readability_score) ;;
  v_spec <- lift (bind_param specificity_score) ;;
  fun conn =>
    let id := (seq_metrics conn + 1)%Z in
    (Ok id,
     insert_metrics
       {| met_id := id; met_document_id := document_id;
          met_analysis_id := analysis_id;
          met_document_type := document_type;
          met_sentiment_score := integer_affinity v_sent;
          met_confidence_score := integer_affinity v_conf;
          met_clarity_score := integer_affinity v_clar;
          met_readability_score := integer_affinity v_read;
          met_specificity_score := integer_affinity v_spec |} conn).

End database.

(* ===================================================================== *)
(** ** analysis_engine.py                                                 *)
(* ===================================================================== *)

(** One call of [requests.get] or [requests.post]: a response, or the
    exception the call raised.  The request itself (URL, payload, prompt,
    timeout) is not part of the model: the reply is an argument, and may be
    any reply whatever the request was.  What [response.json()] makes of
    the body is part of the reply: the object it returns, or the exception
    it raises.

    The two analyses print to standard output when they fall back on their
    defaults.  A message made of text of the source and of the library is
    ASCII and is always printed; a message that carries text of the reply
    is printed only if standard output can encode it ([print]), and the
    exception it raises otherwise leaves the [except] clause it is in. *)

Module analysis_engine.
Import Py.

Record http_response := {
  status_code : Z;
  resp_text : str;            (* response.text *)
  resp_json : result pyvalue  (* response.json() *)
}.

Definition http_reply := result http_response.

Fixpoint map_result {A B} (f : A -> result B) (l : list A) : result (list B) :=
  match l with
  | [] => Ok []
  | x :: r =>
      match f x with
      | Raise e => Raise e
      | Ok y =>
          match map_result f r with
          | Raise e => Raise e
          | Ok ys => Ok (y :: ys)
          end
      end
  end.

(** [[model["name"] for model in data.get("models", [])]]. *)
Definition model_names (data : pyvalue) : result (list pyvalue) :=
  rbind (get data (py "models") (PList [])) (fun models =>
  rbind (iter models) (fun items =>
  map_result (fun model => getitem model (py "name")) items)).

(** [print(f"{message}{e}")]. *)
Definition print_error (i : interpreter) (message : str) (e : exn)
  : result unit :=
  print i (message ++ foreign_text e).

Definition get_available_models (i : interpreter) (tags : http_reply)
  : result (list pyvalue) :=
  rcatch
    (rbind tags (fun response =>
     if Z.eqb (status_code response) 200 then
       rbind (resp_json response) model_names
     else Ok []))
    (fun e =>
       rbind (print_error i (py "Error fetching models: ") e) (fun _ =>
       Ok [])).

(** The dictionary [check_ollama_status] returns has one of two shapes:
    [{"available": True, "models": ..., "model_count": ...}] or
    [{"available": False, "error": ...}], the error being a fixed text or
    [str(e)]. *)
Inductive ollama_status :=
| Available (models : list pyvalue) (model_count : Z)
| Unavailable (error : str) (cause : option exn).

Definition available (st : ollama_status) : bool :=
  match st with
  | Available _ _ => true
  | Unavailable _ _ => false
  end.

Definition check_ollama_status (tags : http_reply) : ollama_status :=
  match tags with
  | Raise ConnectionError =>
      Unavailable (py "Cannot connect to Ollama. Is it running?") None
  | Raise e => Unavailable [] (Some e)
  | Ok response =>
      if Z.eqb (status_code response) 200 then
        match rbind (resp_json response) model_names with
        | Ok models => Available models (Z.of_nat (List.length models))
        | Raise e => Unavailable [] (Some e)
        end
      else Unavailable (py "Ollama not responding") None
  end.

(** [call_ollama]: the text the model generated, or [Exception] around
    whatever went wrong. *)
Definition call_ollama (generate : http_reply) : result pyvalue :=
  let wrap (e : exn) := Exception_ (py "Error calling Ollama: ") (Some e) in
  match generate with
  | Raise e => Raise (wrap e)
  | Ok response =>
      if Z.eqb (status_code response) 200 then
        match rbind (resp_json response)
                    (fun body => get body (py "response") (PStr [])) with
        | Ok v => Ok v
        | Raise e => Raise (wrap e)
        end
      else
        Raise (wrap (Exception_
                 (py "Ollama API error: " ++ str_of_int (status_code response)
                  ++ py " - " ++ resp_text response) None))
  end.

Definition get_default_analysis : pyvalue :=
  PDict [
    (py "overall_sentiment", PStr (py "neutral"));
    (py "sentiment_score", PInt 50);
    (py "confidence_score", PInt 50);
    (py "clarity_score", PInt 50);
    (py "readability_score", PInt 50);
    (py "specificity_score", PInt 50);
    (py "key_themes", PList [PStr (py "Analysis unavailable")]);
    (py "emotional_tone", PDict [
       (py "positive", PInt 33);
       (py "negative", PInt 33);
       (py "neutral", PInt 34);
       (py "confident", PInt 50);
       (py "uncertain", PInt 50)]);
    (py "linguistic_metrics", PDict [
       (py "avgSentenceLength", PFloat (FLiteral (py "20.0")));
       (py "complexWordRatio", PFloat (FLiteral (py "0.3")));
       (py "passiveVoiceRatio", PFloat (FLiteral (py "0.2")));
       (py "jargonDensity", PFloat (FLiteral (py "0.25")));
       (py "hedgingLanguage", PFloat (FLiteral (py "0.15")))])
  ].

Definition get_default_sections (text : str) : pyvalue :=
  PList [PDict [
    (py "section_title", PStr (py "Full Document"));
    (py "section_type", PStr (py "other"));
    (py "speaker", PNone);
    (py "original_text", PStr (firstn 500 text));
    (py "sentiment_score", PInt 50);
    (py "confidence_score", PInt 50);
    (py "clarity_score", PInt 50);
    (py "readability_score", PInt 50);
    (py "specificity_score", PInt 50);
    (py "issues", PList [PStr (py "Analysis unavailable - check Ollama connection")]);
    (py "suggested_revision",
     PStr (py "Unable to generate suggestions. Please ensure Ollama is running and a model is available."));
    (py "revision_rationale",
     PStr (py "Analysis requires a working Ollama installation with downloaded models."))
  ]].

(** [json.loads(response_text)]: the interpreter raises [TypeError] for an
    object that is not text. *)
Definition loads_generated (i : interpreter) (response_text : pyvalue)
  : result pyvalue :=
  Json.decode_obj i response_text.

(** [response_text[:500]] in the handler of [json.JSONDecodeError]:
    [json.loads] raises that exception for text only. *)
Definition first_500 (response_text : pyvalue) : str :=
  match response_text with
  | PStr s => firstn 500 s
  | _ => []
  end.

Definition analyze_document_content (i : interpreter)
  (generate : http_reply) (text : str) (model : str) : result pyvalue :=
  match call_ollama generate with
  | Ok response_text =>
      rcatch
        (rbind (loads_generated i response_text) (fun result =>
         Ok result))
        (fun e =>
           match e with
           | JSONDecodeError =>
               rbind (print_error i (py "JSON parsing error: ") e) (fun _ =>
               rbind (print i (py "Response was: " ++ first_500 response_text))
                     (fun _ =>
               Ok get_default_analysis))
           | _ =>
               rbind (print_error i (py "Error in document analysis: ") e)
                     (fun _ =>
               Ok get_default_analysis)
           end)
  | Raise e =>
      rbind (print_error i (py "Error in document analysis: ") e) (fun _ =>
      Ok get_default_analysis)
  end.

Definition analyze_sections_content (i : interpreter)
  (generate : http_reply) (text : str) (model : str) : result pyvalue :=
  match call_ollama generate with
  | Ok response_text =>
      rcatch
        (rbind (loads_generated i response_text) (fun result =>
         get result (py "sections") (PList [])))
        (fun e =>
           match e with
           | JSONDecodeError =>
               rbind (print_error i (py "JSON parsing error in section analysis: ") e)
                     (fun _ =>
               rbind (print i (py "Response was: " ++ first_500 response_text))
                     (fun _ =>
               Ok (get_default_sections text)))
           | _ =>
               rbind (print_error i (py "Error in section analysis: ") e)
                     (fun _ =>
               Ok (get_default_sections text))
           end)
  | Raise e =>
      rbind (print_error i (py "Error in section analysis: ") e) (fun _ =>
      Ok (get_default_sections text))
  end.

End analysis_engine.

(* ===================================================================== *)
(** ** document_processor.py                                              *)
(* ===================================================================== *)

Module document_processor.
Import Py.

(** [validate_file_size]: [file_size] is [os.path.getsize(file_path)]. *)
Definition validate_file_size (file_size : Z) (max_size_mb : Z) : bool :=
  let max_size_bytes := (max_size_mb * 1024 * 1024)%Z in
  (file_size <=? max_size_bytes)%Z.

Definition default_max_size_mb : Z := 10.

(** What [extract_text_from_file] finds outside the program: the optional
    libraries, and what each reader makes of the file (the text of the
    pages of a PDF, the text of the paragraphs of a DOCX, the content of
    the file read as UTF-8), or the exception it raises. *)
Record file_env := {
  PDF_AVAILABLE : bool;
  DOCX_AVAILABLE : bool;
  pdf_pages : result (list str);
  docx_paragraphs : result (list str);
  txt_content : result str
}.

Definition extract_text_from_pdf (env : file_env) : result str :=
  if negb (PDF_AVAILABLE env) then Raise ImportError
  else rbind (pdf_pages env) (fun text => Ok (join [10%N; 10%N] text)).

Definition extract_text_from_docx (env : file_env) : result str :=
  if negb (DOCX_AVAILABLE env) then Raise ImportError
  else rbind (docx_paragraphs env) (fun paragraphs =>
       Ok (join [10%N; 10%N]
             (filter (fun text => nonempty (strip text)) paragraphs))).

Definition extract_text_from_txt (env : file_env) : result str :=
  txt_content env.

Definition extract_text_from_file (env : file_env) (file_path : str)
  : result str :=
  let ext := lower (path_suffix file_path) in
  if str_eqb ext (py ".pdf") then extract_text_from_pdf env
  else if str_eqb ext (py ".docx") then extract_text_from_docx env
  else if str_in ext [py ".txt"; py ".text"] then extract_text_from_txt env
  else if str_eqb ext (py ".doc") then
    rcatch (extract_text_from_txt env) (fun _ => Raise ValueError)
  else Raise ValueError.

End document_processor.

(* ===================================================================== *)
(** ** audio_processor.py                                                 *)
(* ===================================================================== *)

Module audio_processor.
Import Py.

(** A segment of a transcription.  Times are the IEEE doubles Whisper
    gives. *)
Record segment := {
  seg_start : float;
  seg_end : float;
  seg_text : str;
  seg_speaker : option str
}.

Definition set_speaker (seg : segment) (label : str) : segment :=
  {| seg_start := seg_start seg; seg_end := seg_end seg;
     seg_text := seg_text seg; seg_speaker := Some label |}.

(** The loop of [detect_speakers_simple], from the values [speaker_id] and
    [last_end] have when it reaches [segments]. *)
Fixpoint detect_loop (speaker_id : Z) (last_end : float)
  (segments : list segment) : list segment :=
  match segments with
  | [] => []
  | segment :: rest =>
      let speaker_id :=
        if PrimFloat.ltb 2.0%float (PrimFloat.sub (seg_start segment) last_end)
        then (speaker_id + 1)%Z else speaker_id in
      set_speaker segment (py "Speaker " ++ str_of_int speaker_id)
        :: detect_loop speaker_id (seg_end segment) rest
  end.

Definition detect_speakers_simple (segments : list segment) : list segment :=
  match segments with
  | [] => segments
  | _ :: _ => detect_loop 1 0%float segments
  end.

(** [if current_speaker and current_text]. *)
Definition speaker_and_text (current_speaker : option str)
  (current_text : list str) : bool :=
  match current_speaker with
  | Some sp => nonempty sp && nonempty current_text
  | None => false
  end.

Definition option_str_eqb (a b : option str) : bool :=
  match a, b with
  | Some x, Some y => str_eqb x y
  | None, None => true
  | _, _ => false
  end.

(** The two lines [format_transcript_with_speakers] appends for a turn. *)
Definition turn_lines (current_speaker : option str) (current_text : list str)
  : list str :=
  match current_speaker with
  | Some sp => [[10%N] ++ sp ++ py ":"; join (py " ") current_text]
  | None => []
  end.

Fixpoint format_loop (segments : list segment) (lines : list str)
  (current_speaker : option str) (current_text : list str) : list str :=
  match segments with
  | [] =>
      if speaker_and_text current_speaker current_text
      then lines ++ turn_lines current_speaker current_text
      else lines
  | segment :: rest =>
      let speaker := seg_speaker segment in
      if negb (option_str_eqb speaker current_speaker) then
        let lines :=
          if speaker_and_text current_speaker current_text
          then lines ++ turn_lines current_speaker current_text
          else lines in
        format_loop rest lines speaker [strip (seg_text segment)]
      else
        format_loop rest lines current_speaker
                    (current_text ++ [strip (seg_text segment)])
  end.

Definition format_transcript_with_speakers (segments : list segment) : str :=
  join [10%N] (format_loop segments [] None []).

(** What a transcription backend returns before [transcribe_audio_file]
    completes it. *)
Record transcription := {
  tr_text : str;
  tr_language : str;
  tr_segments : list segment;
  tr_backend : str;
  tr_model : str
}.

(** The result of [transcribe_audio_file]. *)
Record transcription_result := {
  res_text : str;
  res_language : str;
  res_segments : list segment;
  res_backend : str;
  res_model : str;
  res_formatted_text : str;
  res_duration : float
}.

(** What [transcribe_audio_file] finds outside the program: the file, the
    optional dependencies, and what each backend would answer. *)
Record audio_env := {
  file_exists : bool;
  file_size : Z;
  audio_duration : result float;
  WHISPER_AVAILABLE : bool;
  OPENAI_AVAILABLE : bool;
  transcribe_local : result transcription;
  transcribe_api : result transcription
}.

Inductive audio_error :=
| FileNotFound
| FileTooLarge
| UnsupportedFormat (ext : str).

Definition valid_extensions : list str :=
  [py ".mp3"; py ".wav"; py ".m4a"; py ".ogg"; py ".flac"; py ".webm"; py ".mp4"].

(** [validate_audio_file]: [None] is [(True, "")], [Some e] is [(False,
    message of e)].  The size in MB is the byte count over [1024 * 1024],
    a division that is exact, so the test is on the byte count. *)
Definition validate_audio_file (env : audio_env) (audio_path : str)
  (max_size_mb : Z) : option audio_error :=
  if negb (file_exists env) then Some FileNotFound
  else if (max_size_mb * (1024 * 1024) <? file_size env)%Z then Some FileTooLarge
  else
    let ext := lower (path_suffix audio_path) in
    if negb (str_in ext valid_extensions) then Some (UnsupportedFormat ext)
    else None.

(** [AudioTranscriber(backend)]: the backend it settles on. *)
Definition AudioTranscriber (env : audio_env) (backend : str) : result str :=
  if str_eqb backend (py "whisper-local") && negb (WHISPER_AVAILABLE env)
  then Raise ImportError
  else if str_eqb backend (py "whisper-api") && negb (OPENAI_AVAILABLE env)
  then Raise ImportError
  else if str_eqb backend (py "auto") then
    if WHISPER_AVAILABLE env then Ok (py "whisper-local")
    else if OPENAI_AVAILABLE env then Ok (py "whisper-api")
    else Raise ImportError
  else Ok backend.

(** [transcriber.transcribe(...)]. *)
Definition transcribe (env : audio_env) (backend : str) : result transcription :=
  if str_eqb backend (py "whisper-local") then transcribe_local env
  else if str_eqb backend (py "whisper-api") then transcribe_api env
  else Raise ValueError.

Definition transcribe_audio_file (env : audio_env) (audio_path backend : str)
  (detect_speakers : bool) : result transcription_result :=
  match validate_audio_file env audio_path 100 with
  | Some _ => Raise ValueError
  | None =>
      rbind (audio_duration env) (fun duration =>
      rbind (AudioTranscriber env backend) (fun transcriber =>
      rbind (transcribe env transcriber) (fun result =>
      let (segments, formatted_text) :=
        if detect_speakers && nonempty (tr_segments result) then
          let segments := detect_speakers_simple (tr_segments result) in
          (segments, format_transcript_with_speakers segments)
        else (tr_segments result, tr_text result) in
      Ok {| res_text := tr_text result;
            res_language := tr_language result;
            res_segments := segments;
            res_backend := tr_backend result;
            res_model := tr_model result;
            res_formatted_text := formatted_text;
            res_duration := duration |})))
  end.

(** [TRANSCRIPTION_PRESETS]: backend and model size of each preset. *)
Definition TRANSCRIPTION_PRESETS : list (str * (str * str)) :=
  [ (py "fast", (py "whisper-local", py "tiny"));
    (py "balanced", (py "whisper-local", py "base"));
    (py "accurate", (py "whisper-local", py "small"));
    (py "high_quality", (py "whisper-local", py "medium"));
    (py "api", (py "whisper-api", py "whisper-1")) ].

(** [presets.get(preset, presets["balanced"])]. *)
Fixpoint preset_config (presets : list (str * (str * str))) (preset : str)
  : str * str :=
  match presets with
  | [] => (py "whisper-local", py "base")
  | (name, config) :: r =>
      if str_eqb preset name then config else preset_config r preset
  end.

End audio_processor.

(* ===================================================================== *)
(** ** main.py                                                            *)
(* ===================================================================== *)

Module main.
Import Py database analysis_engine.
Local Open Scope py_scope.

(** An uploaded file: its name and the number of bytes of its content.
    What the bytes are shows only through text extraction. *)
Record UploadFile := {
  filename : str;
  size : Z
}.

(** What one call of [upload_document] finds outside the program, in the
    order it asks. *)
Record world := {
  interp : interpreter;           (* the interpreter that serves the request *)
  tags_status : http_reply;       (* GET /tags in check_ollama_status *)
  tags_models : http_reply;       (* GET /tags in get_available_models *)
  now : str;                      (* datetime.now().strftime(...) *)
  saved : result unit;            (* writing the upload to file_path *)
  extracted : result str;         (* extract_text_from_file(file_path) *)
  generate_document : http_reply; (* POST /generate, document analysis *)
  generate_sections : http_reply  (* POST /generate, section analysis *)
}.

Definition valid_types : list str :=
  [py "press_release"; py "earnings_call"; py "corporate_release"; py "other"].

Definition allowed_extensions : list str :=
  [py ".pdf"; py ".txt"; py ".doc"; py ".docx"].

(** [model in available_models], the list holding arbitrary objects. *)
Definition model_in (model : str) (available_models : list pyvalue) : bool :=
  existsb (fun v => match v with PStr s => str_eqb model s | _ => false end)
          available_models.

(** [', '.join(available_models)]: every item has to be a [str]. *)
Definition join_values (sep : str) (l : list pyvalue) : result str :=
  rbind (map_result (fun v => match v with PStr s => Ok s | _ => Raise TypeError end) l)
        (fun names => Ok (join sep names)).

(** The body of [for idx, section in enumerate(sections_result)]. *)
Fixpoint store_sections (analysis_id : Z) (items : list (Z * pyvalue)) : M unit :=
  match items with
  | [] => ret tt
  | (idx, section) :: rest =>
      section_title <- lift (getitem section (py "section_title")) ;;
      section_type <- lift (get section (py "section_type") PNone) ;;
      speaker <- lift (get section (py "speaker") PNone) ;;
      original_text <- lift (getitem section (py "original_text")) ;;
      sentiment_score <- lift (getitem section (py "sentiment_score")) ;;
      confidence_score <- lift (getitem section (py "confidence_score")) ;;
      clarity_score <- lift (getitem section (py "clarity_score")) ;;
      readability_score <- lift (getitem section (py "readability_score")) ;;
      specificity_score <- lift (getitem section (py "specificity_score")) ;;
      issues <- lift (getitem section (py "issues")) ;;
      suggested_revision <- lift (getitem section (py "suggested_revision")) ;;
      revision_rationale <- lift (getitem section (py "revision_rationale")) ;;
      create_section analysis_id section_title section_type speaker
        original_text sentiment_score confidence_score clarity_score
        readability_score specificity_score issues suggested_revision
        revision_rationale idx ;;;
      store_sections analysis_id rest
  end.

(** The statements main.py (lines 233-283) and main_audio.py (lines
    164-214) have in common: analyse the document, save the analysis,
    analyse and save the sections, save the metrics snapshot.  Returns
    [analysis_result]. *)
Definition analyze_and_store (i : interpreter)
  (generate_doc generate_sec : http_reply)
  (doc_id : Z) (document_type text_content model : str) : M pyvalue :=
  analysis_result <- lift (analyze_document_content i generate_doc text_content model) ;;
  overall_sentiment <- lift (getitem analysis_result (py "overall_sentiment")) ;;
  sentiment_score <- lift (getitem analysis_result (py "sentiment_score")) ;;
  confidence_score <- lift (getitem analysis_result (py "confidence_score")) ;;
  clarity_score <- lift (getitem analysis_result (py "clarity_score")) ;;
  readability_score <- lift (getitem analysis_result (py "readability_score")) ;;
  specificity_score <- lift (getitem analysis_result (py "specificity_score")) ;;
  key_themes <- lift (getitem analysis_result (py "key_themes")) ;;
  emotional_tone <- lift (getitem analysis_result (py "emotional_tone")) ;;
  linguistic_metrics <- lift (getitem analysis_result (py "linguistic_metrics")) ;;
  analysis_id <- create_analysis doc_id overall_sentiment sentiment_score
    confidence_score clarity_score readability_score specificity_score
    key_themes emotional_tone linguistic_metrics ;;
  sections_result <- lift (analyze_sections_content i generate_sec text_content model) ;;
  items <- lift (iter sections_result) ;;
  store_sections analysis_id (enumerate items) ;;;
  sentiment_score <- lift (getitem analysis_result (py "sentiment_score")) ;;
  confidence_score <- lift (getitem analysis_result (py "confidence_score")) ;;
  clarity_score <- lift (getitem analysis_result (py "clarity_score")) ;;
  readability_score <- lift (getitem analysis_result (py "readability_score")) ;;
  specificity_score <- lift (getitem analysis_result (py "specificity_score")) ;;
  create_metrics doc_id analysis_id document_type sentiment_score
    confidence_score clarity_score readability_score specificity_score ;;;
  ret analysis_result.

(** [POST /api/documents]. *)
Definition upload_document (w : world) (title document_type model : str)
  (file : UploadFile) : M (option document) :=
  if negb (str_in document_type valid_types) then
    raise (HTTPException 400 (py "Invalid document type") None)
  else
  let file_ext := lower (snd (splitext (filename file))) in
  if negb (str_in file_ext allowed_extensions) then
    raise (HTTPException 400
             (py "File type " ++ file_ext ++ py " not supported. Allowed: "
              ++ join (py ", ") allowed_extensions) None)
  else
  match check_ollama_status (tags_status w) with
  | Unavailable error cause =>
      raise (HTTPException 503 (py "Ollama not available: " ++ error) cause)
  | Available _ _ =>
  available_models <- lift (get_available_models (interp w) (tags_models w)) ;;
  if negb (model_in model available_models) then
    match join_values (py ", ") available_models with
    | Ok names =>
        raise (HTTPException 400
                 (py "Model '" ++ model ++ py "' not found. Available models: "
                  ++ names) None)
    | Raise e => raise e
    end
  else
  let file_path := py "data/uploads/" ++ now w ++ py "_" ++ filename file in
  lift (saved w) ;;;
  doc_id <- create_document title document_type file_path ;;
  try_except
    (text_content <- lift (extracted w) ;;
     update_document_status doc_id (py "processing") ;;;
     analyze_and_store (interp w) (generate_document w) (generate_sections w)
       doc_id document_type text_content model ;;;
     update_document_status doc_id (py "completed"))
    (fun e =>
       update_document_status doc_id (py "failed") ;;;
       raise (HTTPException 500 (py "Analysis failed: ") (Some e))) ;;;
  get_document doc_id
  end.

(** [GET /api/documents/{document_id}/analysis]. *)
Definition get_document_analysis (document_id : Z)
  : M (analysis * list section) :=
  doc <- get_document document_id ;;
  match doc with
  | None => raise (HTTPException 404 (py "Document not found") None)
  | Some _ =>
      a <- get_analysis_by_document_id document_id ;;
      match a with
      | None => raise (HTTPException 404 (py "Analysis not found") None)
      | Some a =>
          sections <- get_sections_by_analysis_id (an_id a) ;;
          ret (a, sections)
      end
  end.

(** [for doc_id in comparison.document_ids: ...] of
    [create_document_comparison]. *)
Fixpoint verify_documents (document_ids : list Z) : M unit :=
  match document_ids with
  | [] => ret tt
  | doc_id :: rest =>
      doc <- get_document doc_id ;;
      match doc with
      | None =>
          raise (HTTPException 404
                   (py "Document " ++ str_of_int doc_id ++ py " not found") None)
      | Some _ => verify_documents rest
      end
  end.

(** [POST /api/comparisons]. *)
Definition create_document_comparison (title : str) (description : option str)
  (document_ids : list Z) : M (option comparison_view) :=
  if (Z.of_nat (List.length document_ids) <? 2)%Z then
    raise (HTTPException 400
             (py "At least 2 documents required for comparison") None)
  else
    verify_documents document_ids ;;;
    comp_id <- create_comparison title description document_ids ;;
    get_comparison comp_id.

(** [GET /api/documents/{document_id}]. *)
Definition get_document_by_id (document_id : Z) : M document :=
  doc <- get_document document_id ;;
  match doc with
  | None => raise (HTTPException 404 (py "Document not found") None)
  | Some doc => ret doc
  end.

(** [DELETE /api/comparisons/{comparison_id}]; [true] is
    [{"success": True}]. *)
Definition delete_document_comparison (comparison_id : Z) : M bool :=
  success <- delete_comparison comparison_id ;;
  if negb success then
    raise (HTTPException 404 (py "Comparison not found") None)
  else ret true.

End main.

(* ===================================================================== *)
(** ** main_audio.py                                                      *)
(* ===================================================================== *)

Module main_audio.
Import Py database analysis_engine audio_processor.
Local Open Scope py_scope.

(** What one call of [upload_audio_document] finds outside the program. *)
Record world := {
  interp : interpreter;           (* the interpreter that serves the request *)
  now : str;                      (* datetime.now().strftime(...) *)
  saved : result unit;            (* writing the upload to file_path *)
  audio : audio_env;              (* what transcribe_audio_file finds *)
  transcript_saved : result unit; (* writing the transcript next to it *)
  generate_document : http_reply; (* POST /generate, document analysis *)
  generate_sections : http_reply  (* POST /generate, section analysis *)
}.

Definition valid_types : list str :=
  [py "press_release"; py "earnings_call"; py "corporate_release"; py "other"].

Definition allowed_extensions : list str :=
  [py ".mp3"; py ".wav"; py ".m4a"; py ".ogg"; py ".flac"; py ".webm"; py ".mp4"].

(** The dictionary [upload_audio_document] returns. *)
Record audio_response := {
  success : bool;
  document_id : Z;
  transcription_duration : float;
  transcription_language : str;
  transcription_segments : Z;
  transcription_backend : str;
  analysis_sentiment_score : pyvalue;
  analysis_confidence_score : pyvalue;
  analysis_clarity_score : pyvalue
}.

(** [POST /api/documents/audio]. *)
Definition upload_audio_document (w : world)
  (title document_type analysis_model transcription_preset language : str)
  (detect_speakers : bool) (file : main.UploadFile) : M audio_response :=
  if negb (str_in document_type valid_types) then
    raise (HTTPException 400 (py "Invalid document type") None)
  else
  let file_ext := lower (snd (splitext (main.filename file))) in
  if negb (str_in file_ext allowed_extensions) then
    raise (HTTPException 400
             (py "Audio file type " ++ file_ext ++ py " not supported. Allowed: "
              ++ join (py ", ") allowed_extensions) None)
  else
  let file_path := py "data/uploads/" ++ now w ++ py "_" ++ main.filename file in
  lift (saved w) ;;;
  doc_id <- create_document title document_type file_path ;;
  try_except
    (update_document_status doc_id (py "transcribing") ;;;
     let preset_config := preset_config TRANSCRIPTION_PRESETS transcription_preset in
     transcription_result <-
       lift (transcribe_audio_file (audio w) file_path (fst preset_config)
               detect_speakers) ;;
     let text_content := res_formatted_text transcription_result in
     lift (transcript_saved w) ;;;
     update_document_status doc_id (py "analyzing") ;;;
     analysis_result <-
       main.analyze_and_store (interp w) (generate_document w)
         (generate_sections w)
         doc_id document_type text_content analysis_model ;;
     update_document_status doc_id (py "completed") ;;;
     sentiment_score <- lift (getitem analysis_result (py "sentiment_score")) ;;
     confidence_score <- lift (getitem analysis_result (py "confidence_score")) ;;
     clarity_score <- lift (getitem analysis_result (py "clarity_score")) ;;
     ret {| success := true;
            document_id := doc_id;
            transcription_duration := res_duration transcription_result;
            transcription_language := res_language transcription_result;
            transcription_segments :=
              Z.of_nat (List.length (res_segments transcription_result));
            transcription_backend := res_backend transcription_result;
            analysis_sentiment_score := sentiment_score;
            analysis_confidence_score := confidence_score;
            analysis_clarity_score := clarity_score |})
    (fun e =>
       update_document_status doc_id (py "failed") ;;;
       raise (HTTPException 500 (py "Processing failed: ") (Some e))).

End main_audio.

(* ===================================================================== *)
(** ** Concrete requests and replies                                      *)
(* ===================================================================== *)

(** Inputs on which the operations are run below.  JSON text is written
    with apostrophes and [dq] turns them into quotation marks. *)

Module Scenario.
Import Py database analysis_engine audio_processor.

Definition dq (s : str) : str :=
  map (fun c => if N.eqb c 39 then 34%N else c) s.

(** [s] as a JSON string literal (quotation marks and backslashes
    escaped). *)
Definition quote_json (s : str) : str :=
  [34%N]
  ++ flat_map (fun c => if N.eqb c 34 then [92%N; 34%N]
                        else if N.eqb c 92 then [92%N; 92%N] else [c]) s
  ++ [34%N].

(** A reply with status 200 and the body [body], a JSON text. *)
Definition reply_200 (body : str) : http_reply :=
  Ok {| status_code := 200; resp_text := body; resp_json := Json.loads body |}.

(** The reply of [POST /generate] when the model generated [generated]. *)
Definition generated_reply (generated : str) : http_reply :=
  reply_200 (dq (py "{'model': 'llama3.2', 'response': ")
             ++ quote_json generated ++ dq (py ", 'done': true}")).

(** The reply of [GET /tags] with two models installed. *)
Definition tags_reply : http_reply :=
  reply_200 (dq (py "{'models': [{'name': 'llama3.2'}, {'name': 'mistral'}]}")).

(** The reply of [POST /generate] with the body [{"response": "\ud800"}]:
    the model generated one code point, a surrogate without its pair. *)
Definition lone_surrogate_reply : http_reply :=
  reply_200 (dq (py "{'response': '\ud800'}")).

(** A JSON object whose one value is an integer of 4301 digits. *)
Definition long_integer_json : str :=
  dq (py "{'a': ") ++ repeat 49%N 4301 ++ py "}".

(** 901 arrays, each in the one before. *)
Definition deep_json : str := repeat 91%N 901 ++ repeat 93%N 901.

(** An interpreter in a UTF-8 locale, with room for 900 nested calls. *)
Definition utf8_interpreter : interpreter :=
  {| recursion_room := 900; stdout_surrogateescape := false |}.

(** A document-level answer of the model with the given sentiment score. *)
Definition document_json (sentiment_score : str) : str :=
  dq (py "{'overall_sentiment': 'positive', 'sentiment_score': ")
  ++ sentiment_score
  ++ dq (py ", 'confidence_score': 60, 'clarity_score': 70, 'readability_score': 80, 'specificity_score': 90, 'key_themes': ['growth'], 'emotional_tone': {'positive': 70, 'negative': 5, 'neutral': 25, 'confident': 80, 'uncertain': 10}, 'linguistic_metrics': {'avgSentenceLength': 18.5, 'complexWordRatio': 0.2, 'passiveVoiceRatio': 0.1, 'jargonDensity': 0.3, 'hedgingLanguage': 0.05}}").

Definition section_json (title : str) : str :=
  dq (py "{'section_title': '") ++ title
  ++ dq (py "', 'section_type': 'other', 'speaker': null, 'original_text': 'Revenue grew.', 'sentiment_score': 70, 'confidence_score': 60, 'clarity_score': 70, 'readability_score': 80, 'specificity_score': 90, 'issues': ['Vague'], 'suggested_revision': 'Revenue grew 10%.', 'revision_rationale': 'Adds a figure.'}").

(** A section-level answer of the model with two sections. *)
Definition sections_json : str :=
  dq (py "{'sections': [") ++ section_json (py "Introduction") ++ py ", "
  ++ section_json (py "Outlook") ++ py "]}".

Definition text_file : main.UploadFile :=
  {| main.filename := py "q1.txt"; main.size := 50 |}.

(** A responsive backend that answers with [document] and [sections]. *)
Definition responsive (document sections : str) : main.world :=
  {| main.interp := utf8_interpreter;
     main.tags_status := tags_reply;
     main.tags_models := tags_reply;
     main.now := py "20240101_120000";
     main.saved := Ok tt;
     main.extracted := Ok (py "Revenue grew. We expect further growth in the coming year.");
     main.generate_document := generated_reply document;
     main.generate_sections := generated_reply sections |}.

(** A backend that cannot be reached, at any point of the request. *)
Definition unreachable : main.world :=
  {| main.interp := utf8_interpreter;
     main.tags_status := Raise ConnectionError;
     main.tags_models := Raise ConnectionError;
     main.now := py "20240101_120000";
     main.saved := Ok tt;
     main.extracted := Ok (py "Revenue grew. We expect further growth in the coming year.");
     main.generate_document := Raise ConnectionError;
     main.generate_sections := Raise ConnectionError |}.

Definition seg (start end_ : float) (text : str) : segment :=
  {| seg_start := start; seg_end := end_; seg_text := text; seg_speaker := None |}.

(** Two segments half a second apart, after five seconds of silence. *)
Definition late_start : list segment :=
  [seg 5.0 8.0 (py "Good morning."); seg 8.5 12.0 (py "Welcome to the call.")].

(** The same two segments at the start of the recording. *)
Definition early_start : list segment :=
  [seg 0.5 3.5 (py "Good morning."); seg 4.0 7.5 (py "Welcome to the call.")].

(** A database in which document 1 has two analyses, with sentiment
    scores 10 (created first) and 90 (created last). *)
Definition analysis_with (sentiment_score : Z) : M Z :=
  create_analysis 1 (PStr (py "neutral")) (PInt sentiment_score) (PInt 50)
    (PInt 50) (PInt 50) (PInt 50) (PList []) (PDict []) (PDict []).

Definition two_analyses : db :=
  snd (analysis_with 90
         (snd (analysis_with 10
                 (snd (create_document (py "Q1") (py "other") (py "q1.txt")
                         init_db))))).

(** The database after one upload whose analysis has two sections. *)
Definition one_upload : db :=
  snd (main.upload_document (responsive (document_json (py "70")) sections_json)
         (py "Test") (py "other") (py "llama3.2") text_file init_db).

(** The database after a second upload. *)
Definition two_uploads : db :=
  snd (main.upload_document (responsive (document_json (py "40")) sections_json)
         (py "Second") (py "press_release") (py "mistral") text_file one_upload).

(** A section-level answer of the model that is a JSON object without the
    key "sections". *)
Definition summary_json : str := dq (py "{'summary': 'A short document.'}").

(** A document-level answer of the model that lacks most keys. *)
Definition incomplete_json : str := dq (py "{'overall_sentiment': 'positive'}").

(** The same backend, with a file whose text cannot be extracted. *)
Definition unreadable (document sections : str) : main.world :=
  {| main.interp := utf8_interpreter;
     main.tags_status := tags_reply;
     main.tags_models := tags_reply;
     main.now := py "20240101_120000";
     main.saved := Ok tt;
     main.extracted := Raise ValueError;
     main.generate_document := generated_reply document;
     main.generate_sections := generated_reply sections |}.

Definition audio_file : main.UploadFile :=
  {| main.filename := py "call.mp3"; main.size := 4096 |}.

(** A recording of one minute that the local speech model transcribes (or
    not, when [whisper] is false) into the two segments [early_start]. *)
Definition recording (whisper : bool) : audio_env :=
  {| file_exists := true;
     file_size := 4096;
     audio_duration := Ok 60.0%float;
     WHISPER_AVAILABLE := whisper;
     OPENAI_AVAILABLE := false;
     transcribe_local :=
       Ok {| tr_text := py "Good morning. Welcome to the call.";
             tr_language := py "en";
             tr_segments := early_start;
             tr_backend := py "whisper-local";
             tr_model := py "base" |};
     transcribe_api := Raise ImportError |}.

Definition audio_world (whisper : bool) (document sections : str)
  : main_audio.world :=
  {| main_audio.interp := utf8_interpreter;
     main_audio.now := py "20240101_120000";
     main_audio.saved := Ok tt;
     main_audio.audio := recording whisper;
     main_audio.transcript_saved := Ok tt;
     main_audio.generate_document := generated_reply document;
     main_audio.generate_sections := generated_reply sections |}.

(** A text file of 11 MB. *)
Definition big_file : main.UploadFile :=
  {| main.filename := py "big.txt"; main.size := 11 * 1024 * 1024 |}.

(** A PDF of two pages, read with PyPDF2. *)
Definition two_pages : document_processor.file_env :=
  {| document_processor.PDF_AVAILABLE := true;
     document_processor.DOCX_AVAILABLE := false;
     document_processor.pdf_pages := Ok [py "Page one."; py "Page two."];
     document_processor.docx_paragraphs := Raise ImportError;
     document_processor.txt_content := Raise OSError |}.

Definition pdf_file : main.UploadFile :=
  {| main.filename := py "Q1.Report.PDF"; main.size := 2048 |}.

(** The database after the two uploads were compared. *)
Definition compared : db :=
  snd (main.create_document_comparison (py "Q1 vs Q2") None [1%Z; 2%Z]
         two_uploads).

End Scenario.

(* ===================================================================== *)
(** ** Notions the properties are stated with                             *)
(* ===================================================================== *)

Module Notions.
Import Py Json database analysis_engine audio_processor.

(** The result of running [c] on [conn], and the database it leaves. *)
Definition outcome {A} (c : M A) (conn : db) : result A := fst (c conn).
Definition after {A} (c : M A) (conn : db) : db := snd (c conn).

(** The backend call failed, or what it returned does not decode as JSON:
    [call_ollama] raised, or it returned an object on which [json.loads]
    raises (text that is not JSON, or an object that is not text). *)
Definition backend_failed (i : interpreter) (generate : http_reply) : Prop :=
  (exists e, call_ollama generate = Raise e) \/
  (exists v e, call_ollama generate = Ok v /\ loads_generated i v = Raise e).


(** What the analyses print about a failure of the backend is text that
    standard output can encode: the message of the exception, and the
    first 500 characters of the answer when it is text that is not JSON. *)
Definition failure_printable (i : interpreter) (generate : http_reply) : bool :=
  match call_ollama generate with
  | Raise e => printable i (foreign_text e)
  | Ok v =>
      match loads_generated i v with
      | Raise JSONDecodeError => printable i (first_500 v)
      | Raise e => printable i (foreign_text e)
      | Ok _ => true
      end
  end.

(** *** JSON text *)

(** What the limited scanner does, against the scanner of the grammar:
    the same value, the same refusal, or one of the two limits. *)
Definition agrees {A} (limited : result A) (plain : option A) : Prop :=
  match limited with
  | Ok x => plain = Some x
  | Raise e =>
      (e = JSONDecodeError /\ plain = None)
      \/ e = ValueError \/ e = RecursionError
  end.

(** [rest] is empty or starts with a character that is not a digit. *)
Definition stops (rest : str) : bool :=
  match rest with
  | [] => true
  | c :: _ => negb (is_digit c)
  end.

(** [rest] starts with a comma or a closing bracket. *)
Definition delimited (rest : str) : Prop :=
  exists c r, rest = c :: r /\ (c = 44%N \/ c = 93%N).

Definition sign (negative : bool) : str := if negative then [45%N] else [].

(** *** The status of a document *)

Definition uploading : str := py "uploading".
Definition transcribing : str := py "transcribing".
Definition processing : str := py "processing".
Definition analyzing : str := py "analyzing".
Definition completed : str := py "completed".
Definition failed : str := py "failed".

Definition terminal (s : str) : bool := str_eqb s completed || str_eqb s failed.

(** One step forward: uploading to transcribing or processing,
    transcribing to analyzing, analyzing or processing to completed, and
    any of these four to failed. *)
Definition forward (a b : str) : bool :=
  (str_eqb a uploading && (str_eqb b transcribing || str_eqb b processing))
  || (str_eqb a transcribing && str_eqb b analyzing)
  || ((str_eqb a analyzing || str_eqb a processing) && str_eqb b completed)
  || ((str_eqb a uploading || str_eqb a transcribing
       || str_eqb a processing || str_eqb a analyzing) && str_eqb b failed).

(** Every status of the list is one step forward from the one before it. *)
Fixpoint forward_chain (l : list str) : bool :=
  match l with
  | a :: r =>
      match r with
      | b :: _ => forward a b && forward_chain r
      | [] => true
      end
  | [] => true
  end.

(** The statuses one request writes: none (the request was refused before
    a document existed), or a forward chain that starts at uploading and
    in which no status but the last is terminal. *)
Definition lifecycle (steps : list str) : Prop :=
  steps = [] \/
  (exists rest, steps = uploading :: rest) /\
  forward_chain steps = true /\
  forallb (fun s => negb (terminal s)) (removelast steps) = true.

(** Run from [conn], a request wrote [steps], in this order, to the status
    of the document it created, and wrote no other status. *)
Definition wrote (conn : db) (steps : list str) (conn' : db) : Prop :=
  status_log conn'
  = status_log conn ++ map (pair (seq_documents conn + 1)%Z) steps.

Definition wrote_one_of (conn : db) (paths : list (list str)) (conn' : db)
  : Prop :=
  exists steps, In steps paths /\ wrote conn steps conn'.

(** The status that was written last for a document. *)
Definition last_status (document_id : Z) (log : list (Z * str)) : option str :=
  last (map (fun e => Some (snd e))
            (filter (fun e => Z.eqb (fst e) document_id) log)) None.

(** The history of statuses agrees with the table: the status of every
    document is the one written last for its id. *)
Definition log_faithful (conn : db) : Prop :=
  Forall (fun d => (doc_id d <= seq_documents conn)%Z) (documents conn) /\
  Forall (fun d => last_status (doc_id d) (status_log conn) = Some (doc_status d))
         (documents conn).

(** The sequences of statuses an upload of a text document can write. *)
Definition document_paths : list (list str) :=
  [ [];
    [uploading; failed];
    [uploading; processing; failed];
    [uploading; processing; completed] ].

(** The sequences of statuses an upload of an audio file can write. *)
Definition audio_paths : list (list str) :=
  [ [];
    [uploading; transcribing; failed];
    [uploading; transcribing; analyzing; failed];
    [uploading; transcribing; analyzing; completed] ].

(** *** Speakers *)

(** The test of [detect_speakers_simple]: [segment] starts more than two
    seconds after [last_end]. *)
Definition long_pause (last_end : float) (segment : segment) : bool :=
  PrimFloat.ltb 2.0%float (PrimFloat.sub (seg_start segment) last_end).

Definition speaker_label (speaker_id : Z) : option str :=
  Some (py "Speaker " ++ str_of_int speaker_id).

(** The numbers of the labels go up by at most one from one segment to
    the next, from [prev] on. *)
Fixpoint steps_by_one (prev : Z) (ids : list Z) : bool :=
  match ids with
  | [] => true
  | id :: rest => (Z.eqb id prev || Z.eqb id (prev + 1)) && steps_by_one id rest
  end.

(** No segment starts more than two seconds after the end of the one
    before it, the first one after [last_end]. *)
Fixpoint no_long_pause (last_end : float) (segments : list segment) : bool :=
  match segments with
  | [] => true
  | s :: rest => negb (long_pause last_end s) && no_long_pause (seg_end s) rest
  end.

(** *** File names *)

(** [c] does not occur in [s]. *)
Definition absent (c : codepoint) (s : str) : Prop :=
  forallb (fun x => negb (N.eqb x c)) s = true.

(** What [lower] makes of one character. *)
Definition lower_char (c : codepoint) : codepoint :=
  if (65 <=? c)%N && (c <=? 90)%N then (c + 32)%N else c.

(** An extension as the lists of the source have them: a dot, then at
    least one character, none of them a dot or a slash. *)
Definition extension_literal (l : str) : Prop :=
  exists r, l = 46%N :: r /\ r <> [] /\
    forallb (fun c => negb (N.eqb c 46%N) && negb (N.eqb c 47%N)) r = true.

(** *** Scores *)



(** The analyses linked to a document. *)
Definition analyses_of (document_id : Z) (conn : db) : list analysis :=
  filter (fun a => Z.eqb (an_document_id a) document_id) (analyses conn).

(** The analysis of a document that was created last. *)
Definition latest_analysis (document_id : Z) (conn : db) : option analysis :=
  last (map Some (analyses_of document_id conn)) None.

(** The sections of an analysis, in the order they were inserted. *)
Definition sections_of (analysis_id : Z) (conn : db) : list section :=
  filter (fun s => Z.eqb (sec_analysis_id s) analysis_id) (sections conn).

(** [0; 1; ...; n-1]. *)
Definition range (n : nat) : list Z := map Z.of_nat (seq 0 n).

(** *** Uploads *)

(** The four checks of [upload_document] before it writes anything. *)
Definition accepted (w : main.world) (document_type model : str)
  (file : main.UploadFile) : bool :=
  str_in document_type main.valid_types
  && str_in (lower (snd (splitext (main.filename file)))) main.allowed_extensions
  && available (check_ollama_status (main.tags_status w))
  && match get_available_models (main.interp w) (main.tags_models w) with
     | Ok available_models => main.model_in model available_models
     | Raise _ => false
     end.

(** The path [upload_document] saves the file under. *)
Definition upload_path (w : main.world) (file : main.UploadFile) : str :=
  py "data/uploads/" ++ main.now w ++ py "_" ++ main.filename file.



(** *** The rows an analysis writes *)

(** The row [create_analysis] inserts for [analysis_result], or the
    exception that the look-up of a key or the binding of a value
    raises. *)
Definition analysis_row (id document_id : Z) (analysis_result : pyvalue)
  : result analysis :=
  rbind (getitem analysis_result (py "overall_sentiment")) (fun overall_sentiment =>
  rbind (getitem analysis_result (py "sentiment_score")) (fun sentiment_score =>
  rbind (getitem analysis_result (py "confidence_score")) (fun confidence_score =>
  rbind (getitem analysis_result (py "clarity_score")) (fun clarity_score =>
  rbind (getitem analysis_result (py "readability_score")) (fun readability_score =>
  rbind (getitem analysis_result (py "specificity_score")) (fun specificity_score =>
  rbind (getitem analysis_result (py "key_themes")) (fun key_themes =>
  rbind (getitem analysis_result (py "emotional_tone")) (fun emotional_tone =>
  rbind (getitem analysis_result (py "linguistic_metrics")) (fun linguistic_metrics =>
  rbind (bind_param overall_sentiment) (fun v_sentiment =>
  rbind (bind_param sentiment_score) (fun v_sent =>
  rbind (bind_param confidence_score) (fun v_conf =>
  rbind (bind_param clarity_score) (fun v_clar =>
  rbind (bind_param readability_score) (fun v_read =>
  rbind (bind_param specificity_score) (fun v_spec =>
  Ok {| an_id := id; an_document_id := document_id;
        an_overall_sentiment := text_affinity v_sentiment;
        an_sentiment_score := integer_affinity v_sent;
        an_confidence_score := integer_affinity v_conf;
        an_clarity_score := integer_affinity v_clar;
        an_readability_score := integer_affinity v_read;
        an_specificity_score := integer_affinity v_spec;
        an_key_themes := key_themes;
        an_emotional_tone := emotional_tone;
        an_linguistic_metrics := linguistic_metrics |}))))))))))))))).

(** The metrics snapshot of an analysis. *)
Definition metrics_row (id : Z) (document_type : str) (a : analysis) : metrics :=
  {| met_id := id; met_document_id := an_document_id a;
     met_analysis_id := an_id a;
     met_document_type := document_type;
     met_sentiment_score := an_sentiment_score a;
     met_confidence_score := an_confidence_score a;
     met_clarity_score := an_clarity_score a;
     met_readability_score := an_readability_score a;
     met_specificity_score := an_specificity_score a |}.

(** What an INTEGER column holds once [v] is bound to it, and what a TEXT
    column holds. *)
Definition stored_as_integer (v : pyvalue) : result sqlval :=
  rbind (bind_param v) (fun x => Ok (integer_affinity x)).

Definition stored_as_text (v : pyvalue) : result sqlval :=
  rbind (bind_param v) (fun x => Ok (text_affinity x)).

(** [row] is the Section row of [item], the model's section number
    [order] of the analysis: its title is the one of the item as the
    [TEXT NOT NULL] column stores it. *)
Definition emitted_as (analysis_id order : Z) (item : pyvalue) (row : section)
  : Prop :=
  sec_analysis_id row = analysis_id /\
  sec_section_order row = order /\
  rbind (rbind (getitem item (py "section_title")) stored_as_text) not_null
  = Ok (sec_section_title row).

(** [rows] are the Section rows of [items], one for one and in the same
    order, numbered from [order] on. *)
Inductive emitted (analysis_id : Z) : Z -> list pyvalue -> list section -> Prop :=
| emitted_nil order : emitted analysis_id order [] []
| emitted_cons order item items row rows :
    emitted_as analysis_id order item row ->
    emitted analysis_id (order + 1)%Z items rows ->
    emitted analysis_id order (item :: items) (row :: rows).

(** *** Databases the program can produce *)

(** What the request handlers that write can make of a fresh database. *)
Inductive reachable : db -> Prop :=
| reach_init : reachable init_db
| reach_upload_document w title document_type model file conn :
    reachable conn ->
    reachable (after (main.upload_document w title document_type model file) conn)
| reach_upload_audio w title document_type model preset language speakers file conn :
    reachable conn ->
    reachable (after (main_audio.upload_audio_document w title document_type
                        model preset language speakers file) conn)
| reach_create_comparison title description document_ids conn :
    reachable conn ->
    reachable (after (main.create_document_comparison title description
                        document_ids) conn)
| reach_delete_comparison comparison_id conn :
    reachable conn ->
    reachable (after (delete_comparison comparison_id) conn).

(** Rows refer to ids that were handed out. *)
Definition ids_bounded (conn : db) : Prop :=
  Forall (fun a => (an_document_id a <= seq_documents conn)%Z) (analyses conn) /\
  Forall (fun s => (sec_analysis_id s <= seq_analyses conn)%Z) (sections conn) /\
  Forall (fun c => (cmp_id c <= seq_comparisons conn)%Z) (comparisons conn).

(** The sections of every analysis are numbered from 0 without a gap, in
    the order of their insertion. *)
Definition contiguous (conn : db) : Prop :=
  forall analysis_id,
    map sec_section_order (sections_of analysis_id conn)
    = range (List.length (sections_of analysis_id conn)).

Definition consistent (conn : db) : Prop := ids_bounded conn /\ contiguous conn.

(** The invariant an upload works under once its document exists. *)
Definition working (doc_id : Z) (conn : db) : Prop :=
  consistent conn /\ (doc_id <= seq_documents conn)%Z.

(** *** Rows that refer to rows *)

Definition has_document (id : Z) (conn : db) : bool :=
  existsb (fun d => Z.eqb (doc_id d) id) (documents conn).

(** The first of the ids that no document has. *)
Definition first_unknown (document_ids : list Z) (conn : db) : option Z :=
  find (fun id => negb (has_document id conn)) document_ids.

(** [1; 2; ...; n]. *)
Definition ids_upto (n : Z) : list Z := map Z.of_nat (seq 1 (Z.to_nat n)).

(** The documents are numbered from 1 in the order of their creation, and
    none is missing. *)
Definition documents_numbered (conn : db) : Prop :=
  (0 <= seq_documents conn)%Z /\
  map doc_id (documents conn) = ids_upto (seq_documents conn).

(** There is a document with this id and this type. *)
Definition document_typed (id : Z) (document_type : str) (conn : db) : Prop :=
  exists d, In d (documents conn) /\ doc_id d = id /\
            doc_document_type d = document_type.

Definition analysis_linked (conn : db) (a : analysis) : Prop :=
  (1 <= an_document_id a <= seq_documents conn)%Z.

Definition section_linked (conn : db) (s : section) : Prop :=
  In (sec_analysis_id s) (map an_id (analyses conn)).

(** A metrics row is the snapshot of an analysis of a document of its
    type. *)
Definition metrics_linked (conn : db) (m : metrics) : Prop :=
  exists a, In a (analyses conn) /\
            m = metrics_row (met_id m) (met_document_type m) a /\
            document_typed (an_document_id a) (met_document_type m) conn.

(** A comparison holds the JSON text of a list of at least two ids of
    documents. *)
Definition comparison_linked (conn : db) (c : comparison) : Prop :=
  exists ids, cmp_document_ids c = Json.dumps_ints ids /\
              (2 <= List.length ids)%nat /\
              Forall (fun id => (1 <= id <= seq_documents conn)%Z) ids.

(** Every row refers to rows that exist, and no document has two
    analyses. *)
Definition linked (conn : db) : Prop :=
  documents_numbered conn /\
  Forall (analysis_linked conn) (analyses conn) /\
  NoDup (map an_document_id (analyses conn)) /\
  Forall (section_linked conn) (sections conn) /\
  Forall (metrics_linked conn) (metrics_history conn) /\
  Forall (comparison_linked conn) (comparisons conn).

(** The state in which an upload analyses the document it created: the
    document exists and has no analysis yet. *)
Definition staged (doc_id : Z) (document_type : str) (conn : db) : Prop :=
  linked conn /\ document_typed doc_id document_type conn /\
  (1 <= doc_id <= seq_documents conn)%Z /\
  ~ In doc_id (map an_document_id (analyses conn)).

(** *** A program logic for [M] *)

(** From a database where [P] holds, [c] either returns [a] and leaves a
    database where [Q a] holds, or raises and leaves one where [E] holds. *)
Definition hoare {A} (P : db -> Prop) (c : M A) (Q : A -> db -> Prop)
  (E : db -> Prop) : Prop :=
  forall conn, P conn ->
    match c conn with
    | (Ok a, conn') => Q a conn'
    | (Raise _, conn') => E conn'
    end.

(** The part of the database that analysing a document does not write. *)
Definition documents_part (conn : db) :=
  (documents conn, status_log conn, seq_documents conn,
   comparisons conn, seq_comparisons conn).

(** All of the database but the sections. *)
Definition outside_sections (conn : db) :=
  (documents conn, analyses conn, comparisons conn, metrics_history conn,
   seq_documents conn, seq_analyses conn, seq_comparisons conn,
   seq_metrics conn, status_log conn).

(** [c] keeps [I], whether it returns or raises. *)
Definition preserves {A} (I : db -> Prop) (c : M A) : Prop :=
  hoare I c (fun _ => I) I.

End Notions.

(* ===================================================================== *)
(** ** Properties of the annotation client                                *)
(* ===================================================================== *)

Module AnnotationClient.
Import Py database analysis_engine Notions.

Lemma default_analysis_fields :
  getitem get_default_analysis (py "overall_sentiment") = Ok (PStr (py "neutral")) /\
  getitem get_default_analysis (py "sentiment_score") = Ok (PInt 50) /\
  getitem get_default_analysis (py "confidence_score") = Ok (PInt 50) /\
  getitem get_default_analysis (py "clarity_score") = Ok (PInt 50) /\
  getitem get_default_analysis (py "readability_score") = Ok (PInt 50) /\
  getitem get_default_analysis (py "specificity_score") = Ok (PInt 50) /\
  getitem get_default_analysis (py "key_themes")
    = Ok (PList [PStr (py "Analysis unavailable")]).
Proof. repeat split; reflexivity. Qed.

Lemma default_sections_fields (text : str) :
  exists section,
    get_default_sections text = PList [section] /\
    getitem section (py "section_title") = Ok (PStr (py "Full Document")) /\
    getitem section (py "original_text") = Ok (PStr (firstn 500 text)) /\
    getitem section (py "issues")
      = Ok (PList [PStr (py "Analysis unavailable - check Ollama connection")]).
Proof. eexists; repeat split; reflexivity. Qed.

Lemma printable_app (i : interpreter) (a b : str) :
  printable i (a ++ b) = printable i a && printable i b.
Proof. unfold printable. apply forallb_app. Qed.

(** A message is printed when the text it carries can be. *)
Lemma print_error_ok (i : interpreter) (message : str) (e : exn) :
  printable i message = true ->
  printable i (foreign_text e) = true ->
  print_error i message e = Ok tt.
Proof.
  intros Hm He. unfold print_error, print.
  rewrite printable_app, Hm, He. reflexivity.
Qed.

(** [print] raises nothing but [UnicodeEncodeError]. *)
Lemma print_raises (i : interpreter) (s : str) (e : exn) :
  print i s = Raise e -> e = UnicodeEncodeError.
Proof. unfold print. destruct (printable i s); congruence. Qed.

(** X18.  Whenever the backend call fails or returns text that is not
    JSON, and standard output can encode what the handlers print about
    it, the two analyses return their hard-coded defaults, whose fields
    are those of [default_analysis_fields] and
    [default_sections_fields]. *)
Lemma printable_failure_gives_defaults :
  forall (i : interpreter) (generate : http_reply) (text model : str),
    backend_failed i generate ->
    failure_printable i generate = true ->
    analyze_document_content i generate text model = Ok get_default_analysis /\
    analyze_sections_content i generate text model
    = Ok (get_default_sections text).
Proof.
  intros i generate text model Hfail Hprint.
  unfold failure_printable in Hprint.
  unfold analyze_document_content, analyze_sections_content.
  destruct Hfail as [[e He] | [v [e [Hv He]]]].
  - rewrite He in *.
    split; rewrite print_error_ok; try reflexivity; exact Hprint.
  - rewrite Hv in *. rewrite He in *. cbn [rbind rcatch].
    assert (Hother : e <> JSONDecodeError ->
              print_error i (py "Error in document analysis: ") e = Ok tt /\
              print_error i (py "Error in section analysis: ") e = Ok tt).
    { intros Hne. split; apply print_error_ok; try reflexivity;
        destruct e; try exact Hprint; congruence. }
    destruct e;
      try (destruct Hother as [H1 H2]; [discriminate |];
           rewrite H1, H2; split; reflexivity).
    unfold print.
    rewrite !print_error_ok by reflexivity. cbn [rbind].
    rewrite !printable_app, Hprint.
    split; reflexivity.
Qed.

(** The model answered with prose instead of JSON. *)
Lemma prose_answer_gives_defaults :
  analyze_document_content Scenario.utf8_interpreter
    (Scenario.generated_reply (py "Sure! Here is the analysis you asked for."))
    (py "Revenue grew.") (py "llama3.2") = Ok get_default_analysis /\
  analyze_sections_content Scenario.utf8_interpreter
    (Scenario.generated_reply (py "Sure! Here is the analysis you asked for."))
    (py "Revenue grew.") (py "llama3.2")
  = Ok (get_default_sections (py "Revenue grew.")).
Proof.
  apply printable_failure_gives_defaults; [| vm_compute; reflexivity].
  right. exists (PStr (py "Sure! Here is the analysis you asked for.")).
  exists JSONDecodeError. split; vm_compute; reflexivity.
Defined.

(** X19.  An exception that leaves one of the two analyses was raised by
    a [print] of its handlers: it is a [UnicodeEncodeError]. *)
Lemma analysis_raises_only_while_printing :
  forall (i : interpreter) (generate : http_reply) (text model : str) (e : exn),
    analyze_document_content i generate text model = Raise e \/
    analyze_sections_content i generate text model = Raise e ->
    e = UnicodeEncodeError.
Proof.
  intros i generate text model e.
  unfold analyze_document_content, analyze_sections_content, print_error.
  assert (Hprint : forall (A : Type) (s1 s2 : str) (d : A),
             rbind (print i s1) (fun _ => rbind (print i s2) (fun _ => Ok d))
             = Raise e -> e = UnicodeEncodeError).
  { intros A s1 s2 d H.
    destruct (print i s1) eqn:H1; cbn [rbind] in H;
      [| injection H as <-; exact (print_raises _ _ _ H1)].
    destruct (print i s2) eqn:H2; cbn [rbind] in H; [discriminate |].
    injection H as <-. exact (print_raises _ _ _ H2). }
  assert (Hone : forall (A : Type) (s1 : str) (d : A),
             rbind (print i s1) (fun _ => Ok d) = Raise e ->
             e = UnicodeEncodeError).
  { intros A s1 d H.
    destruct (print i s1) eqn:H1; cbn [rbind] in H; [discriminate |].
    injection H as <-. exact (print_raises _ _ _ H1). }
  destruct (call_ollama generate) as [v | e0].
  - destruct (loads_generated i v) as [r | e1]; cbn [rbind rcatch].
    + intros [H | H]; [discriminate |].
      destruct (get r (py "sections") (PList [])) as [x | e2];
        cbn [rcatch] in H; [discriminate |].
      destruct e2; eauto.
    + intros [H | H]; destruct e1; eauto.
  - intros [H | H]; eauto.
Qed.

Lemma analysis_raises_only_while_printing_witness :
  analyze_document_content Scenario.utf8_interpreter
    Scenario.lone_surrogate_reply (py "Revenue grew.") (py "llama3.2")
  = Raise UnicodeEncodeError.
Proof.
  assert (H : exists e,
             analyze_document_content Scenario.utf8_interpreter
               Scenario.lone_surrogate_reply (py "Revenue grew.") (py "llama3.2")
             = Raise e).
  { eexists. vm_compute. reflexivity. }
  destruct H as [e He]. rewrite He. f_equal.
  exact (analysis_raises_only_while_printing _ _ _ _ e (or_introl He)).
Defined.

(** C1.  The claim (a failing backend, or an answer that is not JSON, makes
    both analyses return their defaults and never raise) fails on the
    code: when the model generates the single code point U+D800, which is
    not JSON, the handler of [json.JSONDecodeError] prints the answer
    before it returns the default, [print] raises [UnicodeEncodeError] on
    the surrogate, and the exception leaves both
    [analyze_document_content] and [analyze_sections_content], whatever
    the error handler of standard output and the room for recursion. *)
Theorem unprintable_answer_leaves_the_handler :
  forall (i : interpreter) (text model : str),
    call_ollama Scenario.lone_surrogate_reply = Ok (PStr [55296%N]) /\
    loads_generated i (PStr [55296%N]) = Raise JSONDecodeError /\
    analyze_document_content i Scenario.lone_surrogate_reply text model
    = Raise UnicodeEncodeError /\
    analyze_sections_content i Scenario.lone_surrogate_reply text model
    = Raise UnicodeEncodeError.
Proof.
  intros [room escape] text model.
  assert (Hcall : call_ollama Scenario.lone_surrogate_reply
                  = Ok (PStr [55296%N])) by (vm_compute; reflexivity).
  split; [exact Hcall |].
  split; [reflexivity |].
  unfold analyze_document_content, analyze_sections_content.
  rewrite Hcall.
  destruct escape; split; reflexivity.
Qed.

End AnnotationClient.

(* ===================================================================== *)
(** ** Speaker detection                                                  *)
(* ===================================================================== *)

Module SpeakerDetection.
Import Py audio_processor Notions.

(** Two consecutive segments: the second takes the next number when it
    starts more than two seconds after the end of the first, and the number
    of the first otherwise. *)
Lemma consecutive_segments :
  forall speaker_id last_end a b rest,
    let id_a := if long_pause last_end a then (speaker_id + 1)%Z else speaker_id in
    let id_b := if long_pause (seg_end a) b then (id_a + 1)%Z else id_a in
    exists a' b',
      detect_loop speaker_id last_end (a :: b :: rest)
      = a' :: b' :: detect_loop id_b (seg_end b) rest /\
      seg_speaker a' = speaker_label id_a /\
      seg_speaker b' = speaker_label id_b.
Proof.
  intros. do 2 eexists. repeat split.
Qed.

(** Two segments without a long pause before either of them are both
    "Speaker 1". *)
Lemma two_segments_without_pause :
  forall a b,
    long_pause 0%float a = false ->
    long_pause (seg_end a) b = false ->
    map seg_speaker (detect_speakers_simple [a; b])
    = [Some (py "Speaker 1"); Some (py "Speaker 1")].
Proof.
  intros a b Ha Hb. unfold long_pause in *. simpl. rewrite Ha, Hb. reflexivity.
Qed.

Lemma two_segments_without_pause_witness :
  map seg_speaker (detect_speakers_simple Scenario.early_start)
  = [Some (py "Speaker 1"); Some (py "Speaker 1")].
Proof.
  apply two_segments_without_pause; reflexivity.
Defined.

(** C8.  Two segments half a second apart whose first one starts five
    seconds into the recording: the silence before the first segment is
    counted as a change of speaker, and both are labelled "Speaker 2". *)
Theorem leading_silence_skips_speaker_1 :
  long_pause (seg_end (Scenario.seg 5.0 8.0 (py "Good morning.")))
             (Scenario.seg 8.5 12.0 (py "Welcome to the call.")) = false /\
  map seg_speaker (detect_speakers_simple Scenario.late_start)
  = [Some (py "Speaker 2"); Some (py "Speaker 2")].
Proof. split; vm_compute; reflexivity. Qed.

End SpeakerDetection.

(* ===================================================================== *)
(** ** Reading analyses back                                              *)
(* ===================================================================== *)

Module AnalysisRead.
Import Py database Notions.

Lemma find_is_head_of_filter {A} (f : A -> bool) (l : list A) :
  find f l = hd_error (filter f l).
Proof.
  induction l as [| x l IH]; simpl; [reflexivity |].
  destruct (f x); [reflexivity | exact IH].
Qed.

(** C9 (as the code has it).  The read returns the first analysis of the
    document in rowid order, the one created first; when the document has
    a single analysis this is also the latest. *)
Theorem analysis_read_returns_earliest :
  forall (conn : db) (document_id : Z),
    outcome (get_analysis_by_document_id document_id) conn
    = Ok (hd_error (analyses_of document_id conn)) /\
    (forall a, analyses_of document_id conn = [a] ->
       outcome (get_analysis_by_document_id document_id) conn
       = Ok (latest_analysis document_id conn)).
Proof.
  intros conn document_id. unfold outcome, get_analysis_by_document_id; simpl.
  rewrite find_is_head_of_filter. split; [reflexivity |].
  intros a Ha. unfold latest_analysis, analyses_of in *. rewrite Ha. reflexivity.
Qed.

(** C9 (as stated) fails: document 1 has the analyses 1 and 2, and the
    read returns analysis 1, not the latest. *)
Lemma analysis_read_not_latest :
  List.length (analyses_of 1 Scenario.two_analyses) = 2%nat /\
  outcome (get_analysis_by_document_id 1) Scenario.two_analyses
  <> Ok (latest_analysis 1 Scenario.two_analyses).
Proof.
  split; [reflexivity |].
  vm_compute. intro H. discriminate H.
Qed.

End AnalysisRead.

(* ===================================================================== *)
(** ** What an upload is refused for                                      *)
(* ===================================================================== *)

Module UploadValidation.
Import Py database analysis_engine main Notions.

(** A transport failure of the status probe makes the backend
    unavailable. *)
Lemma transport_failure_unavailable :
  forall e, available (check_ollama_status (Raise e)) = false.
Proof. intros e; destruct e; reflexivity. Qed.

(** C4 (as the code has it).  An upload made while the backend is
    unavailable is refused before anything is written: the database is
    left as it was (no Document row, so none with status failed, and no
    Analysis row), and the request fails with a client error, which is 503
    when the document type and the file extension are valid. *)
Theorem unavailable_backend_refuses_upload :
  forall (w : world) (title document_type model : str) (file : UploadFile)
         (conn : db),
    available (check_ollama_status (tags_status w)) = false ->
    after (upload_document w title document_type model file) conn = conn /\
    exists code detail cause,
      outcome (upload_document w title document_type model file) conn
      = Raise (HTTPException code detail cause) /\
      (code = 400 \/ code = 503)%Z /\
      (str_in document_type valid_types = true ->
       str_in (lower (snd (splitext (filename file)))) allowed_extensions = true ->
       code = 503%Z).
Proof.
  intros w title document_type model file conn Hdown.
  unfold after, outcome, upload_document.
  destruct (str_in document_type valid_types) eqn:Htype; cbn [negb].
  2:{ split; [reflexivity |]. do 3 eexists.
      split; [reflexivity |]. split; [left; reflexivity | discriminate]. }
  destruct (str_in (lower (snd (splitext (filename file)))) allowed_extensions)
    eqn:Hext; cbn [negb].
  2:{ split; [reflexivity |]. do 3 eexists.
      split; [reflexivity |]. split; [left; reflexivity | discriminate]. }
  destruct (check_ollama_status (tags_status w)) as [ms n | err cause];
    cbn [available] in Hdown; [discriminate |].
  split; [reflexivity |]. do 3 eexists.
  split; [reflexivity |]. split; [right; reflexivity | reflexivity].
Qed.

Lemma unavailable_backend_refuses_upload_witness :
  after (upload_document Scenario.unreachable (py "Test") (py "other")
           (py "llama3.2") Scenario.text_file) init_db = init_db /\
  exists code detail cause,
    outcome (upload_document Scenario.unreachable (py "Test") (py "other")
               (py "llama3.2") Scenario.text_file) init_db
    = Raise (HTTPException code detail cause) /\
    (code = 400 \/ code = 503)%Z /\
    (str_in (py "other") valid_types = true ->
     str_in (lower (snd (splitext (filename Scenario.text_file))))
            allowed_extensions = true ->
     code = 503%Z).
Proof.
  apply (unavailable_backend_refuses_upload Scenario.unreachable (py "Test")
           (py "other") (py "llama3.2") Scenario.text_file init_db).
  reflexivity.
Defined.

(** C4 (as stated) fails: with the backend unreachable, the upload of a
    valid file leaves no document at all, hence none whose status is
    failed. *)
Lemma unreachable_backend_no_failed_document :
  outcome (upload_document Scenario.unreachable (py "Test") (py "other")
             (py "llama3.2") Scenario.text_file) init_db
  = Raise (HTTPException 503
             (py "Ollama not available: Cannot connect to Ollama. Is it running?")
             None) /\
  ~ (exists d,
       In d (documents (after (upload_document Scenario.unreachable (py "Test")
                                 (py "other") (py "llama3.2")
                                 Scenario.text_file) init_db)) /\
       doc_status d = failed).
Proof.
  split; [vm_compute; reflexivity |].
  intros [d [Hin _]]. vm_compute in Hin. exact Hin.
Qed.

(** A file whose extension is not in the allow-list is refused with a 400
    that names the extension, and nothing is written. *)
Lemma bad_extension_refused :
  forall (w : world) (title document_type model : str) (file : UploadFile)
         (conn : db),
    str_in document_type valid_types = true ->
    str_in (lower (snd (splitext (filename file)))) allowed_extensions = false ->
    upload_document w title document_type model file conn
    = (Raise (HTTPException 400
                (py "File type " ++ lower (snd (splitext (filename file)))
                 ++ py " not supported. Allowed: .pdf, .txt, .doc, .docx") None),
       conn).
Proof.
  intros w title document_type model file conn Htype Hext.
  unfold upload_document. rewrite Htype, Hext. reflexivity.
Qed.

(** The size of the file is never looked at. *)
Lemma upload_ignores_size :
  forall (w : world) (title document_type model name : str) (s1 s2 : Z),
    upload_document w title document_type model {| filename := name; size := s1 |}
    = upload_document w title document_type model {| filename := name; size := s2 |}.
Proof. reflexivity. Qed.

(** C7.  A text file of 11 MB, which [validate_file_size] refuses, sent to
    a responsive backend: the upload is not refused, a Document row is
    created and the file is analysed to completion. *)
Theorem oversized_upload_is_processed :
  document_processor.validate_file_size (size Scenario.big_file)
    document_processor.default_max_size_mb = false /\
  exists doc,
    outcome (upload_document
               (Scenario.responsive (Scenario.document_json (py "70"))
                                    Scenario.sections_json)
               (py "Test") (py "other") (py "llama3.2") Scenario.big_file)
            init_db = Ok (Some doc) /\
    doc_status doc = completed /\
    In doc (documents
              (after (upload_document
                        (Scenario.responsive (Scenario.document_json (py "70"))
                                             Scenario.sections_json)
                        (py "Test") (py "other") (py "llama3.2")
                        Scenario.big_file) init_db)).
Proof.
  split; [reflexivity |].
  eexists. split; [vm_compute; reflexivity |].
  split; [reflexivity |]. vm_compute. left; reflexivity.
Qed.

End UploadValidation.

(* ===================================================================== *)
(** ** Rules of the program logic                                         *)
(* ===================================================================== *)

Module ProgramLogic.
Import Py database Notions.
Local Open Scope py_scope.

Lemma hoare_ret {A} (P : db -> Prop) (a : A) (Q : A -> db -> Prop) E :
  (forall conn, P conn -> Q a conn) -> hoare P (ret a) Q E.
Proof. intros H conn HP. exact (H conn HP). Qed.

Lemma hoare_raise {A} (P : db -> Prop) (e : exn) (Q : A -> db -> Prop)
  (E : db -> Prop) :
  (forall conn, P conn -> E conn) -> hoare P (raise e) Q E.
Proof. intros H conn HP. exact (H conn HP). Qed.

Lemma hoare_lift {A} (P : db -> Prop) (r : result A) (Q : A -> db -> Prop)
  (E : db -> Prop) :
  (forall a conn, r = Ok a -> P conn -> Q a conn) ->
  (forall e conn, r = Raise e -> P conn -> E conn) ->
  hoare P (lift r) Q E.
Proof.
  intros HQ HE conn HP. unfold lift. destruct r as [a | e]; simpl.
  - exact (HQ a conn eq_refl HP).
  - exact (HE e conn eq_refl HP).
Qed.

Lemma hoare_bind {A B} (P : db -> Prop) (c : M A) (k : A -> M B)
  (R : A -> db -> Prop) (Q : B -> db -> Prop) (E : db -> Prop) :
  hoare P c R E ->
  (forall a, hoare (R a) (k a) Q E) ->
  hoare P (bind c k) Q E.
Proof.
  intros Hc Hk conn HP. unfold bind. specialize (Hc conn HP).
  destruct (c conn) as [[a | e] conn1].
  - exact (Hk a conn1 Hc).
  - exact Hc.
Qed.

Lemma hoare_try {A} (P : db -> Prop) (body : M A) (handler : exn -> M A)
  (Q : A -> db -> Prop) (E' E : db -> Prop) :
  hoare P body Q E' ->
  (forall e, hoare E' (handler e) Q E) ->
  hoare P (try_except body handler) Q E.
Proof.
  intros Hb Hh conn HP. unfold try_except. specialize (Hb conn HP).
  destruct (body conn) as [[a | e] conn1].
  - exact Hb.
  - exact (Hh e conn1 Hb).
Qed.

Lemma hoare_consequence {A} (P P' : db -> Prop) (c : M A)
  (Q Q' : A -> db -> Prop) (E E' : db -> Prop) :
  hoare P' c Q' E' ->
  (forall conn, P conn -> P' conn) ->
  (forall a conn, Q' a conn -> Q a conn) ->
  (forall conn, E' conn -> E conn) ->
  hoare P c Q E.
Proof.
  intros H HP HQ HE conn Hconn. specialize (H conn (HP conn Hconn)).
  destruct (c conn) as [[a | e] conn1]; auto.
Qed.

(** A fact that does not depend on the database can be taken out of the
    precondition. *)
Lemma hoare_assume {A} (F : Prop) (P : db -> Prop) (c : M A)
  (Q : A -> db -> Prop) (E : db -> Prop) :
  (F -> hoare P c Q E) -> hoare (fun conn => F /\ P conn) c Q E.
Proof. intros H conn [HF HP]. exact (H HF conn HP). Qed.

Lemma preserves_ret {A} (I : db -> Prop) (a : A) : preserves I (ret a).
Proof. apply hoare_ret; auto. Qed.

Lemma preserves_raise {A} (I : db -> Prop) (e : exn) : preserves I (@raise A e).
Proof. apply hoare_raise; auto. Qed.

Lemma preserves_lift {A} (I : db -> Prop) (r : result A) : preserves I (lift r).
Proof. apply hoare_lift; auto. Qed.

Lemma preserves_bind {A B} (I : db -> Prop) (c : M A) (k : A -> M B) :
  preserves I c -> (forall a, preserves I (k a)) -> preserves I (bind c k).
Proof. intros Hc Hk. eapply hoare_bind; [exact Hc | exact Hk]. Qed.

Lemma preserves_try {A} (I : db -> Prop) (body : M A) (handler : exn -> M A) :
  preserves I body -> (forall e, preserves I (handler e)) ->
  preserves I (try_except body handler).
Proof. intros Hb Hh. eapply hoare_try; [exact Hb | exact Hh]. Qed.

Lemma preserves_weaken {A} (I I' : db -> Prop) (c : M A) :
  preserves I' c -> (forall conn, I' conn -> I conn) ->
  hoare I' c (fun _ => I) I.
Proof.
  intros H Himp. eapply hoare_consequence; [exact H | auto ..].
Qed.

(** What [preserves] says of the database [c] leaves. *)
Lemma preserves_after {A} (I : db -> Prop) (c : M A) (conn : db) :
  preserves I c -> I conn -> I (after c conn).
Proof.
  intros H HI. specialize (H conn HI). unfold after.
  destruct (c conn) as [[a | e] conn1]; exact H.
Qed.

Create HintDb preserve.

#[export] Hint Resolve preserves_ret preserves_raise preserves_lift
  preserves_bind preserves_try : preserve.

(** *** What the operations of database.py leave alone *)

Lemma create_analysis_keeps_documents x document_id v1 v2 v3 v4 v5 v6 t1 t2 t3 :
  preserves (fun conn => documents_part conn = x)
    (create_analysis document_id v1 v2 v3 v4 v5 v6 t1 t2 t3).
Proof.
  unfold create_analysis. repeat (apply preserves_bind; [apply preserves_lift | intros ?]).
  intros conn H. exact H.
Qed.

Lemma create_section_keeps_documents x analysis_id v1 v2 v3 v4 v5 v6 v7 v8 v9
  v10 v11 v12 order :
  preserves (fun conn => documents_part conn = x)
    (create_section analysis_id v1 v2 v3 v4 v5 v6 v7 v8 v9 v10 v11 v12 order).
Proof.
  unfold create_section. repeat (apply preserves_bind; [apply preserves_lift | intros ?]).
  intros conn H. exact H.
Qed.

Lemma create_metrics_keeps_documents x document_id analysis_id document_type
  v1 v2 v3 v4 v5 :
  preserves (fun conn => documents_part conn = x)
    (create_metrics document_id analysis_id document_type v1 v2 v3 v4 v5).
Proof.
  unfold create_metrics. repeat (apply preserves_bind; [apply preserves_lift | intros ?]).
  intros conn H. exact H.
Qed.

#[export] Hint Resolve create_analysis_keeps_documents
  create_section_keeps_documents create_metrics_keeps_documents : preserve.

Lemma store_sections_keeps_documents x analysis_id items :
  preserves (fun conn => documents_part conn = x)
    (main.store_sections analysis_id items).
Proof.
  induction items as [| [idx section] rest IH]; simpl.
  - apply preserves_ret.
  - repeat (apply preserves_bind; [apply preserves_lift | intros ?]).
    apply preserves_bind; [apply create_section_keeps_documents | intros _].
    exact IH.
Qed.

#[export] Hint Resolve store_sections_keeps_documents : preserve.

Lemma analyze_and_store_keeps_documents x i generate_doc generate_sec doc_id
  document_type text_content model :
  preserves (fun conn => documents_part conn = x)
    (main.analyze_and_store i generate_doc generate_sec doc_id document_type
       text_content model).
Proof.
  unfold main.analyze_and_store. auto 40 with preserve.
Qed.

End ProgramLogic.

(* ===================================================================== *)
(** ** The steps of the analysis pipeline                                 *)
(* ===================================================================== *)

Module Pipeline.
Import Py database analysis_engine Notions ProgramLogic.
Local Open Scope py_scope.

(** [analyze_and_store], step by step: the document analysis, the analysis
    row, the sections, the metrics snapshot. *)
Lemma analyze_and_store_unfold i generate_doc generate_sec doc_id document_type
  text_content model conn :
  main.analyze_and_store i generate_doc generate_sec doc_id document_type
    text_content model conn
  = match analyze_document_content i generate_doc text_content model with
    | Raise e => (Raise e, conn)
    | Ok analysis_result =>
        match analysis_row (seq_analyses conn + 1) doc_id analysis_result with
        | Raise e => (Raise e, conn)
        | Ok a =>
            match rbind (analyze_sections_content i generate_sec text_content model)
                        iter with
            | Raise e => (Raise e, insert_analysis a conn)
            | Ok items =>
                match main.store_sections (an_id a) (enumerate items)
                        (insert_analysis a conn) with
                | (Raise e, conn2) => (Raise e, conn2)
                | (Ok _, conn2) =>
                    (Ok analysis_result,
                     insert_metrics
                       (metrics_row (seq_metrics conn2 + 1) document_type a)
                       conn2)
                end
            end
        end
    end.
Proof.
  unfold main.analyze_and_store, create_analysis, create_metrics, analysis_row,
    bind, lift, ret, rbind.
  destruct (analyze_document_content i generate_doc text_content model)
    as [analysis_result |]; [| reflexivity].
  destruct (getitem analysis_result (py "overall_sentiment")) as [x1 |]; [| reflexivity].
  destruct (getitem analysis_result (py "sentiment_score")) as [x2 |]; [| reflexivity].
  destruct (getitem analysis_result (py "confidence_score")) as [x3 |]; [| reflexivity].
  destruct (getitem analysis_result (py "clarity_score")) as [x4 |]; [| reflexivity].
  destruct (getitem analysis_result (py "readability_score")) as [x5 |]; [| reflexivity].
  destruct (getitem analysis_result (py "specificity_score")) as [x6 |]; [| reflexivity].
  destruct (getitem analysis_result (py "key_themes")) as [x7 |]; [| reflexivity].
  destruct (getitem analysis_result (py "emotional_tone")) as [x8 |]; [| reflexivity].
  destruct (getitem analysis_result (py "linguistic_metrics")) as [x9 |]; [| reflexivity].
  destruct (bind_param x1) as [y1 |]; [| reflexivity].
  destruct (bind_param x2) as [y2 |]; [| reflexivity].
  destruct (bind_param x3) as [y3 |]; [| reflexivity].
  destruct (bind_param x4) as [y4 |]; [| reflexivity].
  destruct (bind_param x5) as [y5 |]; [| reflexivity].
  destruct (bind_param x6) as [y6 |]; [| reflexivity].
  cbv beta iota.
  destruct (analyze_sections_content i generate_sec text_content model)
    as [sections_result |]; [| reflexivity].
  destruct (iter sections_result) as [items |]; [| reflexivity].
  cbv beta iota. cbn [an_id].
  match goal with
  | |- context [main.store_sections ?i ?l ?c] =>
      destruct (main.store_sections i l c) as [[u | e] conn2]
  end; reflexivity.
Qed.

(** What a successful [analysis_row] says of the keys and values of the
    analysis result. *)
Lemma analysis_row_inv id document_id analysis_result a :
  analysis_row id document_id analysis_result = Ok a ->
  an_id a = id /\ an_document_id a = document_id /\
  rbind (getitem analysis_result (py "sentiment_score")) stored_as_integer
    = Ok (an_sentiment_score a) /\
  rbind (getitem analysis_result (py "confidence_score")) stored_as_integer
    = Ok (an_confidence_score a) /\
  rbind (getitem analysis_result (py "clarity_score")) stored_as_integer
    = Ok (an_clarity_score a) /\
  rbind (getitem analysis_result (py "readability_score")) stored_as_integer
    = Ok (an_readability_score a) /\
  rbind (getitem analysis_result (py "specificity_score")) stored_as_integer
    = Ok (an_specificity_score a).
Proof.
  unfold analysis_row, stored_as_integer, rbind.
  destruct (getitem analysis_result (py "overall_sentiment")) as [x1 |]; [| discriminate].
  destruct (getitem analysis_result (py "sentiment_score")) as [x2 |]; [| discriminate].
  destruct (getitem analysis_result (py "confidence_score")) as [x3 |]; [| discriminate].
  destruct (getitem analysis_result (py "clarity_score")) as [x4 |]; [| discriminate].
  destruct (getitem analysis_result (py "readability_score")) as [x5 |]; [| discriminate].
  destruct (getitem analysis_result (py "specificity_score")) as [x6 |]; [| discriminate].
  destruct (getitem analysis_result (py "key_themes")) as [x7 |]; [| discriminate].
  destruct (getitem analysis_result (py "emotional_tone")) as [x8 |]; [| discriminate].
  destruct (getitem analysis_result (py "linguistic_metrics")) as [x9 |]; [| discriminate].
  destruct (bind_param x1) as [y1 |]; [| discriminate].
  destruct (bind_param x2) as [y2 |]; [| discriminate].
  destruct (bind_param x3) as [y3 |]; [| discriminate].
  destruct (bind_param x4) as [y4 |]; [| discriminate].
  destruct (bind_param x5) as [y5 |]; [| discriminate].
  destruct (bind_param x6) as [y6 |]; [| discriminate].
  intros H. injection H as <-. repeat split; reflexivity.
Qed.

(** When [analyze_and_store] returns, it returns the result of the
    document analysis, for which the analysis row could be built. *)
Lemma analyze_and_store_value i generate_doc generate_sec doc_id document_type
  text_content model conn analysis_result conn' :
  main.analyze_and_store i generate_doc generate_sec doc_id document_type
    text_content model conn = (Ok analysis_result, conn') ->
  analyze_document_content i generate_doc text_content model = Ok analysis_result /\
  exists a, analysis_row (seq_analyses conn + 1) doc_id analysis_result = Ok a.
Proof.
  rewrite analyze_and_store_unfold.
  destruct (analyze_document_content i generate_doc text_content model)
    as [ar |]; [| discriminate].
  destruct (analysis_row (seq_analyses conn + 1) doc_id ar) as [a |] eqn:Hrow;
    [| discriminate].
  destruct (rbind _ iter) as [items |]; [| discriminate].
  destruct (main.store_sections _ _ _) as [[u | e] conn2]; [| discriminate].
  intros H. injection H as <- _. split; [reflexivity |].
  exists a. exact Hrow.
Qed.

End Pipeline.

(* ===================================================================== *)
(** ** The status of a document moves forward                             *)
(* ===================================================================== *)

Module StatusLifecycle.
Import Py database analysis_engine Notions ProgramLogic.
Local Open Scope py_scope.

Lemma str_eqb_eq : forall a b, str_eqb a b = true <-> a = b.
Proof.
  induction a as [| x a IH]; destruct b as [| y b]; simpl; split;
    try discriminate; try reflexivity.
  - intros H. apply andb_true_iff in H as [Hx Hab].
    apply N.eqb_eq in Hx. apply IH in Hab. congruence.
  - intros H. injection H as -> ->. rewrite N.eqb_refl. simpl. apply IH. reflexivity.
Qed.

(** No step leaves a terminal status. *)
Lemma terminal_is_final :
  forall a b, terminal a = true -> forward a b = false.
Proof.
  intros a b H. unfold terminal in H. apply orb_true_iff in H.
  destruct H as [H | H]; apply str_eqb_eq in H; subst a; reflexivity.
Qed.

Lemma document_paths_lifecycle :
  forall steps, In steps document_paths -> lifecycle steps.
Proof.
  intros steps H. simpl in H.
  destruct H as [<- | [<- | [<- | [<- | []]]]];
    [left; reflexivity | right .. ];
    (split; [eexists; reflexivity | split; reflexivity]).
Qed.

Lemma audio_paths_lifecycle :
  forall steps, In steps audio_paths -> lifecycle steps.
Proof.
  intros steps H. simpl in H.
  destruct H as [<- | [<- | [<- | [<- | []]]]];
    [left; reflexivity | right .. ];
    (split; [eexists; reflexivity | split; reflexivity]).
Qed.

(** *** Specifications of the operations that write a status *)

Lemma wrote_nothing conn : wrote conn [] conn.
Proof. unfold wrote. simpl. rewrite List.app_nil_r. reflexivity. Qed.

Lemma hoare_create_document conn title document_type file_path E :
  hoare (fun c => c = conn)
    (create_document title document_type file_path)
    (fun doc_id c => doc_id = (seq_documents conn + 1)%Z /\ wrote conn [uploading] c)
    E.
Proof.
  intros c ->. unfold create_document, wrote. simpl. split; reflexivity.
Qed.

Lemma hoare_update_status conn steps status E :
  hoare (wrote conn steps)
    (update_document_status (seq_documents conn + 1)%Z status)
    (fun _ => wrote conn (steps ++ [status]))
    E.
Proof.
  intros c H. unfold update_document_status, wrote in *. simpl.
  rewrite H, List.map_app, <- List.app_assoc. reflexivity.
Qed.

Lemma get_document_preserves (I : db -> Prop) document_id :
  preserves I (get_document document_id).
Proof. intros c H. exact H. Qed.

(** An assertion about the part of the database that analysing does not
    write is kept by [analyze_and_store]. *)
Lemma analyze_and_store_frame (I : db -> Prop) i generate_doc generate_sec doc_id
  document_type text_content model :
  (forall c1 c2, documents_part c1 = documents_part c2 -> I c1 -> I c2) ->
  preserves I
    (main.analyze_and_store i generate_doc generate_sec doc_id document_type
       text_content model).
Proof.
  intros Hpart conn HI.
  pose proof (analyze_and_store_keeps_documents (documents_part conn)
                i generate_doc generate_sec doc_id document_type text_content
                model conn eq_refl) as H.
  destruct (main.analyze_and_store _ _ _ _ _ _ _ conn) as [[a | e] conn1];
    apply (Hpart conn conn1); auto.
Qed.

Lemma wrote_documents_part conn steps c1 c2 :
  documents_part c1 = documents_part c2 -> wrote conn steps c1 -> wrote conn steps c2.
Proof.
  unfold documents_part, wrote. intros H H1.
  injection H as _ Hlog _ _ _. rewrite <- Hlog. exact H1.
Qed.

(** The statuses an upload of a text document writes. *)
Lemma upload_document_paths w title document_type model file conn :
  wrote_one_of conn document_paths
    (after (main.upload_document w title document_type model file) conn).
Proof.
  assert (Hnone : forall c, c = conn -> wrote_one_of conn document_paths c).
  { intros c ->. exists []. split; [simpl; tauto | apply wrote_nothing]. }
  assert (H : hoare (fun c => c = conn)
                (main.upload_document w title document_type model file)
                (fun _ => wrote_one_of conn document_paths)
                (wrote_one_of conn document_paths)).
  { unfold main.upload_document.
    destruct (str_in document_type main.valid_types); cbn [negb];
      [| apply hoare_raise; exact Hnone].
    destruct (str_in _ main.allowed_extensions); cbn [negb];
      [| apply hoare_raise; exact Hnone].
    destruct (check_ollama_status (main.tags_status w));
      [| apply hoare_raise; exact Hnone].
    eapply hoare_bind with (R := fun _ c => c = conn).
    { apply hoare_lift; [intros; assumption | intros ? ? _; apply Hnone]. }
    intros available_models.
    destruct (main.model_in model available_models); cbn [negb];
      [| destruct (main.join_values _ _); apply hoare_raise; exact Hnone].
    eapply hoare_bind with (R := fun _ c => c = conn).
    { apply hoare_lift; [intros; assumption | intros ? ? _; apply Hnone]. }
    intros _. eapply hoare_bind; [apply hoare_create_document |].
    intros doc_id. apply hoare_assume. intros ->.
    eapply hoare_bind with (R := fun _ => wrote conn [uploading; processing; completed]).
    - eapply hoare_try
        with (E' := fun c => wrote conn [uploading] c \/ wrote conn [uploading; processing] c).
      + eapply hoare_bind with (R := fun _ => wrote conn [uploading]).
        { apply hoare_lift; [intros; assumption | intros; left; assumption]. }
        intros text_content.
        eapply hoare_bind with (R := fun _ => wrote conn [uploading; processing]).
        { apply (hoare_update_status conn [uploading] processing _). }
        intros _.
        eapply hoare_bind with (R := fun _ => wrote conn [uploading; processing]).
        { eapply hoare_consequence.
          - apply (analyze_and_store_frame (wrote conn [uploading; processing])).
            apply wrote_documents_part.
          - auto.
          - auto.
          - intros; right; assumption. }
        intros _. apply (hoare_update_status conn [uploading; processing] completed _).
      + intros e.
        eapply hoare_bind
          with (R := fun _ c => wrote conn [uploading; failed] c
                                \/ wrote conn [uploading; processing; failed] c).
        { intros c [Hc | Hc].
          - left. exact (hoare_update_status conn _ failed (fun _ => False) c Hc).
          - right. exact (hoare_update_status conn _ failed (fun _ => False) c Hc). }
        intros _. apply hoare_raise. intros c [Hc | Hc].
        * exists [uploading; failed]. split; [simpl; tauto | exact Hc].
        * exists [uploading; processing; failed]. split; [simpl; tauto | exact Hc].
    - intros _. eapply hoare_consequence.
      + apply (get_document_preserves (wrote conn [uploading; processing; completed])).
      + auto.
      + intros ? c Hc. exists [uploading; processing; completed].
        split; [simpl; tauto | exact Hc].
      + intros c Hc. exists [uploading; processing; completed].
        split; [simpl; tauto | exact Hc]. }
  specialize (H conn eq_refl). unfold after.
  destruct (main.upload_document _ _ _ _ _ conn) as [[a | e] conn1]; exact H.
Qed.

(** The statuses an upload of an audio file writes. *)
Lemma upload_audio_paths w title document_type model preset language speakers
  file conn :
  wrote_one_of conn audio_paths
    (after (main_audio.upload_audio_document w title document_type model preset
              language speakers file) conn).
Proof.
  assert (Hnone : forall c, c = conn -> wrote_one_of conn audio_paths c).
  { intros c ->. exists []. split; [simpl; tauto | apply wrote_nothing]. }
  assert (H : hoare (fun c => c = conn)
                (main_audio.upload_audio_document w title document_type model
                   preset language speakers file)
                (fun _ => wrote_one_of conn audio_paths)
                (wrote_one_of conn audio_paths)).
  { unfold main_audio.upload_audio_document.
    destruct (str_in document_type main_audio.valid_types); cbn [negb];
      [| apply hoare_raise; exact Hnone].
    destruct (str_in _ main_audio.allowed_extensions); cbn [negb];
      [| apply hoare_raise; exact Hnone].
    eapply hoare_bind with (R := fun _ c => c = conn).
    { apply hoare_lift; [intros; assumption | intros ? ? _; apply Hnone]. }
    intros _. eapply hoare_bind; [apply hoare_create_document |].
    intros doc_id. apply hoare_assume. intros ->.
    eapply hoare_consequence
      with (Q' := fun _ => wrote conn [uploading; transcribing; analyzing; completed])
           (P' := wrote conn [uploading])
           (E' := fun c => wrote conn [uploading; transcribing; failed] c
                           \/ wrote conn [uploading; transcribing; analyzing; failed] c).
    2:{ auto. }
    2:{ intros ? c Hc. eexists. split; [| exact Hc]. simpl; tauto. }
    2:{ intros c [Hc | Hc]; (eexists; split; [| exact Hc]); simpl; tauto. }
    eapply hoare_try
      with (E' := fun c => wrote conn [uploading; transcribing] c
                           \/ wrote conn [uploading; transcribing; analyzing] c).
    - eapply hoare_bind with (R := fun _ => wrote conn [uploading; transcribing]).
      { apply (hoare_update_status conn [uploading] transcribing _). }
      intros _.
      eapply hoare_bind with (R := fun _ => wrote conn [uploading; transcribing]).
      { apply hoare_lift; [intros; assumption | intros; left; assumption]. }
      intros transcription_result.
      eapply hoare_bind with (R := fun _ => wrote conn [uploading; transcribing]).
      { apply hoare_lift; [intros; assumption | intros; left; assumption]. }
      intros _.
      eapply hoare_bind
        with (R := fun _ => wrote conn [uploading; transcribing; analyzing]).
      { apply (hoare_update_status conn [uploading; transcribing] analyzing _). }
      intros _.
      eapply hoare_bind
        with (R := fun analysis_result c =>
                     (exists id d a, analysis_row id d analysis_result = Ok a)
                     /\ wrote conn [uploading; transcribing; analyzing] c).
      { intros c Hc.
        pose proof (analyze_and_store_frame
                      (wrote conn [uploading; transcribing; analyzing])
                      (main_audio.interp w)
                      (main_audio.generate_document w)
                      (main_audio.generate_sections w)
                      (seq_documents conn + 1)%Z document_type
                      (audio_processor.res_formatted_text transcription_result)
                      model
                      (wrote_documents_part conn _) c Hc) as Hf.
        destruct (main.analyze_and_store _ _ _ _ _ _ _ c) as [[ar | e] c1] eqn:Hrun.
        - split; [| exact Hf].
          apply Pipeline.analyze_and_store_value in Hrun as [_ [a Ha]]. eauto.
        - right; exact Hf. }
      intros analysis_result. apply hoare_assume. intros [id [d [a Ha]]].
      apply Pipeline.analysis_row_inv in Ha as (_ & _ & H1 & H2 & H3 & _).
      unfold rbind in H1, H2, H3.
      destruct (getitem analysis_result (py "sentiment_score")) as [v1 |];
        [| discriminate].
      destruct (getitem analysis_result (py "confidence_score")) as [v2 |];
        [| discriminate].
      destruct (getitem analysis_result (py "clarity_score")) as [v3 |];
        [| discriminate].
      eapply hoare_bind
        with (R := fun _ => wrote conn [uploading; transcribing; analyzing; completed]).
      { apply (hoare_update_status conn [uploading; transcribing; analyzing]
                 completed _). }
      intros _.
      repeat (eapply hoare_bind
                with (R := fun _ => wrote conn [uploading; transcribing; analyzing; completed]);
              [ apply hoare_lift; [intros; assumption | intros; discriminate]
              | intros ? ]).
      apply hoare_ret. auto.
    - intros e.
      eapply hoare_bind
        with (R := fun _ c => wrote conn [uploading; transcribing; failed] c
                              \/ wrote conn [uploading; transcribing; analyzing; failed] c).
      { intros c [Hc | Hc].
        - left. exact (hoare_update_status conn _ failed (fun _ => False) c Hc).
        - right. exact (hoare_update_status conn _ failed (fun _ => False) c Hc). }
      intros _. apply hoare_raise. auto. }
  specialize (H conn eq_refl). unfold after.
  destruct (main_audio.upload_audio_document _ _ _ _ _ _ _ _ conn)
    as [[a | e] conn1]; exact H.
Qed.

(** Each of the sequences is written by some upload: of a text file with a
    bad extension, of one whose text cannot be extracted, of one whose
    analysis lacks keys, and of one that goes through. *)
Lemma document_paths_are_taken :
  wrote init_db []
    (after (main.upload_document
              (Scenario.responsive (Scenario.document_json (py "70"))
                                   Scenario.sections_json)
              (py "Test") (py "other") (py "llama3.2")
              {| main.filename := py "q1.exe"; main.size := 50 |}) init_db) /\
  wrote init_db [uploading; failed]
    (after (main.upload_document
              (Scenario.unreadable (Scenario.document_json (py "70"))
                                   Scenario.sections_json)
              (py "Test") (py "other") (py "llama3.2") Scenario.text_file)
           init_db) /\
  wrote init_db [uploading; processing; failed]
    (after (main.upload_document
              (Scenario.responsive Scenario.incomplete_json Scenario.sections_json)
              (py "Test") (py "other") (py "llama3.2") Scenario.text_file)
           init_db) /\
  wrote init_db [uploading; processing; completed]
    (after (main.upload_document
              (Scenario.responsive (Scenario.document_json (py "70"))
                                   Scenario.sections_json)
              (py "Test") (py "other") (py "llama3.2") Scenario.text_file)
           init_db).
Proof. repeat split; vm_compute; reflexivity. Qed.

(** The same for an audio file: a bad extension, a speech model that is
    not installed, an analysis that lacks keys, and a run that goes
    through. *)
Lemma audio_paths_are_taken :
  wrote init_db []
    (after (main_audio.upload_audio_document
              (Scenario.audio_world true (Scenario.document_json (py "70"))
                                    Scenario.sections_json)
              (py "Call") (py "earnings_call") (py "llama3.2") (py "balanced")
              (py "en") true
              {| main.filename := py "call.txt"; main.size := 50 |}) init_db) /\
  wrote init_db [uploading; transcribing; failed]
    (after (main_audio.upload_audio_document
              (Scenario.audio_world false (Scenario.document_json (py "70"))
                                    Scenario.sections_json)
              (py "Call") (py "earnings_call") (py "llama3.2") (py "balanced")
              (py "en") true Scenario.audio_file) init_db) /\
  wrote init_db [uploading; transcribing; analyzing; failed]
    (after (main_audio.upload_audio_document
              (Scenario.audio_world true Scenario.incomplete_json
                                    Scenario.sections_json)
              (py "Call") (py "earnings_call") (py "llama3.2") (py "balanced")
              (py "en") true Scenario.audio_file) init_db) /\
  wrote init_db [uploading; transcribing; analyzing; completed]
    (after (main_audio.upload_audio_document
              (Scenario.audio_world true (Scenario.document_json (py "70"))
                                    Scenario.sections_json)
              (py "Call") (py "earnings_call") (py "llama3.2") (py "balanced")
              (py "en") true Scenario.audio_file) init_db).
Proof. repeat split; vm_compute; reflexivity. Qed.

(** C2.  Whatever the request, the outside world and the database, an
    upload (of a text document or of an audio file) writes to the status
    of the document it creates, and to no other, a sequence that starts at
    uploading, goes forward one step at a time (uploading to processing to
    completed for text, uploading to transcribing to analyzing to completed
    for audio, failed from any of the non-terminal statuses), and in which
    completed and failed occur last only: no status is written after a
    terminal one. *)
Theorem status_moves_forward :
  forall conn : db,
    (forall w title document_type model file,
        exists steps,
          wrote conn steps
            (after (main.upload_document w title document_type model file) conn) /\
          lifecycle steps) /\
    (forall w title document_type model preset language speakers file,
        exists steps,
          wrote conn steps
            (after (main_audio.upload_audio_document w title document_type model
                      preset language speakers file) conn) /\
          lifecycle steps).
Proof.
  intros conn. split.
  - intros w title document_type model file.
    destruct (upload_document_paths w title document_type model file conn)
      as [steps [Hin Hw]].
    exists steps. split; [exact Hw | apply document_paths_lifecycle; exact Hin].
  - intros w title document_type model preset language speakers file.
    destruct (upload_audio_paths w title document_type model preset language
                speakers file conn) as [steps [Hin Hw]].
    exists steps. split; [exact Hw | apply audio_paths_lifecycle; exact Hin].
Qed.

End StatusLifecycle.

(* ===================================================================== *)
(** ** What holds of every database the program produces                  *)
(* ===================================================================== *)

Module Invariants.
Import Py database analysis_engine Notions ProgramLogic.
Local Open Scope py_scope.
Local Open Scope Z_scope.

Lemma range_succ n : range (S n) = range n ++ [Z.of_nat n].
Proof. unfold range. rewrite seq_S, List.map_app. reflexivity. Qed.

Lemma init_db_consistent : consistent init_db.
Proof.
  split; [repeat split; constructor |]. intros analysis_id. reflexivity.
Qed.

(** One [create_section]: it raises and writes nothing, or it inserts one
    row for the analysis, with the order and the title it was given. *)
Lemma create_section_cases analysis_id v1 v2 v3 v4 v5 v6 v7 v8 v9 v10 v11 v12
  order conn :
  (exists e,
      create_section analysis_id v1 v2 v3 v4 v5 v6 v7 v8 v9 v10 v11 v12 order conn
      = (Raise e, conn)) \/
  (exists id s,
      create_section analysis_id v1 v2 v3 v4 v5 v6 v7 v8 v9 v10 v11 v12 order conn
      = (Ok id, insert_section s conn) /\
      sec_analysis_id s = analysis_id /\ sec_section_order s = order /\
      rbind (stored_as_text v1) not_null = Ok (sec_section_title s)).
Proof.
  unfold create_section, stored_as_text, bind, lift, rbind.
  destruct (bind_param v1) as [y1 |]; [| left; eexists; reflexivity].
  destruct (bind_param v2) as [y2 |]; [| left; eexists; reflexivity].
  destruct (bind_param v3) as [y3 |]; [| left; eexists; reflexivity].
  destruct (bind_param v4) as [y4 |]; [| left; eexists; reflexivity].
  destruct (bind_param v5) as [y5 |]; [| left; eexists; reflexivity].
  destruct (bind_param v6) as [y6 |]; [| left; eexists; reflexivity].
  destruct (bind_param v7) as [y7 |]; [| left; eexists; reflexivity].
  destruct (bind_param v8) as [y8 |]; [| left; eexists; reflexivity].
  destruct (bind_param v9) as [y9 |]; [| left; eexists; reflexivity].
  destruct (bind_param v11) as [y11 |]; [| left; eexists; reflexivity].
  destruct (bind_param v12) as [y12 |]; [| left; eexists; reflexivity].
  destruct (not_null y1) as [z1 |] eqn:Hz1; [| left; eexists; reflexivity].
  destruct (not_null y4) as [z4 |]; [| left; eexists; reflexivity].
  right. do 2 eexists. split; [reflexivity | repeat split].
  cbn [sec_section_title].
  destruct y1; try discriminate; injection Hz1 as <-; reflexivity.
Qed.

(** One turn of the loop over the sections. *)
Lemma store_sections_step analysis_id idx section rest conn :
  (exists e,
      main.store_sections analysis_id ((idx, section) :: rest) conn
      = (Raise e, conn)) \/
  (exists s,
      main.store_sections analysis_id ((idx, section) :: rest) conn
      = main.store_sections analysis_id rest (insert_section s conn) /\
      emitted_as analysis_id idx section s).
Proof.
  cbn [main.store_sections]. unfold bind, lift, emitted_as, rbind.
  destruct (getitem section (py "section_title")) as [x1 |];
    [| left; eexists; reflexivity].
  destruct (get section (py "section_type") PNone) as [x2 |];
    [| left; eexists; reflexivity].
  destruct (get section (py "speaker") PNone) as [x3 |];
    [| left; eexists; reflexivity].
  destruct (getitem section (py "original_text")) as [x4 |];
    [| left; eexists; reflexivity].
  destruct (getitem section (py "sentiment_score")) as [x5 |];
    [| left; eexists; reflexivity].
  destruct (getitem section (py "confidence_score")) as [x6 |];
    [| left; eexists; reflexivity].
  destruct (getitem section (py "clarity_score")) as [x7 |];
    [| left; eexists; reflexivity].
  destruct (getitem section (py "readability_score")) as [x8 |];
    [| left; eexists; reflexivity].
  destruct (getitem section (py "specificity_score")) as [x9 |];
    [| left; eexists; reflexivity].
  destruct (getitem section (py "issues")) as [x10 |];
    [| left; eexists; reflexivity].
  destruct (getitem section (py "suggested_revision")) as [x11 |];
    [| left; eexists; reflexivity].
  destruct (getitem section (py "revision_rationale")) as [x12 |];
    [| left; eexists; reflexivity].
  cbv beta iota.
  destruct (create_section_cases analysis_id x1 x2 x3 x4 x5 x6 x7 x8 x9 x10
              x11 x12 idx conn) as [[e He] | [id [s [Hs [Ha [Ho Ht]]]]]];
    rewrite ?He, ?Hs.
  - left. exists e. reflexivity.
  - right. exists s. unfold rbind in Ht. repeat split; assumption.
Qed.

Lemma filter_none {A} (P : A -> Prop) (f : A -> bool) (l : list A) :
  Forall P l -> (forall x, P x -> f x = false) -> filter f l = [].
Proof.
  intros Hl Hf. induction Hl as [| x l Hx Hl IH]; [reflexivity |].
  cbn [filter]. rewrite (Hf x Hx). exact IH.
Qed.

Lemma filter_snoc {A} (f : A -> bool) (l : list A) (x : A) :
  filter f (l ++ [x]) = filter f l ++ (if f x then [x] else []).
Proof. rewrite List.filter_app. reflexivity. Qed.

(** A section appended to an analysis with the next number keeps the
    database consistent. *)
Lemma insert_section_consistent s conn :
  consistent conn ->
  sec_analysis_id s <= seq_analyses conn ->
  sec_section_order s
  = Z.of_nat (List.length (sections_of (sec_analysis_id s) conn)) ->
  consistent (insert_section s conn).
Proof.
  intros [[HA [HB HC]] HD] Hid Horder. split.
  - split; [exact HA | split; [| exact HC]].
    cbn [sections seq_analyses insert_section].
    apply Forall_app. split; [exact HB | constructor; [exact Hid | constructor]].
  - intros analysis_id. pose proof (HD analysis_id) as Hold.
    unfold sections_of in *.
    cbn [sections insert_section]. rewrite filter_snoc.
    destruct (Z.eqb (sec_analysis_id s) analysis_id) eqn:Heq.
    + apply Z.eqb_eq in Heq. subst analysis_id.
      rewrite List.map_app, List.length_app, Nat.add_1_r, range_succ, <- Hold.
      cbn [map]. rewrite Horder. reflexivity.
    + rewrite List.app_nil_r. exact Hold.
Qed.

(** The loop over the sections, entered with the number of sections the
    analysis already has, keeps the database consistent wherever it
    stops. *)
Lemma store_sections_consistent analysis_id items :
  forall i conn,
    consistent conn ->
    analysis_id <= seq_analyses conn ->
    i = Z.of_nat (List.length (sections_of analysis_id conn)) ->
    consistent (snd (main.store_sections analysis_id (enumerate_from i items) conn)).
Proof.
  induction items as [| section rest IH]; intros i conn Hc Hid Hi.
  - exact Hc.
  - cbn [enumerate_from].
    destruct (store_sections_step analysis_id i section
                (enumerate_from (i + 1) rest) conn)
      as [[e He] | [s [Hs [Ha [Ho _]]]]]; rewrite ?He, ?Hs.
    + exact Hc.
    + subst analysis_id. apply IH.
      * apply insert_section_consistent; [exact Hc | exact Hid | congruence].
      * exact Hid.
      * unfold sections_of. cbn [sections insert_section].
        rewrite filter_snoc, Z.eqb_refl, List.length_app. cbn [List.length].
        unfold sections_of in Hi. lia.
Qed.

Lemma insert_analysis_consistent a conn :
  consistent conn ->
  an_document_id a <= seq_documents conn ->
  an_id a = seq_analyses conn + 1 ->
  consistent (insert_analysis a conn) /\
  sections_of (an_id a) (insert_analysis a conn) = [].
Proof.
  intros [[HA [HB HC]] HD] Hdoc Hid. split; [split |].
  - split; [| split; [| exact HC]].
    + cbn [analyses seq_documents insert_analysis].
      apply Forall_app. split; [exact HA | constructor; [exact Hdoc | constructor]].
    + cbn [sections seq_analyses insert_analysis].
      eapply Forall_impl; [| exact HB]. intros s Hs. cbn beta in *. lia.
  - exact HD.
  - unfold sections_of. cbn [sections insert_analysis].
    apply filter_none with (P := fun s => sec_analysis_id s <= seq_analyses conn);
      [exact HB |].
    intros s Hs. apply Z.eqb_neq. lia.
Qed.

Lemma insert_metrics_consistent m conn :
  consistent conn -> consistent (insert_metrics m conn).
Proof. intros H. exact H. Qed.

(** Analysing a document that exists keeps the database consistent,
    wherever the analysis stops. *)
Lemma analyze_and_store_consistent i generate_doc generate_sec doc_id
  document_type text_content model conn :
  consistent conn ->
  doc_id <= seq_documents conn ->
  consistent (snd (main.analyze_and_store i generate_doc generate_sec doc_id
                     document_type text_content model conn)).
Proof.
  intros Hc Hdoc. rewrite Pipeline.analyze_and_store_unfold.
  destruct (analyze_document_content i generate_doc text_content model)
    as [analysis_result |]; [| exact Hc].
  destruct (analysis_row (seq_analyses conn + 1) doc_id analysis_result)
    as [a |] eqn:Hrow; [| exact Hc].
  apply Pipeline.analysis_row_inv in Hrow as (Hid & Hd & _).
  destruct (insert_analysis_consistent a conn Hc) as [Hc1 Hnone];
    [lia | exact Hid |].
  destruct (rbind _ iter) as [items |]; [| exact Hc1].
  pose proof (store_sections_consistent (an_id a) items 0
                (insert_analysis a conn) Hc1) as Hloop.
  unfold enumerate.
  destruct (main.store_sections (an_id a) (enumerate_from 0 items)
              (insert_analysis a conn)) as [[u | e] conn2];
    cbn [snd] in *; [apply insert_metrics_consistent |];
    apply Hloop; try (rewrite Hnone; reflexivity);
    cbn [seq_analyses insert_analysis]; lia.
Qed.

Lemma update_status_working doc_id document_id status :
  preserves (working doc_id) (update_document_status document_id status).
Proof. intros c [H1 H2]. split; [exact H1 | exact H2]. Qed.

Lemma analyze_and_store_working i generate_doc generate_sec doc_id document_type
  text_content model :
  preserves (working doc_id)
    (main.analyze_and_store i generate_doc generate_sec doc_id document_type
       text_content model).
Proof.
  intros c [H1 H2].
  pose proof (analyze_and_store_consistent i generate_doc generate_sec doc_id
                document_type text_content model c H1 H2) as Hc.
  pose proof (analyze_and_store_keeps_documents (documents_part c) i generate_doc
                generate_sec doc_id document_type text_content model c eq_refl)
    as Hk.
  destruct (main.analyze_and_store _ _ _ _ _ _ _ c) as [[a | e] c1];
    cbn [snd] in Hc; (split; [exact Hc |]);
    unfold documents_part in Hk; injection Hk as _ _ Hseq _ _; lia.
Qed.

Lemma create_document_working title document_type file_path :
  hoare consistent (create_document title document_type file_path)
    (fun doc_id => working doc_id) consistent.
Proof.
  intros c [[HA [HB HC]] HD]. unfold create_document, working; cbn.
  split; [| lia]. split; [| exact HD].
  split; [| split; [exact HB | exact HC]].
  eapply Forall_impl; [| exact HA]. cbn. intros; lia.
Qed.

Lemma working_consistent doc_id conn : working doc_id conn -> consistent conn.
Proof. intros [H _]. exact H. Qed.

#[export] Hint Resolve update_status_working analyze_and_store_working
  StatusLifecycle.get_document_preserves : preserve.

Lemma upload_document_consistent w title document_type model file :
  preserves consistent (main.upload_document w title document_type model file).
Proof.
  unfold main.upload_document.
  destruct (str_in document_type main.valid_types); cbn [negb];
    [| apply preserves_raise].
  destruct (str_in _ main.allowed_extensions); cbn [negb];
    [| apply preserves_raise].
  destruct (check_ollama_status (main.tags_status w)); [| apply preserves_raise].
  apply preserves_bind; [apply preserves_lift | intros available_models].
  destruct (main.model_in model available_models); cbn [negb];
    [| destruct (main.join_values _ _); apply preserves_raise].
  apply preserves_bind; [apply preserves_lift | intros _].
  eapply hoare_bind; [apply create_document_working | intros doc_id].
  apply preserves_weaken; [| apply working_consistent].
  auto 20 with preserve.
Qed.

Lemma upload_audio_consistent w title document_type model preset language
  speakers file :
  preserves consistent
    (main_audio.upload_audio_document w title document_type model preset
       language speakers file).
Proof.
  unfold main_audio.upload_audio_document.
  destruct (str_in document_type main_audio.valid_types); cbn [negb];
    [| apply preserves_raise].
  destruct (str_in _ main_audio.allowed_extensions); cbn [negb];
    [| apply preserves_raise].
  apply preserves_bind; [apply preserves_lift | intros _].
  eapply hoare_bind; [apply create_document_working | intros doc_id].
  apply preserves_weaken; [| apply working_consistent].
  auto 30 with preserve.
Qed.

Lemma verify_documents_preserves (I : db -> Prop) document_ids :
  preserves I (main.verify_documents document_ids).
Proof.
  induction document_ids as [| doc_id rest IH]; cbn [main.verify_documents].
  - apply preserves_ret.
  - apply preserves_bind; [apply StatusLifecycle.get_document_preserves |].
    intros [d |]; [exact IH | apply preserves_raise].
Qed.

Lemma get_comparison_preserves (I : db -> Prop) comparison_id :
  preserves I (get_comparison comparison_id).
Proof.
  intros c H. unfold get_comparison.
  destruct (find _ (comparisons c)) as [row |]; [| exact H].
  destruct (Json.loads (cmp_document_ids row)); exact H.
Qed.

Lemma create_comparison_consistent title description document_ids :
  preserves consistent (create_comparison title description document_ids).
Proof.
  intros c [[HA [HB HC]] HD]. unfold create_comparison; cbn.
  split; [| exact HD]. split; [exact HA | split; [exact HB |]].
  apply Forall_app. split.
  - eapply Forall_impl; [| exact HC]. cbn. intros; lia.
  - constructor; [cbn; lia | constructor].
Qed.

Lemma create_document_comparison_consistent title description document_ids :
  preserves consistent
    (main.create_document_comparison title description document_ids).
Proof.
  unfold main.create_document_comparison.
  destruct (Z.of_nat (List.length document_ids) <? 2); [apply preserves_raise |].
  apply preserves_bind; [apply verify_documents_preserves | intros _].
  apply preserves_bind; [apply create_comparison_consistent | intros comp_id].
  apply get_comparison_preserves.
Qed.

Lemma delete_comparison_consistent comparison_id :
  preserves consistent (delete_comparison comparison_id).
Proof.
  intros c [[HA [HB HC]] HD]. unfold delete_comparison; cbn.
  split; [| exact HD]. split; [exact HA | split; [exact HB |]].
  cbn. apply Forall_forall. intros x Hx. apply filter_In in Hx as [Hx _].
  rewrite Forall_forall in HC. exact (HC x Hx).
Qed.

(** Every database the program produces is consistent. *)
Lemma reachable_consistent conn : reachable conn -> consistent conn.
Proof.
  induction 1 as [| w t dt m f conn _ IH | w t dt m p l sp f conn _ IH
                  | t d ids conn _ IH | id conn _ IH].
  - exact init_db_consistent.
  - exact (preserves_after _ _ conn (upload_document_consistent w t dt m f) IH).
  - exact (preserves_after _ _ conn (upload_audio_consistent w t dt m p l sp f) IH).
  - exact (preserves_after _ _ conn
             (create_document_comparison_consistent t d ids) IH).
  - exact (preserves_after _ _ conn (delete_comparison_consistent id) IH).
Qed.

End Invariants.

(* ===================================================================== *)
(** ** The order of the sections of an analysis                           *)
(* ===================================================================== *)

Module SectionOrder.
Import Py database Notions.
Local Open Scope Z_scope.

(** Rows whose keys count up from [k] are already in the order [ORDER BY
    section_order] gives. *)
Lemma counted_rows_are_ordered :
  forall (l : list section) (k : nat),
    map sec_section_order l = map Z.of_nat (seq k (List.length l)) ->
    order_by_section_order l = l.
Proof.
  induction l as [| x l IH]; intros k H; [reflexivity |].
  cbn [List.length seq map] in H. injection H as Hx Hl.
  unfold order_by_section_order in *. cbn [fold_right].
  rewrite (IH (S k) Hl).
  destruct l as [| y l']; [reflexivity |].
  cbn [insert_by_order]. cbn [List.length seq map] in Hl. injection Hl as Hy _.
  replace (sec_section_order x <=? sec_section_order y) with true; [reflexivity |].
  symmetry. apply Z.leb_le. lia.
Qed.

(** A run of the loop over the sections that returns has appended one
    row per section the model emitted, in the order of emission, numbered
    from the index the loop started at. *)
Lemma sections_follow_emission analysis_id items :
  forall i conn u conn',
    main.store_sections analysis_id (enumerate_from i items) conn = (Ok u, conn') ->
    exists rows,
      sections conn' = sections conn ++ rows /\
      emitted analysis_id i items rows.
Proof.
  induction items as [| item items IH]; intros i conn u conn' Hrun.
  - cbn in Hrun. injection Hrun as _ <-. exists [].
    rewrite List.app_nil_r. split; [reflexivity | constructor].
  - cbn [enumerate_from] in Hrun.
    destruct (Invariants.store_sections_step analysis_id i item
                (enumerate_from (i + 1) items) conn)
      as [[e He] | [s [Hs Hrow]]]; rewrite ?He, ?Hs in Hrun; [discriminate |].
    destruct (IH (i + 1) (insert_section s conn) u conn' Hrun)
      as [rows [Hrows Hem]].
    exists (s :: rows). split.
    + rewrite Hrows. cbn [sections insert_section].
      rewrite <- List.app_assoc. reflexivity.
    + constructor; assumption.
Qed.

(** C5.  In every database the program produces, the sections of an
    analysis, taken in the order they were inserted (the order in which the
    model emitted them), carry the numbers 0, 1, ..., N-1, N being their
    count; and reading them back with [get_sections_by_analysis_id], which
    sorts on [section_order], returns exactly these rows in this order. *)
Theorem sections_are_numbered_and_read_in_order :
  forall conn : db,
    reachable conn ->
    forall analysis_id : Z,
      map sec_section_order (sections_of analysis_id conn)
      = range (List.length (sections_of analysis_id conn)) /\
      outcome (get_sections_by_analysis_id analysis_id) conn
      = Ok (sections_of analysis_id conn).
Proof.
  intros conn Hreach analysis_id.
  destruct (Invariants.reachable_consistent conn Hreach) as [_ Hcont].
  split; [apply Hcont |].
  unfold outcome, get_sections_by_analysis_id. cbn [fst].
  fold (sections_of analysis_id conn).
  rewrite (counted_rows_are_ordered (sections_of analysis_id conn) 0);
    [reflexivity | apply Hcont].
Qed.

(** After the upload of a document for which the model emitted the
    sections "Introduction" and "Outlook", in this order. *)
Lemma sections_are_numbered_and_read_in_order_witness :
  reachable Scenario.one_upload /\
  map sec_section_order (sections_of 1 Scenario.one_upload)
  = range (List.length (sections_of 1 Scenario.one_upload)) /\
  outcome (get_sections_by_analysis_id 1) Scenario.one_upload
  = Ok (sections_of 1 Scenario.one_upload).
Proof.
  assert (H : reachable Scenario.one_upload).
  { apply (reach_upload_document _ _ _ _ _ init_db reach_init). }
  split; [exact H |].
  exact (sections_are_numbered_and_read_in_order Scenario.one_upload H 1).
Defined.

Example one_upload_sections :
  map (fun s => (sec_section_order s, sec_section_title s))
      (sections_of 1 Scenario.one_upload)
  = [(0, SqlText (py "Introduction")); (1, SqlText (py "Outlook"))].
Proof. vm_compute. reflexivity. Qed.

End SectionOrder.

(* ===================================================================== *)
(** ** The fuel of the JSON decoder                                       *)
(* ===================================================================== *)

Module JsonFuel.
Import Py Json.

Lemma skip_ws_length s : (List.length (skip_ws s) <= List.length s)%nat.
Proof.
  induction s as [| c r IH]; [cbn; lia |].
  cbn [skip_ws]. destruct (is_ws c); cbn [List.length] in *; lia.
Qed.

Lemma strip_prefix_length p : forall s r,
  strip_prefix p s = Some r -> (List.length r + List.length p = List.length s)%nat.
Proof.
  induction p as [| a p IH]; intros s r H.
  - cbn in H. injection H as <-. cbn; lia.
  - destruct s as [| b s]; [discriminate |]. cbn [strip_prefix] in H.
    destruct (N.eqb a b); [| discriminate].
    apply IH in H. cbn [List.length]. lia.
Qed.

Lemma span_digits_length s : forall ds rest,
  span_digits s = (ds, rest) -> (List.length ds + List.length rest = List.length s)%nat.
Proof.
  induction s as [| c r IH]; intros ds rest H.
  - cbn in H. injection H as <- <-. reflexivity.
  - cbn [span_digits] in H. destruct (is_digit c).
    + destruct (span_digits r) as [ds' rest'] eqn:E. injection H as <- <-.
      specialize (IH ds' rest' eq_refl). cbn [List.length]. lia.
    + injection H as <- <-. reflexivity.
Qed.

Lemma scanstring_length : forall n s acc t r,
  (List.length s <= n)%nat ->
  scanstring s acc = Some (t, r) -> (List.length r < List.length s)%nat.
Proof.
  induction n as [| n IH]; intros s acc t r Hn H.
  - destruct s; [discriminate | cbn in Hn; lia].
  - destruct s as [| c s1]; [discriminate |].
    cbn [scanstring] in H. cbn [List.length] in *.
    destruct (N.eqb c 34). { injection H as _ <-. lia. }
    destruct (N.eqb c 92).
    2:{ destruct (c <=? 31)%N; [discriminate |].
        apply IH in H; [lia | lia]. }
    destruct s1 as [| e r1]; [discriminate |]. cbn [List.length] in *.
    destruct (N.eqb e 117).
    2:{ destruct (simple_escape e); [| discriminate].
        apply IH in H; [lia | lia]. }
    destruct r1 as [| h1 [| h2 [| h3 [| h4 r2]]]]; try discriminate.
    cbn [List.length] in *.
    destruct (hex4 h1 h2 h3 h4) as [cp |]; [| discriminate].
    destruct (is_high_surrogate cp).
    2:{ apply IH in H; [lia | lia]. }
    destruct r2 as [| b [| u [| k1 [| k2 [| k3 [| k4 r3]]]]]];
      try (apply IH in H; [cbn [List.length] in *; lia | cbn [List.length] in *; lia]).
    destruct r3 as [| x r4];
      [apply IH in H; [cbn [List.length] in *; lia | cbn [List.length] in *; lia] |].
    destruct (N.eqb b 92 && N.eqb u 117);
      [| apply IH in H; [cbn [List.length] in *; lia | cbn [List.length] in *; lia]].
    destruct (hex4 k1 k2 k3 k4) as [c2 |]; [| discriminate].
    destruct (is_low_surrogate c2);
      apply IH in H; cbn [List.length] in *; lia.
Qed.

Ltac crunch H :=
  repeat (cbn [List.length fst snd] in *;
          match type of H with
          | context [span_digits ?x] =>
              let E := fresh "E" in
              destruct (span_digits x) as [? ?] eqn:E; apply span_digits_length in E
          | context [if ?b then _ else _] => destruct b
          | context [match ?x with [] => _ | _ :: _ => _ end] => destruct x
          | context [let (_, _) := ?p in _] => destruct p
          end);
  cbn [List.length fst snd] in *.

Lemma match_number_length s v r :
  match_number s = Some (v, r) -> (List.length r < List.length s)%nat.
Proof.
  unfold match_number. intros H.
  destruct s as [| c s0]; [discriminate |].
  destruct (N.eqb c 45).
  - destruct s0 as [| d r1]; [discriminate |].
    destruct (negb (is_digit d)); [discriminate |].
    crunch H; try discriminate; injection H as _ <-;
      rewrite ?List.length_app in *; cbn [List.length] in *; lia.
  - destruct (negb (is_digit c)); [discriminate |].
    crunch H; try discriminate; injection H as _ <-;
      rewrite ?List.length_app in *; cbn [List.length] in *; lia.
Qed.

Lemma scan_progress : forall n,
  (forall s v r, scan_once n s = Some (v, r) -> (List.length r < List.length s)%nat) /\
  (forall s acc v r, array_items n s acc = Some (v, r) ->
                     (List.length r < List.length s)%nat) /\
  (forall s acc v r, object_members n s acc = Some (v, r) ->
                     (List.length r < List.length s)%nat).
Proof.
  induction n as [| n (IHs & IHa & IHo)];
    [repeat split; intros; discriminate |].
  repeat split.
  - intros s v r H. cbn [scan_once] in H.
    destruct s as [| c s0]; [discriminate |]. cbn [List.length].
    destruct (N.eqb c 34).
    { destruct (scanstring s0 []) as [[t rest] |] eqn:E; [| discriminate].
      injection H as _ <-.
      apply (scanstring_length (List.length s0)) in E; lia. }
    destruct (N.eqb c 123).
    { pose proof (skip_ws_length s0) as Hw.
      destruct (skip_ws s0) as [| c1 r1]; [discriminate |]. cbn [List.length] in Hw.
      destruct (N.eqb c1 125); [injection H as _ <-; lia |].
      apply IHo in H. cbn [List.length] in H. lia. }
    destruct (N.eqb c 91).
    { pose proof (skip_ws_length s0) as Hw.
      destruct (skip_ws s0) as [| c1 r1]; [discriminate |]. cbn [List.length] in Hw.
      destruct (N.eqb c1 93); [injection H as _ <-; lia |].
      apply IHa in H. cbn [List.length] in H. lia. }
    repeat match type of H with
           | context [strip_prefix ?p ?x] =>
               let E := fresh "E" in
               destruct (strip_prefix p x) as [?|] eqn:E;
               [ apply strip_prefix_length in E; injection H as _ <-;
                 cbn [List.length] in E; cbn in E; lia | ]
           end.
    apply match_number_length in H. cbn [List.length] in H. lia.
  - intros s acc v r H. cbn [array_items] in H.
    destruct (scan_once n s) as [[v0 r0] |] eqn:E; [| discriminate].
    apply IHs in E. pose proof (skip_ws_length r0) as Hw.
    destruct (skip_ws r0) as [| c r1]; [discriminate |]. cbn [List.length] in Hw.
    destruct (N.eqb c 93); [injection H as _ <-; lia |].
    destruct (N.eqb c 44); [| discriminate].
    apply IHa in H. pose proof (skip_ws_length r1). lia.
  - intros s acc v r H. cbn [object_members] in H.
    destruct s as [| q s0]; [discriminate |]. cbn [List.length].
    destruct (N.eqb q 34); [| discriminate].
    destruct (scanstring s0 []) as [[k r1] |] eqn:E; [| discriminate].
    apply (scanstring_length (List.length s0)) in E; [| lia].
    pose proof (skip_ws_length r1) as Hw1.
    destruct (skip_ws r1) as [| colon r2]; [discriminate |].
    cbn [List.length] in Hw1.
    destruct (N.eqb colon 58); [| discriminate].
    destruct (scan_once n (skip_ws r2)) as [[v0 r3] |] eqn:E3; [| discriminate].
    apply IHs in E3. pose proof (skip_ws_length r2) as Hw2.
    pose proof (skip_ws_length r3) as Hw3.
    destruct (skip_ws r3) as [| c r4]; [discriminate |]. cbn [List.length] in Hw3.
    destruct (N.eqb c 125); [injection H as _ <-; lia |].
    destruct (N.eqb c 44); [| discriminate].
    apply IHo in H. pose proof (skip_ws_length r4). lia.
Qed.

(** Above two units per character and two more, the result does not
    depend on the fuel. *)
Lemma fuel_enough : forall n,
  (forall m s, (2 * List.length s + 1 <= n)%nat -> (n <= m)%nat ->
               scan_once m s = scan_once n s) /\
  (forall m s acc, (2 * List.length s + 2 <= n)%nat -> (n <= m)%nat ->
                   array_items m s acc = array_items n s acc) /\
  (forall m s acc, (2 * List.length s + 2 <= n)%nat -> (n <= m)%nat ->
                   object_members m s acc = object_members n s acc).
Proof.
  induction n as [| n (IHs & IHa & IHo)]; [repeat split; intros; lia |].
  repeat split.
  - intros m s Hs Hm. destruct m as [| m]; [lia |]. cbn [scan_once].
    destruct s as [| c s0]; [reflexivity |]. cbn [List.length] in Hs.
    destruct (N.eqb c 34); [reflexivity |].
    pose proof (skip_ws_length s0) as Hw.
    destruct (N.eqb c 123).
    { destruct (skip_ws s0) as [| c1 r1] eqn:E; [reflexivity |].
      destruct (N.eqb c1 125); [reflexivity |].
      apply IHo; cbn [List.length] in *; lia. }
    destruct (N.eqb c 91).
    { destruct (skip_ws s0) as [| c1 r1] eqn:E; [reflexivity |].
      destruct (N.eqb c1 93); [reflexivity |].
      apply IHa; cbn [List.length] in *; lia. }
    reflexivity.
  - intros m s acc Hs Hm. destruct m as [| m]; [lia |]. cbn [array_items].
    rewrite (IHs m s) by lia.
    destruct (scan_once n s) as [[v0 r0] |] eqn:E; [| reflexivity].
    apply (proj1 (scan_progress n)) in E.
    pose proof (skip_ws_length r0) as Hw.
    destruct (skip_ws r0) as [| c r1]; [reflexivity |]. cbn [List.length] in Hw.
    destruct (N.eqb c 93); [reflexivity |].
    destruct (N.eqb c 44); [| reflexivity].
    pose proof (skip_ws_length r1). apply IHa; lia.
  - intros m s acc Hs Hm. destruct m as [| m]; [lia |]. cbn [object_members].
    destruct s as [| q s0]; [reflexivity |]. cbn [List.length] in Hs.
    destruct (N.eqb q 34); [| reflexivity].
    destruct (scanstring s0 []) as [[k r1] |] eqn:E; [| reflexivity].
    apply (scanstring_length (List.length s0)) in E; [| lia].
    pose proof (skip_ws_length r1) as Hw1.
    destruct (skip_ws r1) as [| colon r2]; [reflexivity |].
    cbn [List.length] in Hw1.
    destruct (N.eqb colon 58); [| reflexivity].
    pose proof (skip_ws_length r2) as Hw2.
    rewrite (IHs m (skip_ws r2)) by lia.
    destruct (scan_once n (skip_ws r2)) as [[v0 r3] |] eqn:E3; [| reflexivity].
    apply (proj1 (scan_progress n)) in E3.
    pose proof (skip_ws_length r3) as Hw3.
    destruct (skip_ws r3) as [| c r4]; [reflexivity |]. cbn [List.length] in Hw3.
    destruct (N.eqb c 125); [reflexivity |].
    destruct (N.eqb c 44); [| reflexivity].
    pose proof (skip_ws_length r4). apply IHo; lia.
Qed.

(** More fuel does not change a result that was reached. *)
Lemma fuel_monotone : forall n,
  (forall m s x, (n <= m)%nat -> scan_once n s = Some x -> scan_once m s = Some x) /\
  (forall m s acc x, (n <= m)%nat -> array_items n s acc = Some x ->
                     array_items m s acc = Some x) /\
  (forall m s acc x, (n <= m)%nat -> object_members n s acc = Some x ->
                     object_members m s acc = Some x).
Proof.
  induction n as [| n (IHs & IHa & IHo)];
    [repeat split; intros; discriminate |].
  repeat split.
  - intros m s x Hm H. destruct m as [| m]; [lia |].
    cbn [scan_once] in *.
    destruct s as [| c s0]; [discriminate |].
    destruct (N.eqb c 34); [exact H |].
    destruct (N.eqb c 123).
    { destruct (skip_ws s0) as [| c1 r1]; [discriminate |].
      destruct (N.eqb c1 125); [exact H | apply (IHo m); [lia | exact H]]. }
    destruct (N.eqb c 91).
    { destruct (skip_ws s0) as [| c1 r1]; [discriminate |].
      destruct (N.eqb c1 93); [exact H | apply (IHa m); [lia | exact H]]. }
    exact H.
  - intros m s acc x Hm H. destruct m as [| m]; [lia |].
    cbn [array_items] in *.
    destruct (scan_once n s) as [[v0 r0] |] eqn:E; [| discriminate].
    rewrite (IHs m s (v0, r0)) by (lia || exact E).
    destruct (skip_ws r0) as [| c r1]; [discriminate |].
    destruct (N.eqb c 93); [exact H |].
    destruct (N.eqb c 44); [| discriminate].
    apply (IHa m); [lia | exact H].
  - intros m s acc x Hm H. destruct m as [| m]; [lia |].
    cbn [object_members] in *.
    destruct s as [| q s0]; [discriminate |].
    destruct (N.eqb q 34); [| discriminate].
    destruct (scanstring s0 []) as [[k r1] |]; [| discriminate].
    destruct (skip_ws r1) as [| colon r2]; [discriminate |].
    destruct (N.eqb colon 58); [| discriminate].
    destruct (scan_once n (skip_ws r2)) as [[v0 r3] |] eqn:E3; [| discriminate].
    rewrite (IHs m (skip_ws r2) (v0, r3)) by (lia || exact E3).
    destruct (skip_ws r3) as [| c r4]; [discriminate |].
    destruct (N.eqb c 125); [exact H |].
    destruct (N.eqb c 44); [| discriminate].
    apply (IHo m); [lia | exact H].
Qed.

(** Whatever fuel decodes a text, the fuel [loads] gives decodes it: the
    result of [loads] is the result of the decoder with unbounded
    recursion. *)
Lemma loads_fuel_suffices n s v rest :
  scan_once n (skip_ws s) = Some (v, rest) ->
  skip_ws rest = [] ->
  loads s = Ok v.
Proof.
  intros H Hrest. pose proof (skip_ws_length s) as Hw.
  set (N := (4 * List.length s + 4)%nat).
  assert (HN : scan_once N (skip_ws s) = Some (v, rest)).
  { pose proof (proj1 (fuel_monotone n) (Nat.max n N) (skip_ws s) (v, rest)
                  (Nat.le_max_l n N) H) as Hbig.
    rewrite <- (proj1 (fuel_enough N) (Nat.max n N) (skip_ws s));
      [exact Hbig | subst N; lia | apply Nat.le_max_r]. }
  unfold loads. fold N. rewrite HN, Hrest. reflexivity.
Qed.

End JsonFuel.

(* ===================================================================== *)
(** ** The decoder under the limits of the interpreter                    *)
(* ===================================================================== *)

Module JsonLimits.
Import Py Json Notions.

Lemma agrees_refused {A} : @agrees A (Raise JSONDecodeError) None.
Proof. left. split; reflexivity. Qed.

Lemma match_number_agrees s :
  agrees (match_number_limited s) (match_number s).
Proof.
  unfold match_number_limited.
  destruct (match_number s) as [[v rest] |]; [| apply agrees_refused].
  destruct v; try reflexivity.
  destruct (_ <? _)%nat; [right; left; reflexivity | reflexivity].
Qed.

Lemma scan_agrees : forall n,
  (forall room s, agrees (scan_limited n room s) (scan_once n s)) /\
  (forall room s acc,
      agrees (items_limited n room s acc) (array_items n s acc)) /\
  (forall room s acc,
      agrees (members_limited n room s acc) (object_members n s acc)).
Proof.
  induction n as [| n (IHs & IHa & IHo)];
    [repeat split; intros; apply agrees_refused |].
  repeat split.
  - intros room s. cbn [scan_limited scan_once].
    destruct s as [| c s0]; [apply agrees_refused |].
    destruct (N.eqb c 34).
    { destruct (scanstring s0 []) as [[t rest] |];
        [reflexivity | apply agrees_refused]. }
    destruct (N.eqb c 123).
    { destruct room as [| room]; [right; right; reflexivity |].
      destruct (skip_ws s0) as [| c1 r1]; [apply agrees_refused |].
      destruct (N.eqb c1 125); [reflexivity | apply IHo]. }
    destruct (N.eqb c 91).
    { destruct room as [| room]; [right; right; reflexivity |].
      destruct (skip_ws s0) as [| c1 r1]; [apply agrees_refused |].
      destruct (N.eqb c1 93); [reflexivity | apply IHa]. }
    repeat match goal with
           | |- context [strip_prefix ?p ?x] =>
               destruct (strip_prefix p x); [reflexivity |]
           end.
    apply match_number_agrees.
  - intros room s acc. cbn [items_limited array_items].
    pose proof (IHs room s) as H. unfold agrees in H.
    destruct (scan_limited n room s) as [[v r] | e].
    + rewrite H.
      destruct (skip_ws r) as [| c r1]; [apply agrees_refused |].
      destruct (N.eqb c 93); [reflexivity |].
      destruct (N.eqb c 44); [apply IHa | apply agrees_refused].
    + destruct H as [[-> ->] | H]; [apply agrees_refused | right; exact H].
  - intros room s acc. cbn [members_limited object_members].
    destruct s as [| q s0]; [apply agrees_refused |].
    destruct (N.eqb q 34); [| apply agrees_refused].
    destruct (scanstring s0 []) as [[k r1] |]; [| apply agrees_refused].
    destruct (skip_ws r1) as [| colon r2]; [apply agrees_refused |].
    destruct (N.eqb colon 58); [| apply agrees_refused].
    pose proof (IHs room (skip_ws r2)) as H. unfold agrees in H.
    destruct (scan_limited n room (skip_ws r2)) as [[v r3] | e].
    + rewrite H.
      destruct (skip_ws r3) as [| c r4]; [apply agrees_refused |].
      destruct (N.eqb c 125); [reflexivity |].
      destruct (N.eqb c 44); [apply IHo | apply agrees_refused].
    + destruct H as [[-> ->] | H]; [apply agrees_refused | right; exact H].
Qed.

(** [decode] is [loads] but for the limits: what it decodes, [loads]
    decodes to the same value; the text it refuses as not being JSON,
    [loads] refuses; and it raises nothing else than [ValueError] (the
    digit limit) and [RecursionError]. *)
Lemma decode_agrees (i : interpreter) (s : str) :
  match decode i s with
  | Ok v => loads s = Ok v
  | Raise e =>
      (e = JSONDecodeError /\ loads s = Raise JSONDecodeError)
      \/ e = ValueError \/ e = RecursionError
  end.
Proof.
  unfold decode, loads.
  pose proof (proj1 (scan_agrees (4 * List.length s + 4)) (recursion_room i)
                (skip_ws s)) as H.
  unfold agrees in H.
  destruct (scan_limited _ _ _) as [[v rest] | e].
  - rewrite H. destruct (skip_ws rest); [reflexivity |].
    left. split; reflexivity.
  - destruct H as [[-> ->] | H]; [left; split; reflexivity | right; exact H].
Qed.

End JsonLimits.

(* ===================================================================== *)
(** ** A list of integers survives [json.dumps] and [json.loads]          *)
(* ===================================================================== *)

Module JsonRoundTrip.
Import Py Json Notions.

Lemma uint_of_digits_of_uint u : uint_of_digits (digits_of_uint u) = u.
Proof. induction u; cbn; congruence. Qed.

Lemma span_digits_app u rest :
  stops rest = true ->
  span_digits (digits_of_uint u ++ rest) = (digits_of_uint u, rest).
Proof.
  intros H. induction u; cbn [digits_of_uint List.app span_digits];
    try (change (is_digit _) with true; cbn iota; rewrite IHu; reflexivity).
  destruct rest as [| c r]; [reflexivity |]. cbn in *.
  destruct (is_digit c); [discriminate | reflexivity].
Qed.

Lemma scan_number n negative u rest :
  u <> Nil -> (forall u', u = D0 u' -> u' = Nil) -> delimited rest ->
  scan_once (S n) (sign negative ++ digits_of_uint u ++ rest)
  = Some (PInt (Z.of_int (if negative then Neg u else Pos u)), rest).
Proof.
  intros Hnil Hzero (c & r & -> & Hc).
  assert (Hstop : stops (c :: r) = true) by (destruct Hc as [-> | ->]; reflexivity).
  destruct negative; destruct u as [| u | u | u | u | u | u | u | u | u | u ];
    try congruence;
    try (rewrite (Hzero u eq_refl); destruct Hc as [-> | ->]; destruct r; reflexivity);
    cbn -[span_digits Z.of_int int_of_digits]; rewrite (span_digits_app u (c :: r) Hstop);
    destruct Hc as [-> | ->]; destruct r; unfold int_of_digits; cbn -[Z.of_int];
    rewrite ?uint_of_digits_of_uint; reflexivity.
Qed.

Lemma to_uint_normal p : forall u', Pos.to_uint p = D0 u' -> u' = Nil.
Proof.
  intros u' H.
  assert (Hn : unorm (Pos.to_uint p) = Pos.to_uint p).
  { rewrite <- (DecimalPos.Unsigned.to_of (Pos.to_uint p)).
    rewrite DecimalPos.Unsigned.of_to. reflexivity. }
  exfalso. rewrite H in Hn. unfold unorm in Hn.
  destruct (nzhead (D0 u')) eqn:Hz; try (apply (nzhead_nonzero (D0 u') u'); congruence).
  injection Hn as <-. apply (DecimalPos.Unsigned.to_uint_nonzero p). exact H.
Qed.

Lemma str_of_int_shape z :
  exists negative u,
    str_of_int z = sign negative ++ digits_of_uint u /\
    u <> Nil /\ (forall u', u = D0 u' -> u' = Nil) /\
    Z.of_int (if negative then Neg u else Pos u) = z.
Proof.
  unfold str_of_int. pose proof (DecimalZ.of_to z) as Hz.
  destruct z as [| p | p]; cbn [Z.to_int] in *.
  - exists false, (D0 Nil). repeat split; try discriminate. intros u' H. congruence.
  - exists false, (Pos.to_uint p). repeat split.
    + apply DecimalPos.Unsigned.to_uint_nonnil.
    + apply to_uint_normal.
    + exact Hz.
  - exists true, (Pos.to_uint p). repeat split.
    + apply DecimalPos.Unsigned.to_uint_nonnil.
    + apply to_uint_normal.
    + exact Hz.
Qed.

Lemma scan_int n z rest :
  delimited rest ->
  scan_once (S n) (str_of_int z ++ rest) = Some (PInt z, rest).
Proof.
  intros Hd. destruct (str_of_int_shape z) as (negative & u & -> & Hnil & Hzero & Hz).
  rewrite <- List.app_assoc, (scan_number n negative u rest Hnil Hzero Hd), Hz.
  reflexivity.
Qed.

Lemma number_head z rest :
  exists c r, str_of_int z ++ rest = c :: r /\ is_ws c = false /\ N.eqb c 93 = false.
Proof.
  destruct (str_of_int_shape z) as (negative & u & -> & Hnil & _ & _).
  destruct negative; destruct u; try congruence; do 2 eexists; repeat split.
Qed.

Lemma skip_ws_number z rest : skip_ws (str_of_int z ++ rest) = str_of_int z ++ rest.
Proof.
  destruct (number_head z rest) as (c & r & -> & Hws & _).
  cbn [skip_ws]. rewrite Hws. reflexivity.
Qed.

Lemma join_cons sep x l :
  join sep (x :: l) = x ++ match l with [] => [] | _ :: _ => sep ++ join sep l end.
Proof. destruct l; cbn [join]; [rewrite List.app_nil_r |]; reflexivity. Qed.

Lemma skip_ws_join z ids rest :
  skip_ws (join (py ", ") (map str_of_int (z :: ids)) ++ rest)
  = join (py ", ") (map str_of_int (z :: ids)) ++ rest.
Proof.
  cbn [map]. rewrite join_cons, <- List.app_assoc. apply skip_ws_number.
Qed.

Lemma array_items_more n s acc v x :
  scan_once n s = Some (v, 44%N :: 32%N :: x) ->
  array_items (S n) s acc = array_items n (skip_ws x) (v :: acc).
Proof. intros H. cbn [array_items]. rewrite H. reflexivity. Qed.

Lemma array_items_last n s acc v rest :
  scan_once n s = Some (v, 93%N :: rest) ->
  array_items (S n) s acc = Some (PList (List.rev (v :: acc)), rest).
Proof. intros H. cbn [array_items]. rewrite H. reflexivity. Qed.

Lemma array_items_ints :
  forall ids z fuel acc rest,
    (List.length ids + 2 <= fuel)%nat ->
    array_items fuel
      (join (py ", ") (map str_of_int (z :: ids)) ++ 93%N :: rest) acc
    = Some (PList (List.rev acc ++ map PInt (z :: ids)), rest).
Proof.
  induction ids as [| z' ids IH]; intros z fuel acc rest Hfuel;
    (destruct fuel as [| [| n]]; [cbn in Hfuel; lia .. |]).
  - cbn [map join].
    rewrite (array_items_last (S n) _ acc (PInt z) rest); [reflexivity |].
    apply scan_int. do 2 eexists; split; [reflexivity | tauto].
  - change (map str_of_int (z :: z' :: ids))
      with (str_of_int z :: map str_of_int (z' :: ids)).
    rewrite join_cons. cbn [map]. 
    change (str_of_int z' :: map str_of_int ids) with (map str_of_int (z' :: ids)).
    rewrite <- !List.app_assoc.
    rewrite (array_items_more (S n) _ acc (PInt z)
               (join (py ", ") (map str_of_int (z' :: ids)) ++ 93%N :: rest)).
    + rewrite skip_ws_join.
      rewrite (IH z' (S n) (PInt z :: acc) rest) by (cbn in *; lia).
      cbn [List.rev map]. rewrite <- List.app_assoc. reflexivity.
    + apply (scan_int n z). do 2 eexists; split; [reflexivity | tauto].
Qed.

Lemma join_length ids :
  (List.length ids <= List.length (join (py ", ") (map str_of_int ids)))%nat.
Proof.
  induction ids as [| z ids IH]; [cbn; lia |].
  cbn [map]. rewrite join_cons, List.length_app. cbn [List.length].
  destruct (number_head z []) as (c & r & H & _).
  rewrite List.app_nil_r in H. rewrite H. cbn [List.length].
  destruct ids; [cbn; lia |].
  cbn [map] in *. rewrite List.length_app. cbn [List.length] in *. lia.
Qed.

Lemma loads_dumps_ints ids : loads (dumps_ints ids) = Ok (PList (map PInt ids)).
Proof.
  destruct ids as [| z ids]; [reflexivity |].
  unfold loads, dumps_ints.
  change ([91%N] ++ ?x) with (91%N :: x).
  replace (skip_ws (91%N :: join (py ", ") (map str_of_int (z :: ids)) ++ [93%N]))
    with (91%N :: join (py ", ") (map str_of_int (z :: ids)) ++ [93%N])
    by reflexivity.
  pose proof (join_length (z :: ids)) as Hlen.
  match goal with
  | |- context [scan_once (4 * ?len + 4)%nat] => set (L := len)
  end.
  assert (HL : (List.length (z :: ids) + 2 <= L)%nat).
  { subst L. cbn [List.length]. rewrite List.length_app. cbn [List.length] in *. lia. }
  clearbody L.
  replace (4 * L + 4)%nat with (S (4 * L + 3)) by lia.
  assert (Hscan : scan_once (S (4 * L + 3))
                    (91%N :: join (py ", ") (map str_of_int (z :: ids)) ++ [93%N])
                  = array_items (4 * L + 3)
                      (join (py ", ") (map str_of_int (z :: ids)) ++ [93%N]) []).
  { cbn [scan_once].
    replace (N.eqb 91 34) with false by reflexivity.
    replace (N.eqb 91 123) with false by reflexivity.
    replace (N.eqb 91 91) with true by reflexivity. cbv beta iota.
    rewrite skip_ws_join.
    cbn [map]. rewrite join_cons, <- List.app_assoc.
    destruct (number_head z (match map str_of_int ids with
                             | [] => []
                             | _ :: _ => py ", " ++ join (py ", ") (map str_of_int ids)
                             end ++ [93%N])) as (c & r & -> & _ & ->).
    reflexivity. }
  rewrite Hscan, array_items_ints by (cbn [List.length] in *; lia).
  reflexivity.
Qed.

End JsonRoundTrip.

(* ===================================================================== *)
(** ** Comparisons                                                        *)
(* ===================================================================== *)

Module Comparisons.
Import Py database Notions ProgramLogic.
Local Open Scope Z_scope.

Lemma verify_documents_found conn document_ids :
  Forall (fun id => exists d, outcome (get_document id) conn = Ok (Some d))
         document_ids ->
  main.verify_documents document_ids conn = (Ok tt, conn).
Proof.
  induction 1 as [| id rest [d Hd] _ IH]; [reflexivity |].
  cbn [main.verify_documents]. unfold bind at 1.
  unfold outcome, get_document in Hd. cbn [fst] in Hd. injection Hd as Hd.
  unfold get_document at 1. rewrite Hd. exact IH.
Qed.

Lemma find_fresh (rows : list comparison) (seq : Z) :
  Forall (fun c => cmp_id c <= seq) rows ->
  find (fun c => Z.eqb (cmp_id c) (seq + 1)) rows = None.
Proof.
  induction 1 as [| c rows Hc _ IH]; [reflexivity |].
  cbn [find]. replace (cmp_id c =? seq + 1) with false; [exact IH |].
  symmetry. apply Z.eqb_neq. lia.
Qed.

Lemma find_appended {A} (f : A -> bool) (l : list A) (x : A) :
  find f l = None -> f x = true -> find f (l ++ [x]) = Some x.
Proof.
  intros Hl Hx. induction l as [| y l IH]; cbn [List.app find] in *.
  - rewrite Hx. reflexivity.
  - destruct (f y); [discriminate | exact (IH Hl)].
Qed.

(** Reading back the comparison that was inserted last. *)
Lemma read_inserted conn title description document_ids :
  Forall (fun c => cmp_id c <= seq_comparisons conn) (comparisons conn) ->
  get_comparison (seq_comparisons conn + 1)
    (insert_comparison
       {| cmp_id := seq_comparisons conn + 1; cmp_title := title;
          cmp_description := description;
          cmp_document_ids := Json.dumps_ints document_ids |} conn)
  = (Ok (Some {| cv_id := seq_comparisons conn + 1; cv_title := title;
                 cv_description := description;
                 cv_document_ids := PList (map PInt document_ids) |}),
     insert_comparison
       {| cmp_id := seq_comparisons conn + 1; cmp_title := title;
          cmp_description := description;
          cmp_document_ids := Json.dumps_ints document_ids |} conn).
Proof.
  intros Hcmp. unfold get_comparison. cbn [comparisons insert_comparison].
  rewrite (find_appended _ (comparisons conn) _ (find_fresh _ _ Hcmp))
    by (cbn [cmp_id]; apply Z.eqb_refl).
  cbn [cmp_document_ids cmp_id cmp_title cmp_description].
  rewrite JsonRoundTrip.loads_dumps_ints. reflexivity.
Qed.

(** The run of a request that is accepted. *)
Lemma accepted_request conn title description document_ids :
  Forall (fun c => cmp_id c <= seq_comparisons conn) (comparisons conn) ->
  (2 <= List.length document_ids)%nat ->
  Forall (fun id => exists d, outcome (get_document id) conn = Ok (Some d))
         document_ids ->
  main.create_document_comparison title description document_ids conn
  = (Ok (Some {| cv_id := seq_comparisons conn + 1; cv_title := title;
                 cv_description := description;
                 cv_document_ids := PList (map PInt document_ids) |}),
     insert_comparison
       {| cmp_id := seq_comparisons conn + 1; cmp_title := title;
          cmp_description := description;
          cmp_document_ids := Json.dumps_ints document_ids |} conn).
Proof.
  intros Hcmp Hlen Hvalid. unfold main.create_document_comparison.
  replace (Z.of_nat (List.length document_ids) <? 2) with false
    by (symmetry; apply Z.ltb_ge; lia).
  unfold bind. rewrite (verify_documents_found conn document_ids Hvalid).
  unfold create_comparison. apply read_inserted. exact Hcmp.
Qed.

(** C6.  In a database the program has produced: a request with at least
    two ids of existing documents creates one comparison and returns it
    with exactly these ids in the order given, and reading the comparison
    back from the table, where the ids are kept as JSON text, returns the
    same; a request with fewer than two ids is refused with a 400 and
    leaves the database as it was. *)
Theorem comparison_round_trip :
  forall (conn : db) (title : str) (description : option str)
         (document_ids : list Z),
    reachable conn ->
    ((2 <= List.length document_ids)%nat ->
     Forall (fun id => exists d, outcome (get_document id) conn = Ok (Some d))
            document_ids ->
     exists view,
       outcome (main.create_document_comparison title description document_ids)
               conn = Ok (Some view) /\
       cv_title view = title /\
       cv_document_ids view = PList (map PInt document_ids) /\
       List.length
         (comparisons
            (after (main.create_document_comparison title description
                      document_ids) conn))
       = S (List.length (comparisons conn)) /\
       outcome (get_comparison (cv_id view))
               (after (main.create_document_comparison title description
                         document_ids) conn)
       = Ok (Some view)) /\
    ((List.length document_ids < 2)%nat ->
     main.create_document_comparison title description document_ids conn
     = (Raise (HTTPException 400
                 (py "At least 2 documents required for comparison") None),
        conn)).
Proof.
  intros conn title description document_ids Hreach. split.
  - intros Hlen Hvalid.
    destruct (Invariants.reachable_consistent conn Hreach) as [[_ [_ Hcmp]] _].
    unfold outcome, after.
    rewrite (accepted_request conn title description document_ids Hcmp Hlen Hvalid).
    cbn [fst snd]. eexists. split; [reflexivity |].
    cbn [cv_title cv_document_ids cv_id]. repeat split.
    + cbn [comparisons insert_comparison]. rewrite List.length_app.
      cbn [List.length]. lia.
    + rewrite (read_inserted conn title description document_ids Hcmp).
      reflexivity.
  - intros Hlen. unfold main.create_document_comparison.
    replace (Z.of_nat (List.length document_ids) <? 2) with true
      by (symmetry; apply Z.ltb_lt; lia).
    reflexivity.
Qed.

Lemma comparison_round_trip_witness :
  reachable Scenario.two_uploads /\
  exists view,
    outcome (main.create_document_comparison (py "Q1 vs Q2") None [2; 1])
            Scenario.two_uploads = Ok (Some view) /\
    cv_document_ids view = PList [PInt 2; PInt 1] /\
    outcome (get_comparison (cv_id view))
            (after (main.create_document_comparison (py "Q1 vs Q2") None [2; 1])
                   Scenario.two_uploads)
    = Ok (Some view).
Proof.
  assert (H : reachable Scenario.two_uploads).
  { apply reach_upload_document, reach_upload_document, reach_init. }
  split; [exact H |].
  destruct (comparison_round_trip Scenario.two_uploads (py "Q1 vs Q2") None
              [2; 1] H) as [Hok _].
  destruct Hok as [view [H1 [_ [H3 [_ H5]]]]].
  - cbn [List.length]. lia.
  - repeat constructor; eexists; vm_compute; reflexivity.
  - exists view. repeat split; assumption.
Defined.

End Comparisons.

(* ===================================================================== *)
(** ** What a completed upload leaves in the database                     *)
(* ===================================================================== *)

Module CompletedUpload.
Import Py database analysis_engine Notions ProgramLogic.
Local Open Scope py_scope.
Local Open Scope Z_scope.

(** An upload that is not accepted raises and writes nothing. *)
Lemma upload_document_refused w title document_type model file conn :
  accepted w document_type model file = false ->
  exists e,
    main.upload_document w title document_type model file conn = (Raise e, conn).
Proof.
  unfold accepted, main.upload_document. intros H.
  destruct (str_in document_type main.valid_types); cbn [negb andb] in *;
    [| eexists; reflexivity].
  destruct (str_in _ main.allowed_extensions); cbn [negb andb] in *;
    [| eexists; reflexivity].
  destruct (check_ollama_status (main.tags_status w)); cbn [available andb] in *;
    [| eexists; reflexivity].
  unfold bind, lift.
  destruct (get_available_models (main.interp w) (main.tags_models w))
    as [available_models | e]; [| eexists; reflexivity].
  rewrite H. cbn [negb].
  destruct (main.join_values _ _); eexists; reflexivity.
Qed.

(** The run of an upload that is accepted. *)
Lemma upload_document_accepted w title document_type model file conn :
  accepted w document_type model file = true ->
  main.upload_document w title document_type model file conn
  = match main.saved w with
    | Raise e => (Raise e, conn)
    | Ok _ =>
        let doc_id := seq_documents conn + 1 in
        let conn1 :=
          snd (create_document title document_type (upload_path w file) conn) in
        match main.extracted w with
        | Raise e =>
            (Raise (HTTPException 500 (py "Analysis failed: ") (Some e)),
             snd (update_document_status doc_id failed conn1))
        | Ok text_content =>
            match main.analyze_and_store (main.interp w) (main.generate_document w)
                    (main.generate_sections w) doc_id document_type
                    text_content model
                    (snd (update_document_status doc_id processing conn1)) with
            | (Raise e, conn3) =>
                (Raise (HTTPException 500 (py "Analysis failed: ") (Some e)),
                 snd (update_document_status doc_id failed conn3))
            | (Ok _, conn3) =>
                get_document doc_id
                  (snd (update_document_status doc_id completed conn3))
            end
        end
    end.
Proof.
  unfold accepted, main.upload_document. intros H.
  apply andb_true_iff in H as [H Hmodel]. apply andb_true_iff in H as [H Havail].
  apply andb_true_iff in H as [Htype Hext].
  rewrite Htype, Hext. cbn [negb].
  destruct (check_ollama_status (main.tags_status w)); [| discriminate].
  unfold bind, try_except, lift, raise.
  destruct (get_available_models (main.interp w) (main.tags_models w))
    as [available_models | e]; [| discriminate].
  rewrite Hmodel. cbn [negb].
  destruct (main.saved w); [| reflexivity].
  destruct (main.extracted w) as [text_content |]; [| reflexivity].
  cbv [create_document update_document_status fst snd upload_path processing
       failed completed documents analyses sections comparisons metrics_history
       seq_documents seq_analyses seq_sections seq_comparisons seq_metrics
       status_log].
  match goal with
  | |- context [main.analyze_and_store ?i ?a ?b ?c ?d ?e ?f ?g] =>
      destruct (main.analyze_and_store i a b c d e f g) as [[ar | e0] conn3]
  end; reflexivity.
Qed.

(** The loop over the sections writes to the sections only. *)
Lemma store_sections_outside analysis_id items :
  forall conn,
    outside_sections (snd (main.store_sections analysis_id items conn))
    = outside_sections conn.
Proof.
  induction items as [| [idx section] rest IH]; intros conn; [reflexivity |].
  destruct (Invariants.store_sections_step analysis_id idx section rest conn)
    as [[e He] | [s [Hs _]]]; rewrite ?He, ?Hs; [reflexivity |].
  rewrite IH. reflexivity.
Qed.


Lemma set_status_id id s d : doc_id (set_status id s d) = doc_id d.
Proof. unfold set_status. destruct (doc_id d =? id); reflexivity. Qed.

Lemma find_set_status id s docs :
  find (fun d => doc_id d =? id) (map (set_status id s) docs)
  = option_map (set_status id s) (find (fun d => doc_id d =? id) docs).
Proof.
  induction docs as [| d docs IH]; [reflexivity |].
  cbn [map find]. rewrite set_status_id.
  destruct (doc_id d =? id); [reflexivity | exact IH].
Qed.




(** What the INTEGER column of a score holds for an integer, for a real
    without fraction, for text that reads as an integer, and for values
    that are left as they are. *)
Lemma integer_column_examples :
  stored_as_integer (PInt 70) = Ok (SqlInt 70) /\
  stored_as_integer (PFloat (FLiteral (py "70.0"))) = Ok (SqlInt 70) /\
  stored_as_integer (PFloat (FLiteral (py "7e1"))) = Ok (SqlInt 70) /\
  stored_as_integer (PStr (py "70")) = Ok (SqlInt 70) /\
  stored_as_integer (PStr (py " +70 ")) = Ok (SqlInt 70) /\
  stored_as_integer (PStr (py "70.0")) = Ok (SqlNumberOfText (py "70.0")) /\
  stored_as_integer (PFloat (FLiteral (py "70.5")))
  = Ok (SqlReal (FLiteral (py "70.5"))) /\
  stored_as_integer (PStr (py "high")) = Ok (SqlText (py "high")) /\
  stored_as_integer (PBool true) = Ok (SqlInt 1) /\
  stored_as_integer PNone = Ok SqlNull /\
  stored_as_integer (PFloat (FLiteral (py "9223372036854775808.0")))
  = Ok (SqlReal (FLiteral (py "9223372036854775808.0"))) /\
  stored_as_integer (PInt (2 ^ 63)) = Raise OverflowError.
Proof. repeat split; vm_compute; reflexivity. Qed.

(** An integer that is bound is stored as it is. *)
Lemma stored_integer (z : Z) (v : sqlval) :
  stored_as_integer (PInt z) = Ok v -> v = SqlInt z.
Proof.
  unfold stored_as_integer, bind_param.
  destruct ((- 2 ^ 63 <=? z) && (z <? 2 ^ 63)); [| discriminate].
  cbn [rbind integer_affinity]. congruence.
Qed.





(** The model answers with the real 70.0, or with the text "70", for the
    sentiment score: the upload completes and the INTEGER column of the
    row holds the integer 70. *)
Lemma real_score_is_stored_as_integer :
  map an_sentiment_score
    (analyses
       (after (main.upload_document
                 (Scenario.responsive (Scenario.document_json (py "70.0"))
                                      Scenario.sections_json)
                 (py "Test") (py "other") (py "llama3.2") Scenario.text_file)
              init_db))
  = [SqlInt 70] /\
  map an_sentiment_score
    (analyses
       (after (main.upload_document
                 (Scenario.responsive
                    (Scenario.document_json (Scenario.dq (py "'70'")))
                    Scenario.sections_json)
                 (py "Test") (py "other") (py "llama3.2") Scenario.text_file)
              init_db))
  = [SqlInt 70].
Proof. split; vm_compute; reflexivity. Qed.

(** Reals at the edges of what an INTEGER column turns into an integer:
    the double nearest to the literal decides, and it has to be a whole
    number strictly between [-2^63] and [2^63]. *)
Lemma real_column_examples :
  float_integer (FLiteral (py "-0.0")) = Some 0 /\
  float_integer (FLiteral (py "1e18")) = Some 1000000000000000000 /\
  float_integer (FLiteral (py "9007199254740993.0")) = Some 9007199254740992 /\
  float_integer (FLiteral (py "123456789012345678.0"))
  = Some 123456789012345680 /\
  float_integer (FLiteral (py "4611686018427387904.0"))
  = Some 4611686018427387904 /\
  float_integer (FLiteral (py "9223372036854775807.0")) = None /\
  float_integer (FLiteral (py "-9223372036854775808.0")) = None /\
  float_integer (FLiteral (py "1e-400")) = Some 0 /\
  float_integer (FLiteral (py "5e-324")) = None /\
  float_integer (FLiteral (py "1e400")) = None /\
  float_integer (FLiteral (py "0.5")) = None /\
  float_integer FInfinity = None.
Proof. repeat split; vm_compute; reflexivity. Qed.

End CompletedUpload.

(* ===================================================================== *)
(** ** A section analysis without the key "sections"                      *)
(* ===================================================================== *)

Module MissingSections.
Import Py database analysis_engine Notions ProgramLogic CompletedUpload.
Local Open Scope py_scope.
Local Open Scope Z_scope.





(** Text that follows the grammar of JSON but passes a limit of the
    interpreter is not decoded: an object with an integer of 4301 digits
    is a [ValueError], 901 nested arrays are a [RecursionError] where
    there is room for 900; the object has no key "sections", and in both
    cases [analyze_sections_content] returns the default section. *)
Lemma text_beyond_the_limits_gives_default :
  Json.decode Scenario.utf8_interpreter Scenario.long_integer_json
  = Raise ValueError /\
  Json.decode Scenario.utf8_interpreter Scenario.deep_json
  = Raise RecursionError /\
  analyze_sections_content Scenario.utf8_interpreter
    (Scenario.generated_reply Scenario.long_integer_json)
    (py "Revenue grew.") (py "llama3.2")
  = Ok (get_default_sections (py "Revenue grew.")) /\
  analyze_sections_content Scenario.utf8_interpreter
    (Scenario.generated_reply Scenario.deep_json)
    (py "Revenue grew.") (py "llama3.2")
  = Ok (get_default_sections (py "Revenue grew.")).
Proof. repeat split; vm_compute; reflexivity. Qed.

End MissingSections.

(* ===================================================================== *)
(** ** The history of statuses and the status column                      *)
(* ===================================================================== *)

Module StatusColumn.
Import Py database analysis_engine Notions ProgramLogic.
Local Open Scope py_scope.
Local Open Scope Z_scope.

Create HintDb faithful.

Lemma last_status_snoc document_id log id status :
  last_status document_id (log ++ [(id, status)])
  = if Z.eqb id document_id then Some status else last_status document_id log.
Proof.
  unfold last_status. rewrite Invariants.filter_snoc. cbn [fst].
  destruct (Z.eqb id document_id); [| rewrite List.app_nil_r; reflexivity].
  rewrite List.map_app. cbn [map snd]. apply last_last.
Qed.

Lemma create_document_faithful title document_type file_path :
  preserves log_faithful (create_document title document_type file_path).
Proof.
  intros c [Hb Hs]. unfold create_document. cbv beta iota zeta.
  unfold log_faithful. cbn [documents seq_documents status_log].
  split; apply Forall_app; split.
  - eapply Forall_impl; [| exact Hb]. cbv beta. intros; lia.
  - constructor; [cbn [doc_id]; lia | constructor].
  - rewrite Forall_forall in *. intros d Hd.
    rewrite last_status_snoc.
    replace (Z.eqb (seq_documents c + 1) (doc_id d)) with false; [auto |].
    symmetry. apply Z.eqb_neq. specialize (Hb d Hd). cbv beta in Hb. lia.
  - constructor; [| constructor]. cbn [doc_id doc_status].
    rewrite last_status_snoc, Z.eqb_refl. reflexivity.
Qed.

Lemma update_status_faithful document_id status :
  preserves log_faithful (update_document_status document_id status).
Proof.
  intros c [Hb Hs]. unfold update_document_status. cbv beta iota zeta.
  unfold log_faithful. cbn [documents seq_documents status_log].
  rewrite !Forall_forall in *. split.
  - intros d Hd. apply in_map_iff in Hd as [d0 [<- Hd0]].
    rewrite CompletedUpload.set_status_id. exact (Hb d0 Hd0).
  - intros d Hd. apply in_map_iff in Hd as [d0 [<- Hd0]].
    rewrite last_status_snoc, CompletedUpload.set_status_id.
    unfold set_status. rewrite (Z.eqb_sym document_id).
    destruct (Z.eqb (doc_id d0) document_id); [reflexivity | exact (Hs d0 Hd0)].
Qed.

Lemma log_faithful_documents_part c1 c2 :
  documents_part c1 = documents_part c2 -> log_faithful c1 -> log_faithful c2.
Proof.
  unfold documents_part, log_faithful. intros H.
  injection H as Hd Hl Hq _ _. rewrite <- Hd, <- Hl, <- Hq. auto.
Qed.

Lemma analyze_and_store_faithful i generate_doc generate_sec doc_id document_type
  text_content model :
  preserves log_faithful
    (main.analyze_and_store i generate_doc generate_sec doc_id document_type
       text_content model).
Proof. apply StatusLifecycle.analyze_and_store_frame. apply log_faithful_documents_part. Qed.

#[export] Hint Resolve create_document_faithful update_status_faithful
  analyze_and_store_faithful StatusLifecycle.get_document_preserves : faithful.

Lemma upload_document_faithful w title document_type model file :
  preserves log_faithful (main.upload_document w title document_type model file).
Proof.
  unfold main.upload_document.
  destruct (str_in document_type main.valid_types); cbn [negb];
    [| apply preserves_raise].
  destruct (str_in _ main.allowed_extensions); cbn [negb];
    [| apply preserves_raise].
  destruct (check_ollama_status (main.tags_status w)); [| apply preserves_raise].
  apply preserves_bind; [apply preserves_lift | intros available_models].
  destruct (main.model_in model available_models); cbn [negb];
    [| destruct (main.join_values _ _); apply preserves_raise].
  auto 20 with preserve faithful.
Qed.

Lemma upload_audio_faithful w title document_type model preset language
  speakers file :
  preserves log_faithful
    (main_audio.upload_audio_document w title document_type model preset
       language speakers file).
Proof.
  unfold main_audio.upload_audio_document.
  destruct (str_in document_type main_audio.valid_types); cbn [negb];
    [| apply preserves_raise].
  destruct (str_in _ main_audio.allowed_extensions); cbn [negb];
    [| apply preserves_raise].
  auto 30 with preserve faithful.
Qed.

(** In every database the program produces, the status of a document is
    the status that was written last for it. *)
Lemma status_is_last_written conn :
  reachable conn -> log_faithful conn.
Proof.
  induction 1 as [| w t dt m f conn _ IH | w t dt m p l sp f conn _ IH
                  | t d ids conn _ IH | id conn _ IH].
  - split; constructor.
  - exact (preserves_after _ _ conn (upload_document_faithful w t dt m f) IH).
  - exact (preserves_after _ _ conn (upload_audio_faithful w t dt m p l sp f) IH).
  - refine (preserves_after _ (main.create_document_comparison t d ids) conn _ IH).
    unfold main.create_document_comparison.
    destruct (Z.of_nat (List.length ids) <? 2)%Z; [apply preserves_raise |].
    apply preserves_bind; [apply Invariants.verify_documents_preserves | intros _].
    apply preserves_bind; [| intros ?; apply Invariants.get_comparison_preserves].
    intros c Hc. exact Hc.
  - exact IH.
Qed.

End StatusColumn.

(* ===================================================================== *)
(** ** Speaker turns and transcripts                                     *)
(* ===================================================================== *)

Module Transcripts.
Import Py audio_processor Notions.

Lemma str_eqb_refl s : str_eqb s s = true.
Proof. apply StatusLifecycle.str_eqb_eq. reflexivity. Qed.

Lemma detect_loop_labels :
  forall segments speaker_id last_end,
    exists ids,
      map seg_speaker (detect_loop speaker_id last_end segments)
      = map speaker_label ids /\
      steps_by_one speaker_id ids = true /\
      map seg_start (detect_loop speaker_id last_end segments)
      = map seg_start segments /\
      map seg_end (detect_loop speaker_id last_end segments)
      = map seg_end segments /\
      map seg_text (detect_loop speaker_id last_end segments)
      = map seg_text segments.
Proof.
  induction segments as [| s rest IH]; intros speaker_id last_end.
  - exists []. repeat split.
  - cbn [detect_loop].
    set (id := if PrimFloat.ltb 2 (PrimFloat.sub (seg_start s) last_end)
               then (speaker_id + 1)%Z else speaker_id).
    destruct (IH id (seg_end s)) as (ids & Hl & Hs & H1 & H2 & H3).
    exists (id :: ids). cbn [map steps_by_one set_speaker seg_speaker seg_start
                              seg_end seg_text].
    rewrite Hl, Hs, H1, H2, H3. repeat split.
    rewrite andb_true_r. subst id.
    destruct (PrimFloat.ltb _ _); rewrite Z.eqb_refl; [apply orb_true_r | reflexivity].
Qed.

(** X1.  [detect_speakers_simple] labels every segment "Speaker n": the
    numbers start at 1 or 2 and go up by at most one from a segment to the
    next; times and texts are left as they are, and no segment is added
    or dropped. *)
Theorem detect_speakers_labels_in_steps :
  forall segments : list segment,
    exists ids : list Z,
      map seg_speaker (detect_speakers_simple segments) = map speaker_label ids /\
      steps_by_one 1 ids = true /\
      map seg_start (detect_speakers_simple segments) = map seg_start segments /\
      map seg_end (detect_speakers_simple segments) = map seg_end segments /\
      map seg_text (detect_speakers_simple segments) = map seg_text segments.
Proof.
  intros [| s rest].
  - exists []. repeat split.
  - exact (detect_loop_labels (s :: rest) 1 0%float).
Qed.

Lemma detect_loop_no_pause :
  forall segments speaker_id last_end,
    no_long_pause last_end segments = true ->
    detect_loop speaker_id last_end segments
    = map (fun s => set_speaker s (py "Speaker " ++ str_of_int speaker_id)) segments.
Proof.
  induction segments as [| s rest IH]; intros speaker_id last_end H; [reflexivity |].
  cbn [no_long_pause] in H. apply andb_true_iff in H as [Hs Hrest].
  apply negb_true_iff in Hs. unfold long_pause in Hs.
  cbn [detect_loop map]. rewrite Hs. rewrite (IH _ _ Hrest). reflexivity.
Qed.

(** The turn of one speaker. *)
Lemma format_loop_one_speaker sp :
  forall segments lines current_text,
    Forall (fun s => seg_speaker s = Some sp) segments ->
    format_loop segments lines (Some sp) current_text
    = if speaker_and_text (Some sp)
           (current_text ++ map (fun s => strip (seg_text s)) segments)
      then lines ++ turn_lines (Some sp)
             (current_text ++ map (fun s => strip (seg_text s)) segments)
      else lines.
Proof.
  induction segments as [| s rest IH]; intros lines current_text H.
  - cbn [format_loop map]. rewrite List.app_nil_r. reflexivity.
  - inversion H as [| ? ? Hs Hrest]; subst.
    cbn [format_loop map]. rewrite Hs. cbn [option_str_eqb].
    rewrite str_eqb_refl. cbn [negb].
    rewrite (IH _ _ Hrest), <- List.app_assoc. reflexivity.
Qed.

Lemma format_loop_no_speaker :
  forall segments current_text,
    Forall (fun s => seg_speaker s = None) segments ->
    format_loop segments [] None current_text = [].
Proof.
  induction segments as [| s rest IH]; intros current_text H; [reflexivity |].
  inversion H as [| ? ? Hs Hrest]; subst.
  cbn [format_loop]. rewrite Hs. cbn [option_str_eqb negb].
  apply IH. exact Hrest.
Qed.

(** X3.  Segments none of which has a speaker (the [None] that the
    transcription backends put there) give the empty transcript: their
    text is dropped by [format_transcript_with_speakers]. *)
Theorem unlabelled_segments_give_empty_transcript :
  forall segments : list segment,
    Forall (fun s => seg_speaker s = None) segments ->
    format_transcript_with_speakers segments = [].
Proof.
  intros segments H. unfold format_transcript_with_speakers.
  rewrite (format_loop_no_speaker _ _ H). reflexivity.
Qed.

Lemma unlabelled_segments_give_empty_transcript_witness :
  Forall (fun s => seg_speaker s = None) Scenario.early_start /\
  format_transcript_with_speakers Scenario.early_start = [].
Proof.
  assert (H : Forall (fun s => seg_speaker s = None) Scenario.early_start)
    by (repeat constructor).
  split; [exact H |].
  exact (unlabelled_segments_give_empty_transcript Scenario.early_start H).
Defined.

Lemma one_speaker_transcript sp s rest :
  sp <> [] ->
  Forall (fun s => seg_speaker s = Some sp) (s :: rest) ->
  format_transcript_with_speakers (s :: rest)
  = [10%N] ++ sp ++ py ":" ++ [10%N]
    ++ join (py " ") (map (fun s => strip (seg_text s)) (s :: rest)).
Proof.
  intros Hsp H. inversion H as [| ? ? Hs Hrest]; subst.
  unfold format_transcript_with_speakers. cbn [format_loop]. rewrite Hs.
  cbn [option_str_eqb negb speaker_and_text].
  rewrite (format_loop_one_speaker sp rest _ _ Hrest).
  cbn [speaker_and_text List.app nonempty].
  destruct sp as [| c sp]; [contradiction |]. cbn [nonempty andb turn_lines List.app].
  cbn [join map List.app]. rewrite <- List.app_assoc. reflexivity.
Qed.

(** X2.  A recording in which no segment starts more than two seconds
    after the one before it (the first one after time 0) is transcribed
    as a single turn of "Speaker 1": an empty line, the label, and the
    stripped texts of the segments joined by spaces. *)
Theorem recording_without_pause_is_one_turn :
  forall (s : segment) (rest : list segment),
    no_long_pause 0%float (s :: rest) = true ->
    format_transcript_with_speakers (detect_speakers_simple (s :: rest))
    = [10%N] ++ py "Speaker 1:" ++ [10%N] ++ join (py " ") (map (fun s => strip (seg_text s)) (s :: rest)).
Proof.
  intros s rest H. unfold detect_speakers_simple.
  rewrite (detect_loop_no_pause _ 1 _ H).
  cbn [map].
  rewrite (one_speaker_transcript (py "Speaker " ++ str_of_int 1)).
  - cbn [map set_speaker seg_text]. rewrite map_map. cbn [set_speaker seg_text].
    reflexivity.
  - discriminate.
  - constructor; [reflexivity |]. apply Forall_forall. intros x Hx.
    apply in_map_iff in Hx as [y [<- _]]. reflexivity.
Qed.

Lemma recording_without_pause_is_one_turn_witness :
  no_long_pause 0%float Scenario.early_start = true /\
  format_transcript_with_speakers (detect_speakers_simple Scenario.early_start)
  = [10%N] ++ py "Speaker 1:" ++ [10%N]
    ++ py "Good morning. Welcome to the call.".
Proof.
  assert (H : no_long_pause 0%float Scenario.early_start = true)
    by (vm_compute; reflexivity).
  split; [exact H |].
  unfold Scenario.early_start in *.
  rewrite (recording_without_pause_is_one_turn _ _ H).
  vm_compute. reflexivity.
Defined.

End Transcripts.

(* ===================================================================== *)
(** ** The extension of a saved file                                     *)
(* ===================================================================== *)

Module Extensions.
Import Py Notions.
Local Open Scope Z_scope.

Lemma rfind_from_app (c : N) (a : list N) : forall (b : list N) i best,
  rfind_from c (a ++ b) i best
  = rfind_from c b (i + Z.of_nat (List.length a)) (rfind_from c a i best).
Proof.
  induction a as [| x a IH]; intros b i best.
  - cbn. rewrite Z.add_0_r. reflexivity.
  - cbn [List.app rfind_from List.length]. rewrite IH. f_equal. lia.
Qed.

Lemma rfind_from_absent (c : N) (s : list N) : forall i best,
  absent c s -> rfind_from c s i best = best.
Proof.
  induction s as [| x s IH]; intros i best H; [reflexivity |].
  unfold absent in H. cbn [forallb] in H. apply andb_true_iff in H as [Hx Hs].
  apply negb_true_iff in Hx. cbn [rfind_from]. rewrite Hx. apply IH. exact Hs.
Qed.

Lemma rfind_from_ge (c : N) (s : list N) : forall i best,
  best <= i -> best <= rfind_from c s i best.
Proof.
  induction s as [| x s IH]; intros i best H; cbn [rfind_from]; [lia |].
  destruct (N.eqb x c).
  - specialize (IH (i + 1) i). lia.
  - apply IH. lia.
Qed.

(** The last occurrence. *)
Lemma rfind_last (c : N) (a r : list N) :
  absent c r -> rfind c (a ++ c :: r) = Z.of_nat (List.length a).
Proof.
  intros H. unfold rfind. rewrite rfind_from_app. cbn [rfind_from].
  rewrite N.eqb_refl. rewrite rfind_from_absent by exact H. lia.
Qed.

Lemma rfind_after (c : N) (a r : list N) :
  Z.of_nat (List.length a) <= rfind c (a ++ c :: r).
Proof.
  unfold rfind. rewrite rfind_from_app. cbn [rfind_from]. rewrite N.eqb_refl.
  apply rfind_from_ge. lia.
Qed.

Lemma rfind_lower (c : N) (s : list N) : -1 <= rfind c s.
Proof. unfold rfind. apply rfind_from_ge. lia. Qed.

Lemma split_on_nonempty (c : N) (s : list N) : split_on c s <> [].
Proof.
  destruct s as [| x s]; cbn [split_on]; [discriminate |].
  destruct (N.eqb x c); [discriminate |].
  destruct (split_on c s); discriminate.
Qed.

Lemma split_on_absent (c : N) (t : list N) : absent c t -> split_on c t = [t].
Proof.
  induction t as [| x t IH]; intros H; [reflexivity |].
  unfold absent in H. cbn [forallb] in H. apply andb_true_iff in H as [Hx Ht].
  apply negb_true_iff in Hx. cbn [split_on]. rewrite Hx, (IH Ht). reflexivity.
Qed.

(** Text without a separator stays in the last component. *)
Lemma split_on_app (c : N) (t a : list N) :
  absent c t ->
  split_on c (a ++ t)
  = removelast (split_on c a) ++ [last (split_on c a) [] ++ t].
Proof.
  intros Ht. induction a as [| y a IH].
  - cbn [List.app split_on removelast last]. apply split_on_absent. exact Ht.
  - cbn [List.app split_on]. rewrite IH.
    pose proof (split_on_nonempty c a) as Hne.
    destruct (split_on c a) as [| w ws]; [contradiction |].
    destruct (N.eqb y c).
    + destruct ws; reflexivity.
    + destruct ws as [| w' ws]; reflexivity.
Qed.

(** The suffix of a path that ends with a component [L ++ x :: ext], where
    [ext] is a dot and at least one character, none a dot or a slash. *)
Lemma path_suffix_of_name (a : list N) (x : N) (rest : list N) :
  x <> 47%N ->
  rest <> [] -> absent 46%N rest -> absent 47%N rest ->
  path_suffix (a ++ x :: 46%N :: rest) = 46%N :: rest.
Proof.
  intros Hx Hne Hdot Hsep. unfold path_suffix. unfold str, codepoint in *.
  assert (Ht : absent 47%N (x :: 46%N :: rest)).
  { unfold absent. cbn [forallb]. rewrite Hsep.
    apply N.eqb_neq in Hx. rewrite Hx. reflexivity. }
  rewrite (split_on_app 47%N _ a Ht).
  generalize (last (split_on 47%N a) []). intros L.
  rewrite List.filter_app. cbn [filter].
  assert (Hkeep : negb (str_eqb (L ++ x :: 46%N :: rest) [])
                  && negb (str_eqb (L ++ x :: 46%N :: rest) [46%N]) = true).
  { destruct L as [| l0 [| l1 L]]; cbn [List.app str_eqb negb andb];
      rewrite ?andb_false_r; reflexivity. }
  unfold str, codepoint in *. rewrite Hkeep. rewrite last_last.
  replace (L ++ x :: 46%N :: rest) with ((L ++ [x]) ++ 46%N :: rest)
    by (rewrite <- List.app_assoc; reflexivity).
  rewrite (rfind_last 46%N (L ++ [x]) rest Hdot).
  rewrite !List.length_app. cbn [List.length].
  replace (0 <? Z.of_nat (List.length L + 1)) with true
    by (symmetry; apply Z.ltb_lt; lia).
  replace (Z.of_nat (List.length L + 1)
           <? Z.of_nat (List.length L + 1 + S (List.length rest)) - 1) with true.
  2:{ symmetry. apply Z.ltb_lt. destruct rest; [contradiction |].
      cbn [List.length]. lia. }
  cbn [andb]. rewrite Nat2Z.id.
  replace (List.length L + 1)%nat with (List.length (L ++ [x]) + 0)%nat
    by (rewrite List.length_app; cbn; lia).
  rewrite skipn_app, skipn_all2 by lia.
  replace (List.length (L ++ [x]) + 0 - List.length (L ++ [x]))%nat with 0%nat by lia.
  reflexivity.
Qed.

Lemma lower_keeps c k :
  lower_char c = k -> (k =? 46)%N = false -> (k =? 47)%N = false ->
  negb (N.eqb c 46%N) && negb (N.eqb c 47%N) = true.
Proof.
  unfold lower_char. intros H H1 H2.
  destruct ((65 <=? c)%N && (c <=? 90)%N) eqn:Hc.
  - apply andb_true_iff in Hc as [Ha Hb]. apply N.leb_le in Ha.
    apply andb_true_iff. split; apply negb_true_iff, N.eqb_neq; lia.
  - subst k. rewrite H1, H2. reflexivity.
Qed.

Lemma lowered_extension (ext l : list N) :
  extension_literal l -> lower ext = l ->
  exists rest, ext = 46%N :: rest /\ rest <> [] /\ absent 46%N rest /\ absent 47%N rest.
Proof.
  intros (r & -> & Hne & Hr) H. unfold lower in H.
  destruct ext as [| c rest]; [discriminate |]. cbn [map] in H.
  injection H as Hc Hrest. fold (lower_char c) in Hc.
  assert (c = 46%N) as ->.
  { unfold lower_char in Hc.
    destruct ((65 <=? c)%N && (c <=? 90)%N) eqn:E; [| exact Hc].
    apply andb_true_iff in E as [Ha _]. apply N.leb_le in Ha. lia. }
  exists rest. split; [reflexivity |]. split.
  { intros ->. apply Hne. symmetry. exact Hrest. }
  clear Hc Hne. revert r Hrest Hr.
  induction rest as [| x rest IH]; intros r Hrest Hr; [split; reflexivity |].
  destruct r as [| k r]; [discriminate |]. cbn [map] in Hrest.
  injection Hrest as Hx Hrest. cbn [forallb] in Hr.
  apply andb_true_iff in Hr as [Hk Hr]. apply andb_true_iff in Hk as [Hk1 Hk2].
  apply negb_true_iff in Hk1, Hk2.
  pose proof (lower_keeps x k Hx Hk1 Hk2) as Hkeep.
  apply andb_true_iff in Hkeep as [Hx1 Hx2].
  destruct (IH r Hrest Hr) as [Hd Hs].
  unfold absent in *. cbn [forallb]. rewrite Hx1, Hx2, Hd, Hs. split; reflexivity.
Qed.

Lemma str_in_literal (ext : list N) (exts : list (list N)) :
  Forall extension_literal exts ->
  str_in (lower ext) exts = true ->
  exists rest, ext = 46%N :: rest /\ rest <> [] /\ absent 46%N rest /\ absent 47%N rest.
Proof.
  intros Hall H. unfold str_in in H. apply existsb_exists in H as (l & Hl & Heq).
  apply StatusLifecycle.str_eqb_eq in Heq.
  rewrite Forall_forall in Hall. exact (lowered_extension ext l (Hall l Hl) Heq).
Qed.

(** The file is saved under a path whose suffix, as [pathlib] sees it, is
    the extension [os.path.splitext] found in the name of the upload. *)
Lemma saved_path_keeps_extension (prefix filename : list N) (exts : list (list N)) :
  Forall extension_literal exts ->
  str_in (lower (snd (splitext filename))) exts = true ->
  path_suffix (prefix ++ py "_" ++ filename) = snd (splitext filename).
Proof.
  intros Hall H. unfold str, codepoint in *.
  destruct (str_in_literal _ _ Hall H) as (rest & Hext & Hne & Hdot & Hsep).
  revert Hext. unfold splitext.
  set (sepIndex := rfind 47%N filename). set (dotIndex := rfind 46%N filename).
  destruct ((sepIndex <? dotIndex)
            && existsb (fun c => negb (N.eqb c 46%N))
                 (slice filename (sepIndex + 1) dotIndex)) eqn:Hcond;
    cbn [snd]; [| discriminate].
  intros Hext. rewrite Hext.
  apply andb_true_iff in Hcond as [Hlt Hsome]. apply Z.ltb_lt in Hlt.
  pose proof (rfind_lower 47%N filename) as Hlow. fold sepIndex in Hlow.
  pose proof (firstn_skipn (Z.to_nat dotIndex) filename) as Hsplit.
  unfold str, codepoint in *. rewrite Hext in Hsplit.
  set (base := firstn (Z.to_nat dotIndex) filename) in *.
  assert (Hlen : List.length base = Z.to_nat dotIndex).
  { subst base. apply firstn_length_le.
    assert (Z.to_nat dotIndex < List.length filename)%nat; [| lia].
    destruct (Nat.lt_ge_cases (Z.to_nat dotIndex) (List.length filename)) as [Hl | Hl];
      [exact Hl |].
    rewrite skipn_all2 in Hext by exact Hl. discriminate. }
  rewrite <- Hsplit.
  destruct base as [| b0 base'] eqn:Hbase.
  - (* the name is the extension alone: the underscore is the character before the dot *)
    exact (path_suffix_of_name prefix 95%N rest ltac:(discriminate) Hne Hdot Hsep).
  - destruct (exists_last (l := b0 :: base')) as (b' & x & Hb); [discriminate |].
    rewrite Hb in *. 
    assert (Hx : x <> 47%N).
    { intros ->.
      pose proof (rfind_after 47%N b' (46%N :: rest)) as Hafter.
      rewrite <- List.app_assoc in Hsplit. cbn [List.app] in Hsplit.
      rewrite Hsplit in Hafter. fold sepIndex in Hafter.
      rewrite List.length_app in Hlen. cbn [List.length] in Hlen.
      assert (Hs : sepIndex + 1 = dotIndex) by lia.
      unfold slice in Hsome. rewrite Hs, Z.sub_diag in Hsome. discriminate. }
    pose proof (path_suffix_of_name (prefix ++ py "_" ++ b') x rest Hx Hne Hdot
                  Hsep) as Hsuffix.
    rewrite <- !List.app_assoc in Hsuffix. rewrite <- List.app_assoc.
    exact Hsuffix.
Qed.

End Extensions.

Module SavedFiles.
Import Py database analysis_engine document_processor audio_processor Notions Extensions.
Local Open Scope Z_scope.

Lemma literal (r : list N) :
  r <> [] ->
  forallb (fun c => negb (N.eqb c 46%N) && negb (N.eqb c 47%N)) r = true ->
  extension_literal (46%N :: r).
Proof. intros H1 H2. exists r. auto. Qed.

Lemma audio_extensions_literal : Forall extension_literal main_audio.allowed_extensions.
Proof. repeat constructor; apply literal; (discriminate || reflexivity). Qed.

Lemma text_extensions_literal : Forall extension_literal main.allowed_extensions.
Proof. repeat constructor; apply literal; (discriminate || reflexivity). Qed.

(** X5.  An audio upload whose extension [upload_audio_document] accepts
    is saved under a path whose suffix, as [validate_audio_file] reads it,
    is that extension: [validate_audio_file] never answers "Unsupported
    format" for it. *)
Theorem accepted_audio_upload_has_valid_format :
  forall (env : audio_env) (now filename : str),
    str_in (lower (snd (splitext filename))) main_audio.allowed_extensions = true ->
    path_suffix (py "data/uploads/" ++ now ++ py "_" ++ filename)
    = snd (splitext filename) /\
    forall ext,
      validate_audio_file env (py "data/uploads/" ++ now ++ py "_" ++ filename) 100
      <> Some (UnsupportedFormat ext).
Proof.
  intros env now filename H.
  assert (Hs : path_suffix (py "data/uploads/" ++ now ++ py "_" ++ filename)
               = snd (splitext filename)).
  { rewrite List.app_assoc.
    exact (saved_path_keeps_extension _ _ _ audio_extensions_literal H). }
  split; [exact Hs |].
  intros ext. unfold validate_audio_file.
  destruct (negb (file_exists env)); [discriminate |].
  destruct (_ <? _); [discriminate |].
  rewrite Hs. change valid_extensions with main_audio.allowed_extensions.
  rewrite H. discriminate.
Qed.

Lemma accepted_audio_upload_has_valid_format_witness :
  path_suffix (py "data/uploads/20240101_120000_Q3.Call.MP3") = py ".MP3" /\
  forall ext,
    validate_audio_file (Scenario.recording true)
      (py "data/uploads/20240101_120000_Q3.Call.MP3") 100
    <> Some (UnsupportedFormat ext).
Proof.
  exact (accepted_audio_upload_has_valid_format (Scenario.recording true)
           (py "20240101_120000") (py "Q3.Call.MP3") eq_refl).
Defined.

(** X4.  A document whose extension [upload_document] accepts
    ([os.path.splitext] on the name of the upload) is read by the
    extractor of that extension: [extract_text_from_file], which looks at
    the suffix of the saved path ([pathlib]), never answers "Unsupported
    file format" for it; a .doc file is read as text, and any failure of
    that is a [ValueError]. *)
Theorem accepted_upload_has_an_extractor :
  forall (env : file_env) (w : main.world) (file : main.UploadFile),
    str_in (lower (snd (splitext (main.filename file)))) main.allowed_extensions
    = true ->
    extract_text_from_file env (upload_path w file)
    = if str_eqb (lower (snd (splitext (main.filename file)))) (py ".pdf")
      then extract_text_from_pdf env
      else if str_eqb (lower (snd (splitext (main.filename file)))) (py ".docx")
      then extract_text_from_docx env
      else if str_eqb (lower (snd (splitext (main.filename file)))) (py ".txt")
      then extract_text_from_txt env
      else rcatch (extract_text_from_txt env) (fun _ => Raise ValueError).
Proof.
  intros env w file H. unfold extract_text_from_file, upload_path.
  assert (Hs : path_suffix (py "data/uploads/" ++ main.now w ++ py "_"
                            ++ main.filename file)
               = snd (splitext (main.filename file))).
  { rewrite List.app_assoc.
    exact (saved_path_keeps_extension _ _ _ text_extensions_literal H). }
  rewrite Hs.
  set (ext := lower (snd (splitext (main.filename file)))) in *.
  unfold str_in, main.allowed_extensions in H. cbn [existsb] in H.
  destruct (str_eqb ext (py ".pdf")); [reflexivity |].
  destruct (str_eqb ext (py ".docx")); [reflexivity |].
  unfold str_in. cbn [existsb].
  destruct (str_eqb ext (py ".txt")); [reflexivity |].
  destruct (str_eqb ext (py ".doc")) eqn:Hdoc; [| discriminate].
  apply StatusLifecycle.str_eqb_eq in Hdoc. rewrite Hdoc. reflexivity.
Qed.

Lemma accepted_upload_has_an_extractor_witness :
  str_in (lower (snd (splitext (main.filename Scenario.pdf_file)))) main.allowed_extensions
  = true /\
  extract_text_from_file Scenario.two_pages
    (upload_path (Scenario.responsive Scenario.summary_json Scenario.summary_json)
       Scenario.pdf_file)
  = Ok (py "Page one." ++ [10%N; 10%N] ++ py "Page two.").
Proof.
  assert (H : str_in (lower (snd (splitext (main.filename Scenario.pdf_file))))
                main.allowed_extensions = true) by (vm_compute; reflexivity).
  split; [exact H |].
  rewrite (accepted_upload_has_an_extractor Scenario.two_pages _ Scenario.pdf_file H).
  vm_compute. reflexivity.
Defined.

End SavedFiles.

Module Transcription.
Import Py audio_processor Notions.

Lemma str_eqb_neq a b : a <> b -> str_eqb a b = false.
Proof.
  intros H. destruct (str_eqb a b) eqn:E; [| reflexivity].
  apply StatusLifecycle.str_eqb_eq in E. contradiction.
Qed.

(** X6.  The backend of a transcription preset is the OpenAI API for the
    preset "api" and the local Whisper model for every other name; a name
    that is not a preset gets the settings of "balanced". *)
Theorem only_the_api_preset_uses_the_api :
  forall preset : str,
    fst (preset_config TRANSCRIPTION_PRESETS preset)
    = (if str_eqb preset (py "api") then py "whisper-api" else py "whisper-local") /\
    (str_in preset (map fst TRANSCRIPTION_PRESETS) = false ->
     preset_config TRANSCRIPTION_PRESETS preset
     = preset_config TRANSCRIPTION_PRESETS (py "balanced")).
Proof.
  intros preset. unfold TRANSCRIPTION_PRESETS. cbn [preset_config map fst str_in existsb].
  destruct (str_eqb preset (py "fast")) eqn:E1.
  { apply StatusLifecycle.str_eqb_eq in E1. subst. split; [reflexivity | discriminate]. }
  destruct (str_eqb preset (py "balanced")) eqn:E2.
  { apply StatusLifecycle.str_eqb_eq in E2. subst. split; [reflexivity | discriminate]. }
  destruct (str_eqb preset (py "accurate")) eqn:E3.
  { apply StatusLifecycle.str_eqb_eq in E3. subst. split; [reflexivity | discriminate]. }
  destruct (str_eqb preset (py "high_quality")) eqn:E4.
  { apply StatusLifecycle.str_eqb_eq in E4. subst. split; [reflexivity | discriminate]. }
  destruct (str_eqb preset (py "api")); split; (reflexivity || discriminate || auto).
Qed.

End Transcription.

(* ===================================================================== *)
(** ** Rows that are written and read back                               *)
(* ===================================================================== *)

Module Rows.
Import Py Json database analysis_engine Notions ProgramLogic.
Local Open Scope py_scope.
Local Open Scope Z_scope.

Lemma find_other_status id id' s docs :
  id' <> id ->
  find (fun d => doc_id d =? id') (map (set_status id s) docs)
  = find (fun d => doc_id d =? id') docs.
Proof.
  intros Hne. induction docs as [| d docs IH]; [reflexivity |].
  cbn [map find]. rewrite CompletedUpload.set_status_id.
  destruct (doc_id d =? id') eqn:E; [| exact IH].
  unfold set_status. apply Z.eqb_eq in E.
  replace (doc_id d =? id) with false; [reflexivity |].
  symmetry. apply Z.eqb_neq. lia.
Qed.

Lemma find_unknown_status id s docs :
  find (fun d => doc_id d =? id) docs = None ->
  map (set_status id s) docs = docs.
Proof.
  induction docs as [| d docs IH]; [reflexivity |].
  cbn [map find]. destruct (doc_id d =? id) eqn:E; [discriminate |].
  intros H. rewrite (IH H). unfold set_status. rewrite E. reflexivity.
Qed.

(** X7.  [update_document_status] changes the status of the document it
    names and nothing else of it; every other document is read as before;
    for an id that no document has it changes no document, and raises
    nothing. *)
Theorem status_update_touches_one_document :
  forall (conn : db) (document_id : Z) (status : str),
    outcome (update_document_status document_id status) conn = Ok tt /\
    (forall d,
        outcome (get_document document_id) conn = Ok (Some d) ->
        outcome (get_document document_id)
                (after (update_document_status document_id status) conn)
        = Ok (Some {| doc_id := doc_id d; doc_title := doc_title d;
                      doc_document_type := doc_document_type d;
                      doc_file_path := doc_file_path d;
                      doc_status := status |})) /\
    (forall other,
        other <> document_id ->
        outcome (get_document other)
                (after (update_document_status document_id status) conn)
        = outcome (get_document other) conn) /\
    (outcome (get_document document_id) conn = Ok None ->
     documents (after (update_document_status document_id status) conn)
     = documents conn).
Proof.
  intros conn document_id status. unfold outcome, after, get_document,
    update_document_status. cbn [fst snd documents].
  split; [reflexivity |]. split; [| split].
  - intros d H. injection H as H. rewrite CompletedUpload.find_set_status, H.
    cbn [option_map]. apply find_some in H as [_ Hid].
    unfold set_status. rewrite Hid. reflexivity.
  - intros other Hne. rewrite (find_other_status _ _ _ _ Hne). reflexivity.
  - intros H. injection H as H. apply find_unknown_status. exact H.
Qed.

Lemma find_bounded (docs : list document) (seq : Z) id :
  Forall (fun d => doc_id d <= seq) docs -> seq < id ->
  find (fun d => doc_id d =? id) docs = None.
Proof.
  intros H Hlt. induction H as [| d docs Hd _ IH]; [reflexivity |].
  cbn [find]. replace (doc_id d =? id) with false; [exact IH |].
  symmetry. apply Z.eqb_neq. lia.
Qed.

Lemma find_app_none {A} (f : A -> bool) l1 l2 :
  find f l1 = None -> find f (l1 ++ l2) = find f l2.
Proof.
  induction l1 as [| x l1 IH]; [reflexivity |]. cbn [find List.app].
  destruct (f x); [discriminate | exact IH].
Qed.

Lemma find_app_other {A} (f : A -> bool) l x :
  f x = false -> find f (l ++ [x]) = find f l.
Proof.
  intros Hx. induction l as [| y l IH]; cbn [find List.app].
  - rewrite Hx. reflexivity.
  - destruct (f y); [reflexivity | exact IH].
Qed.

(** X8.  A document that was created is read back with the id that
    follows the last one given, the fields it was created with and the
    status written last; the other documents are read as before. *)
Theorem created_document_is_read_back :
  forall (conn : db) (title document_type file_path status : str),
    reachable conn ->
    outcome (document_id <- create_document title document_type file_path ;;
             update_document_status document_id status ;;;
             get_document document_id) conn
    = Ok (Some {| doc_id := seq_documents conn + 1; doc_title := title;
                  doc_document_type := document_type;
                  doc_file_path := file_path; doc_status := status |}) /\
    forall other,
      other <> seq_documents conn + 1 ->
      outcome (get_document other)
        (after (document_id <- create_document title document_type file_path ;;
                update_document_status document_id status ;;;
                get_document document_id) conn)
      = outcome (get_document other) conn.
Proof.
  intros conn title document_type file_path status Hreach.
  destruct (StatusColumn.status_is_last_written conn Hreach) as [Hb _].
  unfold outcome, after, bind, create_document, update_document_status,
    get_document. cbn [fst snd documents].
  pose proof (find_bounded (documents conn) (seq_documents conn)
                (seq_documents conn + 1) Hb ltac:(lia)) as Hnone.
  split.
  - rewrite CompletedUpload.find_set_status, (find_app_none _ _ _ Hnone).
    cbn [find doc_id]. rewrite Z.eqb_refl. cbn [option_map].
    unfold set_status. cbn [doc_id]. rewrite Z.eqb_refl. reflexivity.
  - intros other Hne. rewrite (find_other_status _ _ _ _ Hne).
    rewrite find_app_other; [reflexivity |].
    cbn [doc_id]. apply Z.eqb_neq. lia.
Qed.

Lemma created_document_is_read_back_witness :
  reachable init_db /\
  outcome (document_id <- create_document (py "Q1") (py "other") (py "q1.txt") ;;
           update_document_status document_id (py "processing") ;;;
           get_document document_id) init_db
  = Ok (Some {| doc_id := 1; doc_title := py "Q1";
                doc_document_type := py "other";
                doc_file_path := py "q1.txt"; doc_status := py "processing" |}).
Proof.
  split; [exact reach_init |].
  exact (proj1 (created_document_is_read_back init_db (py "Q1") (py "other")
                  (py "q1.txt") (py "processing") reach_init)).
Defined.

Lemma find_deleted id (rows : list comparison) :
  find (fun c => cmp_id c =? id) (filter (fun c => negb (cmp_id c =? id)) rows)
  = None.
Proof.
  induction rows as [| c rows IH]; [reflexivity |]. cbn [filter].
  destruct (cmp_id c =? id) eqn:E; cbn [negb]; [exact IH |].
  cbn [find]. rewrite E. exact IH.
Qed.

Lemma find_kept id other (rows : list comparison) :
  other <> id ->
  find (fun c => cmp_id c =? other) (filter (fun c => negb (cmp_id c =? id)) rows)
  = find (fun c => cmp_id c =? other) rows.
Proof.
  intros Hne. induction rows as [| c rows IH]; [reflexivity |]. cbn [filter find].
  destruct (cmp_id c =? id) eqn:E; cbn [negb].
  - replace (cmp_id c =? other) with false; [exact IH |].
    symmetry. apply Z.eqb_neq. apply Z.eqb_eq in E. lia.
  - cbn [find]. destruct (cmp_id c =? other); [reflexivity | exact IH].
Qed.

Lemma existsb_deleted id (rows : list comparison) :
  existsb (fun c => cmp_id c =? id) (filter (fun c => negb (cmp_id c =? id)) rows)
  = false.
Proof.
  induction rows as [| c rows IH]; [reflexivity |]. cbn [filter].
  destruct (cmp_id c =? id) eqn:E; cbn [negb]; [exact IH |].
  cbn [existsb]. rewrite E. exact IH.
Qed.

(** X9.  [DELETE /api/comparisons/{id}] succeeds exactly when the
    comparison exists, and is answered 404 otherwise; afterwards the
    comparison cannot be read, a second request is answered 404, and the
    other comparisons are read as before. *)
Theorem deleted_comparison_is_gone :
  forall (conn : db) (comparison_id : Z),
    (outcome (main.delete_document_comparison comparison_id) conn
     = (if existsb (fun c => cmp_id c =? comparison_id) (comparisons conn)
        then Ok true
        else Raise (HTTPException 404 (py "Comparison not found") None))) /\
    outcome (get_comparison comparison_id)
            (after (main.delete_document_comparison comparison_id) conn) = Ok None /\
    outcome (main.delete_document_comparison comparison_id)
            (after (main.delete_document_comparison comparison_id) conn)
    = Raise (HTTPException 404 (py "Comparison not found") None) /\
    (forall other,
        other <> comparison_id ->
        outcome (get_comparison other)
                (after (main.delete_document_comparison comparison_id) conn)
        = outcome (get_comparison other) conn).
Proof.
  intros conn comparison_id.
  assert (Hafter : comparisons (after (main.delete_document_comparison comparison_id) conn)
                   = filter (fun c => negb (cmp_id c =? comparison_id))
                            (comparisons conn)).
  { unfold after, main.delete_document_comparison, delete_comparison, bind.
    cbn [fst snd]. destruct (existsb _ _); reflexivity. }
  split; [| split; [| split]].
  - unfold outcome, main.delete_document_comparison, delete_comparison, bind.
    destruct (existsb _ _); reflexivity.
  - unfold outcome, get_comparison. rewrite Hafter, find_deleted. reflexivity.
  - unfold outcome at 1.
    unfold main.delete_document_comparison at 1, delete_comparison at 1, bind.
    rewrite Hafter, existsb_deleted. reflexivity.
  - intros other Hne. unfold outcome, get_comparison.
    rewrite Hafter, (find_kept _ _ _ Hne).
    destruct (find _ (comparisons conn)) as [row |]; [| reflexivity].
    destruct (loads (cmp_document_ids row)); reflexivity.
Qed.

(** X10.  The id of a comparison is never given again, even once the
    comparison is deleted: a comparison created after a deletion gets an
    id above the id of every comparison there was. *)
Theorem comparison_ids_are_not_reused :
  forall (conn : db) (comparison_id : Z) (title : str) (description : option str)
         (document_ids : list Z),
    reachable conn ->
    exists new_id,
      outcome (delete_comparison comparison_id ;;;
               create_comparison title description document_ids) conn
      = Ok new_id /\
      Forall (fun c => cmp_id c < new_id) (comparisons conn).
Proof.
  intros conn comparison_id title description document_ids Hreach.
  destruct (Invariants.reachable_consistent conn Hreach) as [[_ [_ Hc]] _].
  exists (seq_comparisons conn + 1). split; [reflexivity |].
  eapply Forall_impl; [| exact Hc]. cbv beta. intros; lia.
Qed.

Lemma compared_reachable : reachable Scenario.compared.
Proof.
  apply reach_create_comparison.
  apply reach_upload_document, reach_upload_document, reach_init.
Qed.

Lemma comparison_ids_are_not_reused_witness :
  reachable Scenario.compared /\
  exists new_id,
    outcome (delete_comparison 1 ;;;
             create_comparison (py "Again") None [2; 1]) Scenario.compared
    = Ok new_id /\
    Forall (fun c => cmp_id c < new_id) (comparisons Scenario.compared).
Proof.
  split; [exact compared_reachable |].
  exact (comparison_ids_are_not_reused Scenario.compared 1 (py "Again") None [2; 1]
           compared_reachable).
Defined.

Example deleted_id_is_not_reused :
  map cmp_id (comparisons Scenario.compared) = [1] /\
  outcome (delete_comparison 1 ;;;
           create_comparison (py "Again") None [2; 1]) Scenario.compared
  = Ok 2.
Proof. split; vm_compute; reflexivity. Qed.

Lemma verify_documents_unknown conn document_ids missing :
  first_unknown document_ids conn = Some missing ->
  main.verify_documents document_ids conn
  = (Raise (HTTPException 404
              (py "Document " ++ str_of_int missing ++ py " not found") None),
     conn).
Proof.
  unfold first_unknown, has_document.
  induction document_ids as [| id rest IH]; [discriminate |].
  cbn [find main.verify_documents]. unfold bind, get_document at 1.
  destruct (find (fun d => doc_id d =? id) (documents conn)) as [d |] eqn:Hfind.
  - apply find_some in Hfind as [Hin Hid].
    assert (Hex : existsb (fun d => doc_id d =? id) (documents conn) = true).
    { apply existsb_exists. exists d. auto. }
    rewrite Hex. cbn [negb]. exact IH.
  - assert (Hex : existsb (fun d => doc_id d =? id) (documents conn) = false).
    { destruct (existsb _ _) eqn:E; [| reflexivity].
      apply existsb_exists in E as [d [Hin Hid]].
      pose proof (find_none _ _ Hfind d Hin) as Hn. cbv beta in Hn. congruence. }
    rewrite Hex. cbn [negb]. intros H. injection H as <-. reflexivity.
Qed.

(** X11.  A comparison of at least two documents that names a document
    that does not exist is refused with 404 and the id of the first such
    document; nothing is stored. *)
Theorem comparison_of_unknown_document_is_refused :
  forall (conn : db) (title : str) (description : option str)
         (document_ids : list Z) (missing : Z),
    (2 <= List.length document_ids)%nat ->
    first_unknown document_ids conn = Some missing ->
    main.create_document_comparison title description document_ids conn
    = (Raise (HTTPException 404
                (py "Document " ++ str_of_int missing ++ py " not found") None),
       conn).
Proof.
  intros conn title description document_ids missing Hlen Hmiss.
  unfold main.create_document_comparison.
  replace (Z.of_nat (List.length document_ids) <? 2) with false
    by (symmetry; apply Z.ltb_ge; lia).
  unfold bind at 1. rewrite (verify_documents_unknown _ _ _ Hmiss). reflexivity.
Qed.

Lemma comparison_of_unknown_document_is_refused_witness :
  first_unknown [1; 5] Scenario.one_upload = Some 5 /\
  main.create_document_comparison (py "Q1 vs Q5") None [1; 5] Scenario.one_upload
  = (Raise (HTTPException 404 (py "Document 5 not found") None),
     Scenario.one_upload).
Proof.
  assert (H : first_unknown [1; 5] Scenario.one_upload = Some 5)
    by (vm_compute; reflexivity).
  split; [exact H |].
  apply (comparison_of_unknown_document_is_refused Scenario.one_upload
           (py "Q1 vs Q5") None [1; 5] 5); [cbn; lia | exact H].
Defined.

End Rows.

(* ===================================================================== *)
(** ** Rows refer to rows that exist                                     *)
(* ===================================================================== *)

Module Links.
Import Py Json database analysis_engine Notions ProgramLogic.
Local Open Scope py_scope.
Local Open Scope Z_scope.

Lemma ids_upto_succ n : 0 <= n -> ids_upto (n + 1) = ids_upto n ++ [n + 1].
Proof.
  intros H. unfold ids_upto.
  replace (Z.to_nat (n + 1)) with (S (Z.to_nat n)) by lia.
  rewrite seq_S, List.map_app. cbn [map]. f_equal. f_equal. lia.
Qed.

Lemma in_ids_upto n id : In id (ids_upto n) <-> 1 <= id <= n.
Proof.
  unfold ids_upto. rewrite in_map_iff. split.
  - intros (k & <- & Hk). apply in_seq in Hk. lia.
  - intros H. exists (Z.to_nat id). split; [lia |]. apply in_seq. lia.
Qed.

Lemma set_status_type id s d :
  doc_document_type (set_status id s d) = doc_document_type d.
Proof. unfold set_status. destruct (doc_id d =? id); reflexivity. Qed.

Lemma document_typed_status id ty document_id status docs conn conn' :
  documents conn = docs ->
  documents conn' = map (set_status document_id status) docs ->
  document_typed id ty conn -> document_typed id ty conn'.
Proof.
  intros H1 H2 (d & Hin & Hid & Hty). unfold document_typed. rewrite H2.
  exists (set_status document_id status d). rewrite H1 in Hin.
  split; [apply in_map; exact Hin |].
  rewrite CompletedUpload.set_status_id, set_status_type. auto.
Qed.

Lemma metrics_linked_status document_id status conn m :
  metrics_linked conn m ->
  metrics_linked (snd (update_document_status document_id status conn)) m.
Proof.
  intros (a & Hin & Hrow & Hd). exists a. split; [exact Hin |].
  split; [exact Hrow |].
  eapply document_typed_status; [reflexivity | reflexivity | exact Hd].
Qed.

Lemma update_status_linked document_id status :
  preserves linked (update_document_status document_id status).
Proof.
  intros c ([H0 H1] & H2 & H3 & H4 & H5 & H6).
  cbv beta iota. unfold linked, documents_numbered.
  cbn [update_document_status snd documents seq_documents analyses sections
       metrics_history comparisons].
  repeat split; try assumption.
  - rewrite map_map. rewrite <- H1. apply map_ext. intros d.
    apply CompletedUpload.set_status_id.
  - eapply Forall_impl; [| exact H5]. intros m.
    apply (metrics_linked_status document_id status c).
Qed.

Lemma update_status_staged doc_id document_type document_id status :
  preserves (staged doc_id document_type)
    (update_document_status document_id status).
Proof.
  intros c (Hs & Hd & Hr & Hf).
  pose proof (update_status_linked document_id status c Hs) as Hs'.
  cbv beta iota in *. split; [exact Hs' |]. split; [| split; assumption].
  eapply document_typed_status; [reflexivity | reflexivity | exact Hd].
Qed.

Lemma document_typed_more id ty conn conn' new :
  documents conn' = documents conn ++ new ->
  document_typed id ty conn -> document_typed id ty conn'.
Proof.
  intros H (d & Hin & Hrest). exists d. rewrite H.
  split; [apply in_or_app; left; exact Hin | exact Hrest].
Qed.

Lemma create_document_staged title document_type file_path :
  hoare linked (create_document title document_type file_path)
    (fun doc_id => staged doc_id document_type) linked.
Proof.
  intros c ([H0 H1] & H2 & H3 & H4 & H5 & H6). cbv beta iota.
  unfold staged, linked, documents_numbered, create_document.
  cbn [snd fst documents seq_documents analyses sections metrics_history
       comparisons].
  split; [| split; [| split]].
  - repeat split; try assumption.
    + lia.
    + rewrite List.map_app, H1, (ids_upto_succ _ H0). reflexivity.
    + eapply Forall_impl; [| exact H2]. unfold analysis_linked.
      cbn [seq_documents]. intros; lia.
    + eapply Forall_impl; [| exact H5].
      intros m (a & Hin & Hrow & Hd). exists a. split; [exact Hin |].
      split; [exact Hrow |].
      eapply document_typed_more; [| exact Hd]. reflexivity.
    + eapply Forall_impl; [| exact H6].
      intros x (ids & Htext & Hlen & Hids). exists ids.
      split; [exact Htext |]. split; [exact Hlen |].
      eapply Forall_impl; [| exact Hids]. cbn [seq_documents]. intros; lia.
  - eexists. split; [apply in_or_app; right; left; reflexivity |].
    split; reflexivity.
  - lia.
  - intros Hin. apply in_map_iff in Hin as (a & Ha & Hin).
    rewrite Forall_forall in H2. specialize (H2 a Hin).
    unfold analysis_linked in H2. lia.
Qed.

(** The loop over the sections adds sections of the analysis it is given. *)
Lemma store_sections_linked analysis_id items :
  forall conn,
    linked conn ->
    In analysis_id (map an_id (analyses conn)) ->
    linked (snd (main.store_sections analysis_id items conn)).
Proof.
  induction items as [| [idx section] rest IH]; intros conn Hs Hin; [exact Hs |].
  destruct (Invariants.store_sections_step analysis_id idx section rest conn)
    as [[e He] | [s [Hstep [Hid _]]]]; rewrite ?He, ?Hstep; [exact Hs |].
  apply IH; [| exact Hin].
  destruct Hs as (H1 & H2 & H3 & H4 & H5 & H6).
  unfold linked. cbn [insert_section documents seq_documents analyses sections
                     metrics_history comparisons].
  repeat split; try assumption; try apply H1.
  apply Forall_app. split; [exact H4 |]. constructor; [| constructor].
  unfold section_linked. rewrite Hid. exact Hin.
Qed.

Lemma analyze_and_store_linked i generate_doc generate_sec doc_id document_type
  text_content model :
  hoare (staged doc_id document_type)
    (main.analyze_and_store i generate_doc generate_sec doc_id document_type
       text_content model)
    (fun _ => linked) linked.
Proof.
  intros conn (Hs & Hd & Hr & Hf).
  rewrite Pipeline.analyze_and_store_unfold.
  destruct (analyze_document_content i generate_doc text_content model)
    as [analysis_result |]; [| exact Hs].
  destruct (analysis_row (seq_analyses conn + 1) doc_id analysis_result)
    as [a |] eqn:Hrow; [| exact Hs].
  apply Pipeline.analysis_row_inv in Hrow as (Hid & Hdoc & _).
  assert (Hs1 : linked (insert_analysis a conn)).
  { destruct Hs as (H1 & H2 & H3 & H4 & H5 & H6).
    unfold linked. cbn [insert_analysis documents seq_documents analyses sections
                       metrics_history comparisons].
    split; [exact H1 |]. split; [| split; [| split; [| split]]].
    - apply Forall_app. split; [exact H2 |]. constructor; [| constructor].
      unfold analysis_linked. cbn [seq_documents insert_analysis].
      rewrite Hdoc. exact Hr.
    - rewrite List.map_app. cbn [map]. apply NoDup_app; [exact H3 | |].
      + constructor; [intros [] | constructor].
      + intros x Hx [<- | []]. rewrite Hdoc in Hx. exact (Hf Hx).
    - eapply Forall_impl; [| exact H4]. intros s Hin.
      unfold section_linked in *. cbn [analyses insert_analysis].
      rewrite List.map_app. apply in_or_app. left. exact Hin.
    - eapply Forall_impl; [| exact H5]. intros m (a0 & Hin & Hrest).
      exists a0. split; [| exact Hrest]. cbn [analyses insert_analysis].
      apply in_or_app. left. exact Hin.
    - exact H6. }
  assert (Hin1 : In (an_id a) (map an_id (analyses (insert_analysis a conn)))).
  { cbn [analyses insert_analysis]. rewrite List.map_app. apply in_or_app.
    right. left. reflexivity. }
  destruct (rbind _ iter) as [items |]; [| exact Hs1].
  pose proof (store_sections_linked (an_id a) (enumerate items)
                (insert_analysis a conn) Hs1 Hin1) as Hs2.
  pose proof (CompletedUpload.store_sections_outside (an_id a) (enumerate items)
                (insert_analysis a conn)) as Hout.
  destruct (main.store_sections (an_id a) (enumerate items)
              (insert_analysis a conn)) as [[u | e] conn2];
    cbn [snd] in *; [| exact Hs2].
  unfold outside_sections in Hout. injection Hout as Hdocs Han _ _ _ _ _ _ _.
  cbn [insert_analysis documents analyses] in Hdocs, Han.
  destruct Hs2 as (H1 & H2 & H3 & H4 & H5 & H6).
  unfold linked. cbn [insert_metrics documents seq_documents analyses sections
                     metrics_history comparisons].
  repeat split; try assumption; try apply H1.
  apply Forall_app. split; [exact H5 |]. constructor; [| constructor].
  exists a. cbn [analyses insert_metrics].
  split; [rewrite Han; apply in_or_app; right; left; reflexivity |].
  split; [reflexivity |].
  cbn [met_document_type metrics_row]. rewrite Hdoc.
  destruct Hd as (d & Hind & Hrest). exists d.
  cbn [documents insert_metrics]. rewrite Hdocs. auto.
Qed.

Lemma staged_linked doc_id document_type conn :
  staged doc_id document_type conn -> linked conn.
Proof. intros [H _]. exact H. Qed.

Lemma upload_document_linked w title document_type model file :
  preserves linked (main.upload_document w title document_type model file).
Proof.
  unfold main.upload_document.
  destruct (str_in document_type main.valid_types); cbn [negb];
    [| apply preserves_raise].
  destruct (str_in _ main.allowed_extensions); cbn [negb];
    [| apply preserves_raise].
  destruct (check_ollama_status (main.tags_status w)); [| apply preserves_raise].
  apply preserves_bind; [apply preserves_lift | intros available_models].
  destruct (main.model_in model available_models); cbn [negb];
    [| destruct (main.join_values _ _); apply preserves_raise].
  apply preserves_bind; [apply preserves_lift | intros _].
  eapply hoare_bind; [apply create_document_staged | intros doc_id].
  eapply hoare_bind with (R := fun _ => linked);
    [| intros _; apply StatusLifecycle.get_document_preserves].
  eapply hoare_try with (E' := linked).
  - eapply hoare_bind with (R := fun _ => staged doc_id document_type).
    { apply hoare_lift; [auto | intros e c _; apply staged_linked]. }
    intros text_content.
    eapply hoare_bind with (R := fun _ => staged doc_id document_type).
    { eapply hoare_consequence;
        [apply (update_status_staged doc_id document_type doc_id (py "processing"))
        | auto | auto | apply staged_linked]. }
    intros _.
    eapply hoare_bind with (R := fun _ => linked);
      [apply analyze_and_store_linked | intros _; apply update_status_linked].
  - intros e. apply preserves_bind; [apply update_status_linked |].
    intros _. apply preserves_raise.
Qed.

Lemma upload_audio_linked w title document_type model preset language speakers
  file :
  preserves linked
    (main_audio.upload_audio_document w title document_type model preset
       language speakers file).
Proof.
  unfold main_audio.upload_audio_document.
  destruct (str_in document_type main_audio.valid_types); cbn [negb];
    [| apply preserves_raise].
  destruct (str_in _ main_audio.allowed_extensions); cbn [negb];
    [| apply preserves_raise].
  apply preserves_bind; [apply preserves_lift | intros _].
  eapply hoare_bind; [apply create_document_staged | intros doc_id].
  eapply hoare_try with (E' := linked).
  - eapply hoare_bind with (R := fun _ => staged doc_id document_type).
    { eapply hoare_consequence;
        [apply (update_status_staged doc_id document_type doc_id (py "transcribing"))
        | auto | auto | apply staged_linked]. }
    intros _.
    eapply hoare_bind with (R := fun _ => staged doc_id document_type).
    { apply hoare_lift; [auto | intros e c _; apply staged_linked]. }
    intros transcription_result.
    eapply hoare_bind with (R := fun _ => staged doc_id document_type).
    { apply hoare_lift; [auto | intros e c _; apply staged_linked]. }
    intros _.
    eapply hoare_bind with (R := fun _ => staged doc_id document_type).
    { eapply hoare_consequence;
        [apply (update_status_staged doc_id document_type doc_id (py "analyzing"))
        | auto | auto | apply staged_linked]. }
    intros _.
    eapply hoare_bind with (R := fun _ => linked);
      [apply analyze_and_store_linked | intros analysis_result].
    apply preserves_bind; [apply update_status_linked | intros _].
    auto 10 with preserve.
  - intros e. apply preserves_bind; [apply update_status_linked |].
    intros _. apply preserves_raise.
Qed.

Lemma has_document_in_range conn id :
  documents_numbered conn -> has_document id conn = true ->
  1 <= id <= seq_documents conn.
Proof.
  intros [_ Hn] H. unfold has_document in H.
  apply existsb_exists in H as (d & Hin & Hid). apply Z.eqb_eq in Hid.
  apply in_ids_upto. rewrite <- Hn, <- Hid. apply in_map. exact Hin.
Qed.

Lemma document_in_range conn id :
  documents_numbered conn -> 1 <= id <= seq_documents conn ->
  exists d, find (fun d => doc_id d =? id) (documents conn) = Some d /\
            doc_id d = id.
Proof.
  intros [_ Hn] H. apply in_ids_upto in H. rewrite <- Hn in H.
  apply in_map_iff in H as (d & Hid & Hin).
  destruct (find (fun d => doc_id d =? id) (documents conn)) as [d' |] eqn:Hfind.
  - exists d'. split; [reflexivity |]. apply find_some in Hfind as [_ H'].
    apply Z.eqb_eq. exact H'.
  - pose proof (find_none _ _ Hfind d Hin) as Hn'. cbv beta in Hn'.
    apply Z.eqb_neq in Hn'. contradiction.
Qed.

Lemma first_unknown_none conn document_ids :
  first_unknown document_ids conn = None ->
  Forall (fun id => has_document id conn = true) document_ids.
Proof.
  unfold first_unknown. intros H. apply Forall_forall. intros id Hin.
  pose proof (find_none _ _ H id Hin) as Hn. cbv beta in Hn.
  apply negb_false_iff. exact Hn.
Qed.

Lemma has_document_found conn id :
  has_document id conn = true ->
  exists d, outcome (get_document id) conn = Ok (Some d).
Proof.
  unfold has_document, outcome, get_document. cbn [fst]. intros H.
  apply existsb_exists in H as (d & Hin & Hid).
  destruct (find (fun d => doc_id d =? id) (documents conn)) as [d' |] eqn:Hfind;
    [eauto |].
  pose proof (find_none _ _ Hfind d Hin) as Hn. cbv beta in Hn. congruence.
Qed.

Lemma create_document_comparison_linked title description document_ids :
  preserves linked
    (main.create_document_comparison title description document_ids).
Proof.
  intros conn Hs. unfold main.create_document_comparison.
  destruct (Z.of_nat (List.length document_ids) <? 2) eqn:Hlen; [exact Hs |].
  apply Z.ltb_ge in Hlen.
  destruct (first_unknown document_ids conn) as [missing |] eqn:Hu.
  - unfold bind at 1. rewrite (Rows.verify_documents_unknown _ _ _ Hu). exact Hs.
  - apply first_unknown_none in Hu.
    assert (Hall : Forall (fun id => exists d,
                             outcome (get_document id) conn = Ok (Some d))
                          document_ids).
    { eapply Forall_impl; [| exact Hu]. intros id. apply has_document_found. }
    unfold bind at 1. rewrite (Comparisons.verify_documents_found _ _ Hall).
    unfold bind, create_comparison.
    apply Invariants.get_comparison_preserves.
    destruct Hs as (H1 & H2 & H3 & H4 & H5 & H6).
    unfold linked. cbn [insert_comparison documents seq_documents analyses
                       sections metrics_history comparisons].
    repeat split; try assumption; try apply H1.
    apply Forall_app. split; [exact H6 |]. constructor; [| constructor].
    exists document_ids. cbn [cmp_document_ids]. split; [reflexivity |].
    split; [lia |].
    eapply Forall_impl; [| exact Hu]. intros id Hid.
    exact (has_document_in_range conn id H1 Hid).
Qed.

Lemma delete_comparison_linked comparison_id :
  preserves linked (delete_comparison comparison_id).
Proof.
  intros conn (H1 & H2 & H3 & H4 & H5 & H6). cbv beta iota.
  unfold linked. cbn [delete_comparison snd documents seq_documents analyses
                     sections metrics_history comparisons].
  repeat split; try assumption; try apply H1.
  apply Forall_forall. intros c Hc. apply filter_In in Hc as [Hc _].
  rewrite Forall_forall in H6. exact (H6 c Hc).
Qed.

Lemma init_db_linked : linked init_db.
Proof.
  unfold linked, documents_numbered. cbn.
  repeat split; try constructor. lia.
Qed.

(** Every database the program produces is linked. *)
Lemma reachable_linked conn : reachable conn -> linked conn.
Proof.
  induction 1 as [| w t dt m f conn _ IH | w t dt m p l sp f conn _ IH
                  | t d ids conn _ IH | id conn _ IH].
  - exact init_db_linked.
  - exact (preserves_after _ _ conn (upload_document_linked w t dt m f) IH).
  - exact (preserves_after _ _ conn (upload_audio_linked w t dt m p l sp f) IH).
  - exact (preserves_after _ _ conn (create_document_comparison_linked t d ids) IH).
  - exact (preserves_after _ _ conn (delete_comparison_linked id) IH).
Qed.

End Links.

Module LinkedRows.
Import Py Json database analysis_engine Notions ProgramLogic Links.
Local Open Scope py_scope.
Local Open Scope Z_scope.

Lemma two_uploads_reachable : reachable Scenario.two_uploads.
Proof. apply reach_upload_document, reach_upload_document, reach_init. Qed.

(** X12.  Documents are numbered from 1 in the order of their creation and
    none is ever lost: [GET /api/documents/{id}] finds the document for
    every id from 1 to the number of documents created, and answers 404
    for any other id. *)
Theorem documents_are_numbered_and_kept :
  forall conn : db,
    reachable conn ->
    map doc_id (documents conn) = ids_upto (seq_documents conn) /\
    forall id : Z,
      if (1 <=? id) && (id <=? seq_documents conn)
      then exists d, outcome (main.get_document_by_id id) conn = Ok d /\ doc_id d = id
      else outcome (main.get_document_by_id id) conn
           = Raise (HTTPException 404 (py "Document not found") None).
Proof.
  intros conn Hreach.
  destruct (reachable_linked conn Hreach) as (Hn & _).
  split; [apply Hn |]. intros id.
  unfold outcome, main.get_document_by_id, bind, get_document. cbn [fst].
  destruct ((1 <=? id) && (id <=? seq_documents conn)) eqn:Hrange.
  - apply andb_true_iff in Hrange as [Ha Hb].
    apply Z.leb_le in Ha. apply Z.leb_le in Hb.
    destruct (document_in_range conn id Hn (conj Ha Hb)) as (d & Hfind & Hid).
    rewrite Hfind. exists d. split; [reflexivity | exact Hid].
  - destruct (find (fun d => doc_id d =? id) (documents conn)) as [d |] eqn:Hfind;
      [| reflexivity].
    apply find_some in Hfind as [Hin Hid]. apply Z.eqb_eq in Hid.
    assert (Hr : 1 <= id <= seq_documents conn).
    { apply in_ids_upto. destruct Hn as [_ Hn]. rewrite <- Hn, <- Hid.
      apply in_map. exact Hin. }
    apply andb_false_iff in Hrange as [H | H];
      [apply Z.leb_gt in H | apply Z.leb_gt in H]; lia.
Qed.

Lemma documents_are_numbered_and_kept_witness :
  reachable Scenario.one_upload /\
  map doc_id (documents Scenario.one_upload)
  = ids_upto (seq_documents Scenario.one_upload) /\
  forall id : Z,
    if (1 <=? id) && (id <=? seq_documents Scenario.one_upload)
    then exists d, outcome (main.get_document_by_id id) Scenario.one_upload = Ok d
                   /\ doc_id d = id
    else outcome (main.get_document_by_id id) Scenario.one_upload
         = Raise (HTTPException 404 (py "Document not found") None).
Proof.
  assert (H : reachable Scenario.one_upload).
  { apply (reach_upload_document _ _ _ _ _ init_db reach_init). }
  split; [exact H |].
  exact (documents_are_numbered_and_kept Scenario.one_upload H).
Defined.

Example two_uploads_documents :
  map doc_id (documents Scenario.two_uploads) = [1; 2] /\
  map doc_status (documents Scenario.two_uploads) = [completed; completed] /\
  outcome (main.get_document_by_id 3) Scenario.two_uploads
  = Raise (HTTPException 404 (py "Document not found") None).
Proof. repeat split; vm_compute; reflexivity. Qed.

(** X15.  Every comparison the program stores can be read ([json.loads]
    never fails on the column), and reads as a list of at least two ids,
    each the id of a document that exists. *)
Theorem comparisons_name_existing_documents :
  forall conn : db,
    reachable conn ->
    forall comparison_id : Z,
      match outcome (get_comparison comparison_id) conn with
      | Ok (Some view) =>
          cv_id view = comparison_id /\
          exists ids,
            cv_document_ids view = PList (map PInt ids) /\
            (2 <= List.length ids)%nat /\
            Forall (fun id => exists d,
                      outcome (main.get_document_by_id id) conn = Ok d /\ doc_id d = id)
                   ids
      | Ok None => ~ In comparison_id (map cmp_id (comparisons conn))
      | Raise _ => False
      end.
Proof.
  intros conn Hreach comparison_id.
  destruct (reachable_linked conn Hreach) as (Hn & _ & _ & _ & _ & Hc).
  unfold outcome, get_comparison.
  destruct (find (fun c => cmp_id c =? comparison_id) (comparisons conn))
    as [row |] eqn:Hfind; cbn [fst].
  - apply find_some in Hfind as [Hin Hid]. apply Z.eqb_eq in Hid.
    rewrite Forall_forall in Hc.
    destruct (Hc row Hin) as (ids & Htext & Hlen & Hids).
    rewrite Htext, JsonRoundTrip.loads_dumps_ints. cbn [fst cv_id cv_document_ids].
    split; [exact Hid |]. exists ids. split; [reflexivity |].
    split; [exact Hlen |].
    eapply Forall_impl; [| exact Hids]. intros id Hr.
    destruct (document_in_range conn id Hn Hr) as (d & Hd & Hdid).
    exists d. unfold outcome, main.get_document_by_id, bind, get_document.
    rewrite Hd. auto.
  - intros Hin. apply in_map_iff in Hin as (c & Hid & Hin).
    pose proof (find_none _ _ Hfind c Hin) as Hn'. cbv beta in Hn'.
    apply Z.eqb_neq in Hn'. contradiction.
Qed.

Lemma comparisons_name_existing_documents_witness :
  reachable Scenario.compared /\
  forall comparison_id : Z,
    match outcome (get_comparison comparison_id) Scenario.compared with
    | Ok (Some view) =>
        cv_id view = comparison_id /\
        exists ids,
          cv_document_ids view = PList (map PInt ids) /\
          (2 <= List.length ids)%nat /\
          Forall (fun id => exists d,
                    outcome (main.get_document_by_id id) Scenario.compared = Ok d
                    /\ doc_id d = id)
                 ids
    | Ok None => ~ In comparison_id (map cmp_id (comparisons Scenario.compared))
    | Raise _ => False
    end.
Proof.
  split; [exact Rows.compared_reachable |].
  exact (comparisons_name_existing_documents Scenario.compared
           Rows.compared_reachable).
Defined.

Example compared_documents :
  outcome (get_comparison 1) Scenario.compared
  = Ok (Some {| cv_id := 1; cv_title := py "Q1 vs Q2"; cv_description := None;
                cv_document_ids := PList [PInt 1; PInt 2] |}).
Proof. vm_compute. reflexivity. Qed.

(** X14.  Rows refer to rows that exist, although SQLite does not enforce
    the foreign keys of the schema: every analysis belongs to a document,
    every section to an analysis, and every metrics row is the snapshot
    of an analysis, with the scores of that analysis and the type of its
    document. *)
Theorem rows_refer_to_existing_rows :
  forall conn : db,
    reachable conn ->
    (forall a, In a (analyses conn) ->
       exists d, outcome (get_document (an_document_id a)) conn = Ok (Some d)) /\
    (forall s, In s (sections conn) ->
       exists a, In a (analyses conn) /\ an_id a = sec_analysis_id s) /\
    (forall m, In m (metrics_history conn) ->
       exists a d,
         In a (analyses conn) /\ In d (documents conn) /\
         an_id a = met_analysis_id m /\
         an_document_id a = met_document_id m /\
         doc_id d = met_document_id m /\
         doc_document_type d = met_document_type m /\
         met_sentiment_score m = an_sentiment_score a /\
         met_confidence_score m = an_confidence_score a /\
         met_clarity_score m = an_clarity_score a /\
         met_readability_score m = an_readability_score a /\
         met_specificity_score m = an_specificity_score a).
Proof.
  intros conn Hreach.
  destruct (reachable_linked conn Hreach) as (Hn & Ha & _ & Hs & Hm & _).
  rewrite Forall_forall in Ha, Hs, Hm. split; [| split].
  - intros a Hin.
    destruct (document_in_range conn _ Hn (Ha a Hin)) as (d & Hd & _).
    exists d. unfold outcome, get_document. rewrite Hd. reflexivity.
  - intros s Hin. specialize (Hs s Hin). unfold section_linked in Hs.
    apply in_map_iff in Hs as (a & Hid & Hina). eauto.
  - intros m Hin. destruct (Hm m Hin) as (a & Hina & Hrow & d & Hind & Hid & Hty).
    exists a, d. rewrite Hrow. cbn. rewrite Hid. auto 20.
Qed.

Lemma rows_refer_to_existing_rows_witness :
  reachable Scenario.two_uploads /\
  (forall a, In a (analyses Scenario.two_uploads) ->
     exists d, outcome (get_document (an_document_id a)) Scenario.two_uploads
               = Ok (Some d)) /\
  (forall s, In s (sections Scenario.two_uploads) ->
     exists a, In a (analyses Scenario.two_uploads) /\
               an_id a = sec_analysis_id s) /\
  (forall m, In m (metrics_history Scenario.two_uploads) ->
     exists a d,
       In a (analyses Scenario.two_uploads) /\
       In d (documents Scenario.two_uploads) /\
       an_id a = met_analysis_id m /\
       an_document_id a = met_document_id m /\
       doc_id d = met_document_id m /\
       doc_document_type d = met_document_type m /\
       met_sentiment_score m = an_sentiment_score a /\
       met_confidence_score m = an_confidence_score a /\
       met_clarity_score m = an_clarity_score a /\
       met_readability_score m = an_readability_score a /\
       met_specificity_score m = an_specificity_score a).
Proof.
  split; [exact two_uploads_reachable |].
  exact (rows_refer_to_existing_rows Scenario.two_uploads two_uploads_reachable).
Defined.

Example two_uploads_rows :
  map (fun a => (an_id a, an_document_id a)) (analyses Scenario.two_uploads)
  = [(1, 1); (2, 2)] /\
  map (fun s => (sec_id s, sec_analysis_id s)) (sections Scenario.two_uploads)
  = [(1, 1); (2, 1); (3, 2); (4, 2)] /\
  map (fun m => (met_analysis_id m, met_document_type m, met_sentiment_score m))
      (metrics_history Scenario.two_uploads)
  = [(1, py "other", SqlInt 70); (2, py "press_release", SqlInt 40)].
Proof. repeat split; vm_compute; reflexivity. Qed.

Lemma filter_unique {A} (f : A -> Z) (k : Z) (l : list A) :
  NoDup (map f l) ->
  (List.length (filter (fun a => (f a =? k)%Z) l) <= 1)%nat.
Proof.
  induction l as [| x l IH]; cbn [map filter List.length]; [lia |].
  intros H. inversion H as [| ? ? Hx Hl]; subst.
  destruct (f x =? k) eqn:E; [| exact (IH Hl)].
  apply Z.eqb_eq in E.
  replace (filter (fun a => f a =? k) l) with (@nil A); [cbn; lia |].
  symmetry. apply Invariants.filter_none with (P := fun a => In a l).
  - apply Forall_forall. auto.
  - intros y Hy. apply Z.eqb_neq. intros Hk. apply Hx.
    rewrite E, <- Hk. apply in_map. exact Hy.
Qed.

(** X13.  Through the request handlers a document gets at most one
    analysis, so the analysis that is read for it (the first row of the
    scan) is also the one created last. *)
Theorem a_document_has_at_most_one_analysis :
  forall conn : db,
    reachable conn ->
    forall document_id : Z,
      (List.length (analyses_of document_id conn) <= 1)%nat /\
      outcome (get_analysis_by_document_id document_id) conn
      = Ok (latest_analysis document_id conn).
Proof.
  intros conn Hreach document_id.
  destruct (reachable_linked conn Hreach) as (_ & _ & Hd & _).
  pose proof (filter_unique an_document_id document_id (analyses conn) Hd) as Hlen.
  split; [exact Hlen |].
  unfold outcome, get_analysis_by_document_id, latest_analysis. cbn [fst].
  rewrite AnalysisRead.find_is_head_of_filter. fold (analyses_of document_id conn).
  unfold analyses_of in *.
  destruct (filter _ (analyses conn)) as [| a [| b l]]; cbn in *;
    [reflexivity | reflexivity | lia].
Qed.

Lemma a_document_has_at_most_one_analysis_witness :
  reachable Scenario.two_uploads /\
  (List.length (analyses_of 2 Scenario.two_uploads) <= 1)%nat /\
  outcome (get_analysis_by_document_id 2) Scenario.two_uploads
  = Ok (latest_analysis 2 Scenario.two_uploads).
Proof.
  split; [exact two_uploads_reachable |].
  exact (a_document_has_at_most_one_analysis Scenario.two_uploads
           two_uploads_reachable 2).
Defined.

End LinkedRows.

(* ===================================================================== *)
(** ** The document an upload leaves                                     *)
(* ===================================================================== *)

Module UploadedDocument.
Import Py Json database analysis_engine Notions ProgramLogic.
Local Open Scope py_scope.
Local Open Scope Z_scope.

(** Setting the status of a document leaves the documents with a smaller
    id as they are. *)
Lemma set_status_older (id : Z) (s : str) (docs : list document) :
  Forall (fun d => doc_id d < id) docs ->
  map (set_status id s) docs = docs.
Proof.
  intros H. induction H as [| d docs Hd _ IH]; [reflexivity |].
  cbn [map]. rewrite IH. unfold set_status.
  replace (doc_id d =? id) with false; [reflexivity |].
  symmetry. apply Z.eqb_neq. lia.
Qed.

Lemma set_status_newest (id : Z) (s : str) (docs : list document)
  (new : document) :
  Forall (fun d => doc_id d < id) docs ->
  doc_id new = id ->
  map (set_status id s) (docs ++ [new])
  = docs ++ [{| doc_id := id; doc_title := doc_title new;
                doc_document_type := doc_document_type new;
                doc_file_path := doc_file_path new; doc_status := s |}].
Proof.
  intros H Hnew. rewrite List.map_app, (set_status_older _ _ _ H).
  cbn [map]. unfold set_status. rewrite Hnew, Z.eqb_refl. reflexivity.
Qed.

(** X16.  An upload that one of the four checks of [upload_document]
    refuses (document type, extension, backend available, model
    installed) raises and leaves the database as it was. *)
Theorem refused_upload_writes_nothing :
  forall (conn : db) (w : main.world) (title document_type model : str)
         (file : main.UploadFile),
    accepted w document_type model file = false ->
    (exists e,
        outcome (main.upload_document w title document_type model file) conn
        = Raise e) /\
    after (main.upload_document w title document_type model file) conn = conn.
Proof.
  intros conn w title document_type model file H.
  destruct (CompletedUpload.upload_document_refused w title document_type model
              file conn H) as [e He].
  unfold outcome, after. rewrite He. split; [exists e |]; reflexivity.
Qed.

Lemma refused_upload_writes_nothing_witness :
  accepted (Scenario.responsive (Scenario.document_json (py "70"))
                                Scenario.sections_json)
    (py "other") (py "llama3.2")
    {| main.filename := py "q1.exe"; main.size := 50 |} = false /\
  after (main.upload_document
           (Scenario.responsive (Scenario.document_json (py "70"))
                                Scenario.sections_json)
           (py "Test") (py "other") (py "llama3.2")
           {| main.filename := py "q1.exe"; main.size := 50 |})
        Scenario.one_upload
  = Scenario.one_upload.
Proof.
  assert (H : accepted (Scenario.responsive (Scenario.document_json (py "70"))
                                            Scenario.sections_json)
                (py "other") (py "llama3.2")
                {| main.filename := py "q1.exe"; main.size := 50 |} = false)
    by (vm_compute; reflexivity).
  split; [exact H |].
  exact (proj2 (refused_upload_writes_nothing Scenario.one_upload _ (py "Test")
                  _ _ _ H)).
Defined.

(** X17.  An upload that passes the four checks and whose file is saved
    leaves exactly one new document, with the id that follows the last
    one, the title, the type and the path of the upload, and the other
    documents as they were; its status is completed when the request
    returns, and failed when it raises, which it does with status code
    500. *)
Theorem accepted_upload_leaves_one_document :
  forall (conn : db) (w : main.world) (title document_type model : str)
         (file : main.UploadFile),
    reachable conn ->
    accepted w document_type model file = true ->
    main.saved w = Ok tt ->
    exists status,
      documents (after (main.upload_document w title document_type model file)
                   conn)
      = documents conn
        ++ [{| doc_id := seq_documents conn + 1; doc_title := title;
               doc_document_type := document_type;
               doc_file_path := upload_path w file;
               doc_status := status |}] /\
      match outcome (main.upload_document w title document_type model file)
              conn with
      | Ok _ => status = completed
      | Raise (HTTPException 500 _ _) => status = failed
      | Raise _ => False
      end.
Proof.
  intros conn w title document_type model file Hreach Hacc Hsaved.
  destruct (StatusColumn.status_is_last_written conn Hreach) as [Hb _].
  assert (Hold : Forall (fun d => doc_id d < seq_documents conn + 1)
                        (documents conn)).
  { eapply Forall_impl; [| exact Hb]. cbv beta. intros; lia. }
  unfold outcome, after.
  rewrite (CompletedUpload.upload_document_accepted w title document_type model
             file conn Hacc), Hsaved.
  cbv zeta.
  destruct (main.extracted w) as [text_content | e].
  - match goal with
    | |- context [main.analyze_and_store ?i ?a ?b ?c ?d ?e ?f ?g] =>
        pose proof (analyze_and_store_keeps_documents (documents_part g)
                      i a b c d e f g eq_refl) as Hkeep;
        destruct (main.analyze_and_store i a b c d e f g) as [[ar | e0] conn3]
    end;
      unfold documents_part in Hkeep; injection Hkeep as Hdocs _ _ _ _;
      cbn [fst snd get_document update_document_status documents
           create_document] in *;
      rewrite Hdocs;
      rewrite (set_status_newest _ processing _ _ Hold) by reflexivity;
      cbn [doc_title doc_document_type doc_file_path];
      rewrite (set_status_newest _ _ _ _ Hold) by reflexivity;
      eexists; split; reflexivity.
  - cbn [fst snd update_document_status documents create_document].
    rewrite (set_status_newest _ _ _ _ Hold) by reflexivity.
    eexists. split; reflexivity.
Qed.

Lemma accepted_upload_leaves_one_document_witness :
  reachable init_db /\
  exists status,
    documents (after (main.upload_document
                        (Scenario.responsive Scenario.incomplete_json
                                             Scenario.sections_json)
                        (py "Test") (py "other") (py "llama3.2")
                        Scenario.text_file) init_db)
    = documents init_db
      ++ [{| doc_id := seq_documents init_db + 1; doc_title := py "Test";
             doc_document_type := py "other";
             doc_file_path :=
               upload_path (Scenario.responsive Scenario.incomplete_json
                                                Scenario.sections_json)
                           Scenario.text_file;
             doc_status := status |}] /\
    match outcome (main.upload_document
                     (Scenario.responsive Scenario.incomplete_json
                                          Scenario.sections_json)
                     (py "Test") (py "other") (py "llama3.2")
                     Scenario.text_file) init_db with
    | Ok _ => status = completed
    | Raise (HTTPException 500 _ _) => status = failed
    | Raise _ => False
    end.
Proof.
  split; [exact reach_init |].
  apply (accepted_upload_leaves_one_document init_db
           (Scenario.responsive Scenario.incomplete_json Scenario.sections_json)
           (py "Test") (py "other") (py "llama3.2") Scenario.text_file
           reach_init);
    [vm_compute; reflexivity | reflexivity].
Defined.

Example incomplete_answer_fails_the_upload :
  map doc_status
    (documents (after (main.upload_document
                         (Scenario.responsive Scenario.incomplete_json
                                              Scenario.sections_json)
                         (py "Test") (py "other") (py "llama3.2")
                         Scenario.text_file) init_db))
  = [failed].
Proof. vm_compute. reflexivity. Qed.

End UploadedDocument.
